(** * Splicer preview orchestrator: a shallow embedding of the session
      lifecycle engine (splicer-webcontainer) and the properties of its
      specification.

    Layout: the first part embeds the Python sources module by module
    (the names are the sources' names); the second part states and proves
    the properties.

    Conventions of the embedding.
    - A Python [str] is a [string]; the model covers ASCII text: [lower],
      [isalnum] and the regular expression classes act on the ASCII range
      only (Python applies the Unicode tables to other code points).
    - A Python [int] is a [Z]; a timestamp is a [Z] (seconds, UTC).
    - [set] is [gset], [dict] is [gmap], [list] is [list].
    - [None] is [None] of [option]; a raised exception is [Raise e] of
      [result]. *)

From Stdlib Require Import ZArith Ascii String DecimalString.
From stdpp Require Import gmap strings list.

Local Open Scope Z_scope.

(** ** Python built-ins used by the sources *)

Module Py.

(** Exceptions raised by the modelled code. *)
Inductive exn : Type :=
| TypeError (msg : string)
| AttributeError (msg : string)
| ValueError (msg : string)
| RuntimeError (msg : string)
| OSError (msg : string).

(** [str(e)] of an exception. *)
Definition str_of_exn (e : exn) : string :=
  match e with
  | TypeError m | AttributeError m | ValueError m
  | RuntimeError m | OSError m => m
  end.

Inductive result (A : Type) : Type :=
| Ok (a : A)
| Raise (e : exn).
Global Arguments Ok {A} a.
Global Arguments Raise {A} e.

(** [len(s)] *)
Definition len (s : string) : nat := String.length s.

Definition is_upper (c : ascii) : bool :=
  let n := N_of_ascii c in ((65 <=? n) && (n <=? 90))%N.
Definition is_lower (c : ascii) : bool :=
  let n := N_of_ascii c in ((97 <=? n) && (n <=? 122))%N.
Definition is_digit (c : ascii) : bool :=
  let n := N_of_ascii c in ((48 <=? n) && (n <=? 57))%N.

(** [c.isalnum()] on the ASCII range. *)
Definition isalnum (c : ascii) : bool := is_upper c || is_lower c || is_digit c.

(** [c.isspace()] on the ASCII range; it is also the class [\s] of the
regular expressions. *)
Definition isspace (c : ascii) : bool :=
let n := N_of_ascii c in
(((9 <=? n) && (n <=? 13)) || ((28 <=? n) && (n <=? 32)))%N.

(** [c.lower()] on the ASCII range. *)
Definition lower_char (c : ascii) : ascii :=
  if is_upper c then ascii_of_N (N_of_ascii c + 32) else c.

(** [s.lower()] *)
Fixpoint lower (s : string) : string :=
  match s with
  | EmptyString => EmptyString
  | String c s' => String (lower_char c) (lower s')
  end.

(** [s[:n]] for [0 <= n]. *)
Fixpoint take (n : nat) (s : string) : string :=
  match n, s with
  | S n', String c s' => String c (take n' s')
  | _, _ => EmptyString
  end.

(** [s[n:]] for [0 <= n]. *)
Fixpoint drop (n : nat) (s : string) : string :=
  match n, s with
  | S n', String _ s' => drop n' s'
  | _, _ => s
  end.

(** [s.startswith(p)] *)
Fixpoint startswith (s p : string) : bool :=
  match p, s with
  | EmptyString, _ => true
  | String a p', String b s' => bool_decide (a = b) && startswith s' p'
  | String _ _, EmptyString => false
  end.

(** [s.endswith(p)] *)
Definition endswith (s p : string) : bool :=
  bool_decide (len p <= len s)%nat && bool_decide (drop (len s - len p) s = p).

(** [sub in s] *)
Fixpoint contains (sub s : string) : bool :=
  startswith s sub ||
  match s with
  | EmptyString => false
  | String _ s' => contains sub s'
  end.

(** [c in s] for a character. *)
Fixpoint char_in (c : ascii) (s : string) : bool :=
  match s with
  | EmptyString => false
  | String a s' => bool_decide (a = c) || char_in c s'
  end.

(** [all(p(c) for c in s)] *)
Fixpoint all_chars (p : ascii → bool) (s : string) : bool :=
  match s with
  | EmptyString => true
  | String c s' => p c && all_chars p s'
  end.

(** ["".join(c for c in s if p(c))] *)
Fixpoint filter_chars (p : ascii → bool) (s : string) : string :=
  match s with
  | EmptyString => EmptyString
  | String c s' => if p c then String c (filter_chars p s') else filter_chars p s'
  end.

(** [s.split(sep)[0]] for a one-character separator: the text before its
    first occurrence, or all of [s] when there is none. *)
Fixpoint split_first (sep : ascii) (s : string) : string :=
  match s with
  | EmptyString => EmptyString
  | String c s' => if bool_decide (c = sep) then EmptyString else String c (split_first sep s')
  end.

(** [s.replace(old, new)]: every non-overlapping occurrence, left to
    right.  The counter [skip] is the number of characters of the
    occurrence just replaced that are still to be passed over. *)
Fixpoint replace_go (old new : string) (skip : nat) (s : string) : string :=
  match s with
  | EmptyString => EmptyString
  | String c s' =>
      match skip with
      | S k => replace_go old new k s'
      | O =>
          if startswith s old
          then new +:+ replace_go old new (len old - 1) s'
          else String c (replace_go old new O s')
      end
  end.
(** Python inserts [new] around every character for an empty [old]; the
    sources only call [replace] under [if token:], so [old] is never
    empty there and the model returns [s] unchanged in that case. *)
Definition replace (s old new : string) : string :=
  if bool_decide (old = EmptyString) then s else replace_go old new O s.

(** [str(n)] for an [int]. *)
Definition str_of_int (n : Z) : string := NilZero.string_of_int (Z.to_int n).

(** [range(a, b)] *)
Definition range (a b : Z) : list Z := seqZ a (b - a).

(** Truthiness of an optional string: [None] and [""] are false. *)
Definition truthy (o : option string) : option string :=
  match o with
  | Some s => if bool_decide (s = "") then None else Some s
  | None => None
  end.

(** [x in l] for a list of strings. *)
Definition elem (x : string) (l : list string) : bool := bool_decide (x ∈ l).

(** Binding the keyword arguments of a call [f(..., k=v, ...)] to the
    parameters of [f]: a keyword that names no parameter raises
    [TypeError] before the body of [f] runs. *)
Definition unexpected_keyword (qualname : string) (params keywords : list string)
    : option exn :=
  match filter (λ k, k ∉ params) keywords with
  | k :: _ =>
      Some (TypeError (qualname +:+ "() got an unexpected keyword argument '"
                       +:+ k +:+ "'"))
  | [] => None
  end.

(** Computations over a state [S] that return or raise. *)
Definition M (S A : Type) : Type := S → result A * S.

Definition ret {S A} (a : A) : M S A := λ s, (Ok a, s).
Definition raise {S A} (e : exn) : M S A := λ s, (Raise e, s).
Definition bind {S A B} (m : M S A) (k : A → M S B) : M S B :=
  λ s, match m s with
       | (Ok a, s') => k a s'
       | (Raise e, s') => (Raise e, s')
       end.
(** [try: m except Exception as e: h(e)] *)
Definition try_except {S A} (m : M S A) (h : exn → M S A) : M S A :=
  λ s, match m s with
       | (Ok a, s') => (Ok a, s')
       | (Raise e, s') => h e s'
       end.
(** [try: m finally: f] *)
Definition try_finally {S A} (m : M S A) (f : M S unit) : M S A :=
  λ s, match m s with
       | (r, s') =>
           match f s' with
           | (Ok _, s'') => (r, s'')
           | (Raise e, s'') => (Raise e, s'')
           end
       end.
Definition get {S} : M S S := λ s, (Ok s, s).
Definition modify {S} (f : S → S) : M S unit := λ s, (Ok tt, f s).
Definition of_result {S A} (r : result A) : M S A := λ s, (r, s).

End Py.

Notation "'let*' x ':=' c 'in' k" := (Py.bind c (λ x, k))
  (at level 10, x pattern, c at level 100, k at level 200).
Notation "c ';;' k" := (Py.bind c (λ _, k))
  (at level 100, k at level 200, right associativity).

(** ** pathlib.Path *)

Module Path.

(** A path is the list of its parts; the root of an absolute path is the
    part ["/"], as in [Path("/tmp/workspaces").parts]. *)
Definition t : Type := list string.

(** The segments of a string between ["/"] characters. *)
Fixpoint segments (cur : string) (s : string) : list string :=
  match s with
  | EmptyString => [String.rev cur]
  | String c s' =>
      if bool_decide (c = "/"%char) then String.rev cur :: segments "" s'
      else segments (String c cur) s'
  end.

(** The parts a string contributes: empty segments and ["."] are
    dropped. *)
Definition rel_parts (s : string) : list string :=
  filter (λ x, x ≠ "" ∧ x ≠ ".") (segments "" s).

(** [Path(s)] *)
Definition of_str (s : string) : t :=
  (if Py.startswith s "/" then ["/"] else []) ++ rel_parts s.

(** [p / s] *)
Definition joinpath (p : t) (s : string) : t :=
  if Py.startswith s "/" then of_str s else p ++ rel_parts s.

(** [str(p)] *)
Definition to_str (p : t) : string :=
  match p with
  | [] => "."
  | "/" :: rest => "/" +:+ String.concat "/" rest
  | _ => String.concat "/" p
  end.

(** [p] and the paths above it, the empty path left out. *)
Fixpoint ancestors (p : t) : list t :=
  match p with
  | [] => []
  | x :: r => [x] :: ((λ q, x :: q) <$> ancestors r)
  end.

(** [q] is [p] or lies beneath it. *)
Definition beneath (p q : t) : Prop := p `prefix_of` q.

End Path.


(** ** src/services/process_manager.py: PortAllocator *)

Module PortAllocator.

(** [self._start], [self._end], [self._allocated]. *)
Record t : Type := mk {
  _start : Z;
  _end : Z;
  _allocated : gset Z;
}.

(** [PortAllocator(start, end)] *)
Definition init (start end_ : Z) : t := mk start end_ ∅.

Section Host.
(** [_is_port_in_use(port)]: whether psutil reports a connection whose
    local port is [port]. Each port is asked at most once per scan,
    so one function stands for the host's answers during a scan. *)
Variable _is_port_in_use : Z → bool.

(** The [for port in range(...)] loop of [allocate]. *)
Fixpoint scan (allocated : gset Z) (ports : list Z) : option Z :=
  match ports with
  | [] => None
  | port :: rest =>
      if bool_decide (port ∉ allocated) && negb (_is_port_in_use port)
      then Some port
      else scan allocated rest
  end.

(** [allocate()]: the returned port and the allocator afterwards. *)
Definition allocate (a : t) : option Z * t :=
  match scan (_allocated a) (Py.range (_start a) (_end a + 1)) with
  | Some port => (Some port, mk (_start a) (_end a) ({[port]} ∪ _allocated a))
  | None => (None, a)
  end.
End Host.

(** [release(port)]: [self._allocated.discard(port)]. *)
Definition release (a : t) (port : Z) : t :=
  mk (_start a) (_end a) (_allocated a ∖ {[port]}).

End PortAllocator.

(** ** src/utils/security.py *)

Module Security.

Definition TOKEN_PREFIX : string := "spl_".

(** Membership in the literal
    ["ABC...XYZabc...xyz0123456789-_"] of [validate_access_token]. *)
Definition url_safe_char (c : ascii) : bool :=
  Py.is_upper c || Py.is_lower c || Py.is_digit c
  || bool_decide (c = "-"%char) || bool_decide (c = "_"%char).

(** [validate_access_token(token)]: the format check only. *)
Definition validate_access_token (token : option string) : bool :=
  match token with
  | None => false
  | Some token =>
      if bool_decide (token = "") then false
      else if negb (Py.startswith token TOKEN_PREFIX) then false
      else if bool_decide (Py.len token < Py.len TOKEN_PREFIX + 20)%nat then false
      else Py.all_chars url_safe_char (Py.drop (Py.len TOKEN_PREFIX) token)
  end.

(** [constant_time_compare(a, b)]: [hmac.compare_digest] returns the
    equality of the two byte strings. *)
Definition constant_time_compare (a b : string) : bool := bool_decide (a = b).

(** [c.isspace()] on the ASCII range. *)
Definition isspace (c : ascii) : bool :=
  let n := N_of_ascii c in
  (((9 <=? n) && (n <=? 13)) || ((28 <=? n) && (n <=? 32)))%N.

Fixpoint lstrip (s : string) : string :=
  match s with
  | String c s' => if Py.isspace c then lstrip s' else s
  | EmptyString => EmptyString
  end.
Fixpoint rstrip (s : string) : string :=
  match s with
  | String c s' =>
      let r := rstrip s' in
      if bool_decide (r = "") && Py.isspace c then "" else String c r
  | EmptyString => EmptyString
  end.
(** [s.strip()] *)
Definition strip (s : string) : string := rstrip (lstrip s).

(** [is_valid_owner(s)]; [c.isalnum()] is taken on the ASCII range: for
    the characters beyond it Python follows the Unicode database, which
    is not modelled. *)
Definition is_valid_owner (s : string) : bool :=
  if bool_decide (s = "") || bool_decide (39 < Py.len s)%nat then false
  else if Py.startswith s "-" || Py.endswith s "-" then false
  else if Py.contains "--" s then false
  else Py.all_chars (λ c, Py.isalnum c || bool_decide (c = "-"%char)) s.

(** [is_valid_repo_name(s)], with the literal [valid_chars]. *)
Definition is_valid_repo_name (s : string) : bool :=
  if bool_decide (s = "") || bool_decide (100 < Py.len s)%nat then false
  else if Py.startswith s "." then false
  else Py.all_chars (λ c, url_safe_char c || bool_decide (c = "."%char)) s.

(** [sanitize_repo_identifier(owner, name)] *)
Definition sanitize_repo_identifier (owner name : string) : option (string * string) :=
  let owner := strip owner in
  let name := strip name in
  if negb (is_valid_owner owner) || negb (is_valid_repo_name name) then None
  else Some (owner, name).

(** The set [forbidden_chars] of [sanitize_git_ref]: the characters of
    [" ~^:?*[\\"] and the control characters 0 to 15. *)
Definition forbidden_char (c : ascii) : bool :=
  Py.char_in c " ~^:?*[\" || (N_of_ascii c <=? 15)%N.

(** [sanitize_git_ref(ref)] *)
Definition sanitize_git_ref (ref : string) : option string :=
  if bool_decide (ref = "") then None
  else
    let ref := strip ref in
    if bool_decide (256 < Py.len ref)%nat then None
    else if negb (Py.all_chars (λ c, negb (forbidden_char c)) ref) then None
    else if Py.startswith ref "/" || Py.startswith ref "." then None
    else if Py.endswith ref "/" || Py.endswith ref ".lock" then None
    else if Py.contains "//" ref then None
    else Some ref.

End Security.

(** ** src/config.py *)

Module Config.

(** The fields of [Settings] that the modelled code reads. *)
Record Settings : Type := mkSettings {
  port : Z;
  host : string;
  k_revision : string;
  instance_id : string;
  workspace_base_dir : string;
  session_max_lifetime : Z;
  session_startup_timeout : Z;
  port_range_start : Z;
  port_range_end : Z;
  base_url : option string;
  preview_path_prefix : string;
  preview_domain : option string;
  use_subdomain_routing : bool;
}.

(** [settings.full_instance_id] *)
Definition full_instance_id (s : Settings) : string :=
  k_revision s +:+ "-" +:+ instance_id s.

(** [settings.github_pat]: class [Settings] declares no such field (the
    GitHub section of config.py holds only the note that authentication
    is per session), and a pydantic model raises [AttributeError] for an
    attribute it does not have. *)
Definition github_pat (s : Settings) : Py.result (option string) :=
  Py.Raise (Py.AttributeError "'Settings' object has no attribute 'github_pat'").

(** [get_preview_url(session_id, access_token)] *)
Definition get_preview_url (s : Settings) (session_id access_token : string) : string :=
  match use_subdomain_routing s, Py.truthy (preview_domain s) with
  | true, Some d =>
      "https://" +:+ session_id +:+ "." +:+ d +:+ "/?token=" +:+ access_token
  | _, _ =>
      let base :=
        default ("http://" +:+ host s +:+ ":" +:+ Py.str_of_int (port s))
                (Py.truthy (base_url s)) in
      base +:+ preview_path_prefix s +:+ "/" +:+ session_id +:+ "/?token=" +:+ access_token
  end.

(** [extract_session_from_host(host)] *)
Definition extract_session_from_host (s : Settings) (host : string) : option string :=
  match use_subdomain_routing s, Py.truthy (preview_domain s) with
  | true, Some domain =>
      let host := Py.lower (Py.split_first ":" host) in
      let preview_domain := Py.lower domain in
      let expected_suffix := "." +:+ preview_domain in
      if negb (Py.endswith host expected_suffix) then None
      else
        let session_id := Py.take (Py.len host - Py.len expected_suffix) host in
        if bool_decide (session_id = "") || Py.char_in "." session_id then None
        else Some session_id
  | _, _ => None
  end.

End Config.

(** ** src/db/models.py *)

Module Models.

Inductive SessionStatus : Type :=
| PENDING | CLONING | INSTALLING | STARTING | READY | FAILED | STOPPED.

Global Instance SessionStatus_eq_dec : EqDecision SessionStatus.
Proof. solve_decision. Defined.

(** [SessionStatus.value] *)
Definition value (st : SessionStatus) : string :=
  match st with
  | PENDING => "pending" | CLONING => "cloning" | INSTALLING => "installing"
  | STARTING => "starting" | READY => "ready" | FAILED => "failed"
  | STOPPED => "stopped"
  end.

(** [SessionUpdate]: every field optional. *)
Record SessionUpdate : Type := mkUpdate {
  u_status : option SessionStatus;
  u_error_message : option string;
  u_internal_port : option Z;
  u_container_instance : option string;
  u_last_activity_at : option Z;
}.
Definition no_update : SessionUpdate := mkUpdate None None None None None.

(** [SessionInDB]: a row of the table [preview_sessions]. *)
Record SessionInDB : Type := mkSession {
  id : string;
  created_at : Z;
  updated_at : Z;
  last_activity_at : Z;
  expires_at : Z;
  deleted_at : option Z;
  repo_owner : string;
  repo_name : string;
  repo_ref : string;
  status : SessionStatus;
  error_message : option string;
  internal_port : option Z;
  container_instance : option string;
  access_token : string;
}.


(** [SessionInDB.is_expired], read at time [now]. *)
Definition is_expired (now : Z) (s : SessionInDB) : bool :=
  bool_decide (expires_at s < now).

End Models.

(** ** src/db/client.py: the gateway to the record store

    The table is the list of its rows. A query is the chain of its
    PostgREST filters: [eq], [is_], [in_] and [lt] keep the rows that
    satisfy them, [order] sorts, [limit] keeps a prefix. *)

Module Db.
Import Models.

Definition table : Type := list SessionInDB.

(** [.is_("deleted_at", "null")] *)
Definition not_deleted (s : SessionInDB) : bool :=
  bool_decide (deleted_at s = None).

(** [.in_("status", [...])] *)
Definition status_in (l : list SessionStatus) (s : SessionInDB) : bool :=
  bool_decide (status s ∈ l).

(** [.order("created_at", desc=True)]: insertion into a list sorted by
    decreasing [created_at]; among rows of equal [created_at] the table
    order is kept. *)
Fixpoint insert_desc (s : SessionInDB) (l : list SessionInDB) : list SessionInDB :=
  match l with
  | [] => [s]
  | x :: l' =>
      if bool_decide (created_at x < created_at s) then s :: l
      else x :: insert_desc s l'
  end.
Definition order_created_at_desc (l : list SessionInDB) : list SessionInDB :=
  foldr insert_desc [] l.

(** [get_session(session_id)] *)
Definition get_session (session_id : string) (t : table) : option SessionInDB :=
  head (filter (λ s, id s = session_id ∧ deleted_at s = None) t).

(** The [update_data] dictionary of [update_session] applied to a row:
    [updated_at] always, the other columns when the update carries
    them. *)
Definition apply_update (now : Z) (u : SessionUpdate) (s : SessionInDB) : SessionInDB :=
  mkSession (id s) (created_at s) now
    (default (last_activity_at s) (u_last_activity_at u))
    (expires_at s) (deleted_at s) (repo_owner s) (repo_name s) (repo_ref s)
    (default (status s) (u_status u))
    (match u_error_message u with Some m => Some m | None => error_message s end)
    (match u_internal_port u with Some p => Some p | None => internal_port s end)
    (match u_container_instance u with Some i => Some i | None => container_instance s end)
    (access_token s).

(** The rows selected by [.eq("id", session_id).is_("deleted_at", "null")]. *)
Definition targets (session_id : string) (s : SessionInDB) : bool :=
  bool_decide (id s = session_id) && not_deleted s.

(** [update_session(session_id, update)]: the updated row (the first of
    [response.data]) and the table afterwards. *)
Definition update_session (now : Z) (session_id : string) (u : SessionUpdate)
    (t : table) : option SessionInDB * table :=
  let t' := (λ s, if targets session_id s then apply_update now u s else s) <$> t in
  (head (apply_update now u <$> filter (λ s, targets session_id s = true) t), t').

(** [update_status(session_id, status, error_message)] *)
Definition update_status (now : Z) (session_id : string) (st : SessionStatus)
    (error_message : option string) (t : table) : option SessionInDB * table :=
  update_session now session_id
    (mkUpdate (Some st) error_message None None None) t.

(** [update_activity(session_id)]: writes [last_activity_at] only. *)
Definition update_activity (now : Z) (session_id : string) (t : table) : table :=
  (λ s, if targets session_id s
        then mkSession (id s) (created_at s) (updated_at s) now
               (expires_at s) (deleted_at s) (repo_owner s) (repo_name s)
               (repo_ref s) (status s) (error_message s) (internal_port s)
               (container_instance s) (access_token s)
        else s) <$> t.

(** [soft_delete_session(session_id)] *)
Definition soft_delete_session (now : Z) (session_id : string) (t : table) : bool * table :=
  (bool_decide (filter (λ s, targets session_id s = true) t ≠ []),
   (λ s, if targets session_id s
         then mkSession (id s) (created_at s) now (last_activity_at s)
                (expires_at s) (Some now) (repo_owner s) (repo_name s)
                (repo_ref s) STOPPED (error_message s) (internal_port s)
                (container_instance s) (access_token s)
         else s) <$> t).

(** The filters of the query of [find_active_session_for_repo]; the
    filter on [container_instance] is added under [if instance_id:]. *)
Definition repo_query (owner name ref : string) (instance_id : option string)
    (s : SessionInDB) : bool :=
  bool_decide (repo_owner s = owner) && bool_decide (repo_name s = name)
  && bool_decide (repo_ref s = ref) && not_deleted s
  && status_in [PENDING; CLONING; INSTALLING; STARTING; READY] s
  && match Py.truthy instance_id with
     | Some i => bool_decide (container_instance s = Some i)
     | None => true
     end.

(** [find_active_session_for_repo(repo_owner, repo_name, repo_ref,
    instance_id)], read at time [now]. *)
Definition find_active_session_for_repo (now : Z) (owner name ref : string)
    (instance_id : option string) (t : table) : option SessionInDB :=
  let data :=
    take 1 (order_created_at_desc
              (filter (λ s, repo_query owner name ref instance_id s = true) t)) in
  match data with
  | [] => None
  | session :: _ => if is_expired now session then None else Some session
  end.

Definition ORPHANED : string := "Session orphaned due to instance failure".

(** The rows selected by the query of [claim_orphaned_sessions]. *)
Definition orphan_query (stale_threshold : Z) (s : SessionInDB) : bool :=
  not_deleted s && status_in [PENDING; CLONING; INSTALLING; STARTING] s
  && bool_decide (updated_at s < stale_threshold).

(** [claim_orphaned_sessions(new_instance_id, stale_threshold)]: the loop
    over [response.data], one [update_status] per row. *)
Definition claim_orphaned_sessions (now : Z) (new_instance_id : string)
    (stale_threshold : Z) (t : table) : list SessionInDB * table :=
  let data := filter (λ s, orphan_query stale_threshold s = true) t in
  (data,
   foldl (λ t session, (update_status now (id session) FAILED (Some ORPHANED) t).2)
         t data).

End Db.

(** ** The file system: the set of the paths that exist *)

Module Fs.

(** [path.mkdir(parents=True, exist_ok=True)]: the path and the paths
    above it exist afterwards. *)
Definition mkdir_parents (p : Path.t) (fs : gset Path.t) : gset Path.t :=
  list_to_set (Path.ancestors p) ∪ fs.

(** [shutil.rmtree(p)]: [p] and everything beneath it is gone. *)
Definition rmtree (p : Path.t) (fs : gset Path.t) : gset Path.t :=
  filter (λ q, ¬ Path.beneath p q) fs.

(** [if p.exists(): shutil.rmtree(p, ignore_errors=True)] *)
Definition rmtree_if_exists (p : Path.t) (fs : gset Path.t) : gset Path.t :=
  if bool_decide (p ∈ fs) then rmtree p fs else fs.

End Fs.

(** ** The state the services share

    One record holds what the services read and write: the table of the
    record store, the clock, the directories of the file system, the
    allocator and the process table of the process manager, and the two
    dictionaries of the session manager. Two further fields are
    observations, written but never read by the code: the statuses written
    through the gateway and the git commands launched. *)

Module World.

(** [ProcessInfo] of process_manager.py (the handle and the start time
    are left out). *)
Record ProcessInfo : Type := mkProcess {
  pid : Z;
  port : Z;
  session_id : string;
  command : list string;
}.

Record t : Type := mk {
  db : Db.table;
  now : Z;
  fs : gset Path.t;
  allocator : PortAllocator.t;
  processes : gmap string ProcessInfo;
  github_tokens : gmap string string;
  setup_tasks : gset string;
  status_writes : list (string * Models.SessionStatus);
  git_commands : list (list string);
}.

Definition set_db (f : Db.table → Db.table) (w : t) : t :=
  mk (f (db w)) (now w) (fs w) (allocator w) (processes w) (github_tokens w)
     (setup_tasks w) (status_writes w) (git_commands w).
Definition set_fs (f : gset Path.t → gset Path.t) (w : t) : t :=
  mk (db w) (now w) (f (fs w)) (allocator w) (processes w) (github_tokens w)
     (setup_tasks w) (status_writes w) (git_commands w).
Definition set_allocator (f : PortAllocator.t → PortAllocator.t) (w : t) : t :=
  mk (db w) (now w) (fs w) (f (allocator w)) (processes w) (github_tokens w)
     (setup_tasks w) (status_writes w) (git_commands w).
Definition set_processes
    (f : gmap string ProcessInfo → gmap string ProcessInfo) (w : t) : t :=
  mk (db w) (now w) (fs w) (allocator w) (f (processes w)) (github_tokens w)
     (setup_tasks w) (status_writes w) (git_commands w).
Definition set_github_tokens
    (f : gmap string string → gmap string string) (w : t) : t :=
  mk (db w) (now w) (fs w) (allocator w) (processes w) (f (github_tokens w))
     (setup_tasks w) (status_writes w) (git_commands w).
Definition set_setup_tasks (f : gset string → gset string) (w : t) : t :=
  mk (db w) (now w) (fs w) (allocator w) (processes w) (github_tokens w)
     (f (setup_tasks w)) (status_writes w) (git_commands w).
Definition log_status (sid : string) (st : Models.SessionStatus) (w : t) : t :=
  mk (db w) (now w) (fs w) (allocator w) (processes w) (github_tokens w)
     (setup_tasks w) (status_writes w ++ [(sid, st)]) (git_commands w).
Definition log_git (argv : list string) (w : t) : t :=
  mk (db w) (now w) (fs w) (allocator w) (processes w) (github_tokens w)
     (setup_tasks w) (status_writes w) (git_commands w ++ [argv]).

(** How a launched [git clone] ends. *)
Inductive GitOutcome : Type :=
| Exited (returncode : Z) (stderr : string)
| TimedOut
| Failed (e : Py.exn).

(** [WorkspaceInfo] of workspace_manager.py, as far as the session
    manager reads it. *)
Record WorkspaceInfo : Type := mkWorkspaceInfo {
  detected_framework : option string;
  start_command : option (list string);
}.

(** The answers of the environment: the host's sockets, git, the package
    manager, the launch of the dev server and its readiness probe, and
    the identifiers the record store and the token generator produce. *)
Record Oracle : Type := mkOracle {
  is_port_in_use : Z → bool;
  git_clone : list string → GitOutcome;
  git_rev_parse : Path.t → option string;
  prepare : Path.t → string → Py.result WorkspaceInfo;
  spawn : list string → Path.t → Py.result Z;
  probe_ready : string → Z → bool;
  new_session_id : Db.table → string;
  new_access_token : Db.table → string;
}.

End World.

(** Computations of the services. *)
Definition M (A : Type) : Type := Py.M World.t A.

(** ** src/services/process_manager.py: ProcessManager *)

Module ProcessManager.
Import World.

(** [any(flag in modified for flag in flags)] *)
Definition any_flag (flags modified : list string) : bool :=
  existsb (λ flag, Py.elem flag modified) flags.

Definition is_react_scripts (modified : list string) : bool :=
  existsb (λ arg, Py.contains "react-scripts" arg) modified.
Definition has_port (modified : list string) : bool :=
  any_flag ["--port"; "-p"; "-P"] modified.
Definition has_host (modified : list string) : bool :=
  any_flag ["--host"; "-H"; "--hostname"] modified.
Definition is_npm_run (modified : list string) : bool :=
  bool_decide (3 ≤ length modified)%nat
  && bool_decide (modified !! 0%nat = Some "npm")
  && bool_decide (modified !! 1%nat = Some "run").
Definition is_npm_start (modified : list string) : bool :=
  bool_decide (2 ≤ length modified)%nat
  && bool_decide (modified !! 0%nat = Some "npm")
  && bool_decide (modified !! 1%nat = Some "start").
Definition is_yarn (modified : list string) : bool :=
  bool_decide (2 ≤ length modified)%nat
  && bool_decide (modified !! 0%nat = Some "yarn").
Definition is_pnpm (modified : list string) : bool :=
  bool_decide (2 ≤ length modified)%nat
  && bool_decide (modified !! 0%nat = Some "pnpm").

(** The list [flags_to_add]. *)
Definition flags_to_add (modified : list string) (port : Z) : list string :=
  (if has_port modified then [] else ["--port"; Py.str_of_int port])
  ++ (if has_host modified then [] else ["--host"]).

(** [_inject_server_flags(command, port, session_id, framework)] *)
Definition _inject_server_flags (command : list string) (port : Z)
    (session_id : string) (framework : option string) : list string :=
  match command with
  | [] => command
  | _ =>
      let modified := command in
      if is_react_scripts modified then modified
      else
        let flags := flags_to_add modified port in
        match flags with
        | [] => modified
        | _ =>
            if is_npm_run modified || is_npm_start modified then
              (if Py.elem "--" modified then modified else modified ++ ["--"])
              ++ flags
            else if is_yarn modified || is_pnpm modified then
              modified ++ flags
            else
              modified ++ flags
        end
  end.

Section WithOracle.
Variable o : Oracle.

(** [start_process(session_id, workspace_path, command, framework)];
    the environment of the child is not modelled. *)
Definition start_process (session_id : string) (workspace_path : Path.t)
    (command : list string) (framework : option string) : M ProcessInfo :=
  let* w := Py.get in
  match PortAllocator.allocate (is_port_in_use o) (allocator w) with
  | (None, _) => Py.raise (Py.RuntimeError "No available ports for dev server")
  | (Some port, a') =>
      Py.modify (set_allocator (λ _, a'));;
      let modified_command := _inject_server_flags command port session_id framework in
      match spawn o modified_command workspace_path with
      | Py.Ok pid =>
          let process_info := mkProcess pid port session_id modified_command in
          Py.modify (set_processes (λ ps, <[session_id := process_info]> ps));;
          Py.ret process_info
      | Py.Raise e =>
          Py.modify (set_allocator (λ a, PortAllocator.release a port));;
          Py.raise (Py.RuntimeError ("Failed to start process: " +:+ Py.str_of_exn e))
      end
  end.

(** [wait_for_ready(session_id, timeout)]: the polling loop is the
    oracle's answer for the session's port. *)
Definition wait_for_ready (session_id : string) (timeout : Z) : M bool :=
  let* w := Py.get in
  match processes w !! session_id with
  | None => Py.ret false
  | Some process_info => Py.ret (probe_ready o session_id (port process_info))
  end.
End WithOracle.

(** [stop_process(session_id)]: the signals sent to the process group
    are not modelled; the port is always released. *)
Definition stop_process (session_id : string) : M bool :=
  let* w := Py.get in
  match processes w !! session_id with
  | None => Py.ret false
  | Some process_info =>
      Py.modify (set_processes (λ ps, delete session_id ps));;
      Py.modify (set_allocator (λ a, PortAllocator.release a (port process_info)));;
      Py.ret true
  end.

(** [get_process_info(session_id)] *)
Definition get_process_info (session_id : string) : M (option ProcessInfo) :=
  let* w := Py.get in Py.ret (processes w !! session_id).

End ProcessManager.

(** ** src/services/workspace_manager.py *)

Module WorkspaceManager.
Import World.

Section WithSettings.
Variable settings : Config.Settings.

(** [self._base_dir] *)
Definition _base_dir : Path.t := Path.of_str (Config.workspace_base_dir settings).

(** [_get_workspace_path(session_id)] *)
Definition _get_workspace_path (session_id : string) : Py.result Path.t :=
  let safe_id :=
    Py.filter_chars (λ c, Py.isalnum c || Py.char_in c "-_") session_id in
  if bool_decide (safe_id ≠ session_id)
  then Py.Raise (Py.ValueError ("Invalid session ID: " +:+ session_id))
  else Py.Ok (Path.joinpath _base_dir safe_id).

(** [create_workspace(session_id)] *)
Definition create_workspace (session_id : string) : M Path.t :=
  let* workspace_path := Py.of_result (_get_workspace_path session_id) in
  Py.modify (set_fs (Fs.mkdir_parents _base_dir));;
  let* w := Py.get in
  if bool_decide (workspace_path ∈ fs w)
  then Py.raise (Py.OSError ("[Errno 17] File exists: '"
                             +:+ Path.to_str workspace_path +:+ "'"))
  else
    Py.modify (set_fs (λ fs, {[workspace_path]} ∪ fs));;
    Py.ret workspace_path.

(** [cleanup_workspace(session_id)] *)
Definition cleanup_workspace (session_id : string) : M bool :=
  let* workspace_path := Py.of_result (_get_workspace_path session_id) in
  let* w := Py.get in
  if bool_decide (workspace_path ∉ fs w) then Py.ret false
  else
    Py.modify (set_fs (Fs.rmtree workspace_path));;
    Py.ret true.
End WithSettings.

(** [prepare_workspace(workspace_path, session_id)]: detection of the
    package manager and the framework, the install and the choice of the
    start command are the oracle's answer. *)
Definition prepare_workspace (o : Oracle) (workspace_path : Path.t)
    (session_id : string) : M WorkspaceInfo :=
  Py.of_result (prepare o workspace_path session_id).

End WorkspaceManager.

(** ** src/db/client.py as computations on the shared state *)

Module Gateway.
Import Models World.

Definition get_session (session_id : string) : M (option SessionInDB) :=
  let* w := Py.get in Py.ret (Db.get_session session_id (db w)).

(** Every write of a status through the gateway is recorded in
    [status_writes]. *)
Definition update_session (session_id : string) (u : SessionUpdate)
    : M (option SessionInDB) :=
  let* w := Py.get in
  let r := Db.update_session (now w) session_id u (db w) in
  Py.modify (set_db (λ _, r.2));;
  match u_status u with
  | Some st => Py.modify (log_status session_id st)
  | None => Py.ret tt
  end;;
  Py.ret r.1.

Definition update_status (session_id : string) (st : SessionStatus)
    (error_message : option string) : M (option SessionInDB) :=
  update_session session_id (mkUpdate (Some st) error_message None None None).

Definition update_activity (session_id : string) : M unit :=
  let* w := Py.get in
  Py.modify (set_db (Db.update_activity (now w) session_id)).

Definition soft_delete_session (session_id : string) : M bool :=
  let* w := Py.get in
  let r := Db.soft_delete_session (now w) session_id (db w) in
  Py.modify (set_db (λ _, r.2));;
  Py.modify (log_status session_id STOPPED);;
  Py.ret r.1.

Definition find_active_session_for_repo (owner name ref : string)
    (instance_id : option string) : M (option SessionInDB) :=
  let* w := Py.get in
  Py.ret (Db.find_active_session_for_repo (now w) owner name ref instance_id (db w)).

Definition claim_orphaned_sessions (new_instance_id : string)
    (stale_threshold : Z) : M (list SessionInDB) :=
  let* w := Py.get in
  let r := Db.claim_orphaned_sessions (now w) new_instance_id stale_threshold (db w) in
  Py.modify (set_db (λ _, r.2));;
  Py.modify (λ w, foldl (λ w s, log_status (id s) FAILED w) w r.1);;
  Py.ret r.1.

Section Create.
Variable settings : Config.Settings.
Variable o : Oracle.

(** [create_session(data)]: the record store supplies the id. *)
Definition create_session (owner name ref : string) : M SessionInDB :=
  let* w := Py.get in
  let now := now w in
  let expires_at := now + Config.session_max_lifetime settings in
  let record :=
    mkSession (new_session_id o (db w)) now now now expires_at None
      owner name ref PENDING None None
      (Some (Config.full_instance_id settings))
      (new_access_token o (db w)) in
  Py.modify (set_db (λ t, t ++ [record]));;
  Py.modify (log_status (id record) PENDING);;
  Py.ret record.
End Create.

End Gateway.

(** ** src/services/github_client.py *)

Module GitHubClient.
Import World.

Record CloneResult : Type := mkClone {
  success : bool;
  path : option Path.t;
  error : option string;
  commit_sha : option string;
}.

(** The parameters of [clone_repository] and of [clone_with_fallback]
    after [self]: neither has a parameter [token]. *)
Definition clone_repository_params : list string :=
  ["owner"; "name"; "ref"; "target_dir"; "session_id"].
Definition clone_with_fallback_params : list string :=
  ["owner"; "name"; "ref"; "target_dir"; "session_id"].

Definition REDACTED : string := "[REDACTED]".

Section WithSettings.
Variable settings : Config.Settings.
Variable o : Oracle.

(** [if self._settings.github_pat: msg = msg.replace(pat, "[REDACTED]")] *)
Definition redact (error_msg : string) : M string :=
  let* pat := Py.of_result (Config.github_pat settings) in
  match Py.truthy pat with
  | Some pat => Py.ret (Py.replace error_msg pat REDACTED)
  | None => Py.ret error_msg
  end.

(** [clone_repository(owner, name, ref, target_dir, session_id)] *)
Definition clone_repository (owner name ref : string) (target_dir : Path.t)
    : M CloneResult :=
  match Security.sanitize_repo_identifier owner name with
  | None => Py.ret (mkClone false None (Some "Invalid repository identifier") None)
  | Some (owner, name) =>
      match Py.truthy (Security.sanitize_git_ref ref) with
      | None => Py.ret (mkClone false None (Some "Invalid git reference") None)
      | Some ref =>
          Py.modify (set_fs (Fs.mkdir_parents target_dir));;
          let* pat := Py.of_result (Config.github_pat settings) in
          let clone_url :=
            match Py.truthy pat with
            | Some pat =>
                "https://" +:+ pat +:+ "@github.com/" +:+ owner +:+ "/" +:+ name +:+ ".git"
            | None => "https://github.com/" +:+ owner +:+ "/" +:+ name +:+ ".git"
            end in
          Py.try_except
            (let clone_cmd :=
               ["git"; "clone"; "--depth"; "1"; "--single-branch"; "--branch"; ref;
                clone_url; Path.to_str target_dir] in
             Py.modify (log_git clone_cmd);;
             match git_clone o clone_cmd with
             | Exited returncode stderr =>
                 if bool_decide (returncode ≠ 0) then
                   let* error_msg := redact (Security.strip stderr) in
                   Py.ret (mkClone false None (Some ("Clone failed: " +:+ error_msg)) None)
                 else
                   Py.ret (mkClone true (Some target_dir) None (git_rev_parse o target_dir))
             | TimedOut =>
                 Py.modify (set_fs (Fs.rmtree_if_exists target_dir));;
                 Py.ret (mkClone false None (Some "Clone timeout exceeded (2 minutes)") None)
             | Failed e => Py.raise e
             end)
            (λ e,
               let* error_msg := redact (Py.str_of_exn e) in
               Py.ret (mkClone false None (Some ("Clone error: " +:+ error_msg)) None))
      end
  end.

(** [fallback_refs = ["main", "master"]] with [ref] removed. *)
Definition fallback_refs (ref : string) : list string :=
  filter (λ r, r ≠ ref) ["main"; "master"].

(** The [for fallback_ref in fallback_refs] loop. *)
Fixpoint try_fallbacks (owner name ref : string) (target_dir : Path.t)
    (refs : list string) : M CloneResult :=
  match refs with
  | [] =>
      Py.ret (mkClone false None
                (Some ("Failed to clone repository with ref '" +:+ ref
                       +:+ "' or fallback branches")) None)
  | fallback_ref :: rest =>
      Py.modify (set_fs (Fs.rmtree_if_exists target_dir));;
      let* result := clone_repository owner name fallback_ref target_dir in
      if success result then Py.ret result
      else try_fallbacks owner name ref target_dir rest
  end.

(** [clone_with_fallback(owner, name, ref, target_dir, session_id)] *)
Definition clone_with_fallback (owner name ref : string) (target_dir : Path.t)
    : M CloneResult :=
  let* result := clone_repository owner name ref target_dir in
  if success result then Py.ret result
  else try_fallbacks owner name ref target_dir (fallback_refs ref).

(** A call [clone_with_fallback(owner, name, ref, target_dir,
    session_id, k1=..., ...)] with the keywords [keywords]. *)
Definition call_clone_with_fallback (keywords : list string)
    (owner name ref : string) (target_dir : Path.t) : M CloneResult :=
  match Py.unexpected_keyword "GitHubClient.clone_with_fallback"
          clone_with_fallback_params keywords with
  | Some e => Py.raise e
  | None => clone_with_fallback owner name ref target_dir
  end.
End WithSettings.

End GitHubClient.

(** ** src/services/session_manager.py *)

Module SessionManager.
Import Models World.

(** [SessionResponse] *)
Record SessionResponse : Type := mkResponse {
  r_id : string;
  r_status : SessionStatus;
  r_repo_owner : string;
  r_repo_name : string;
  r_repo_ref : string;
  r_created_at : Z;
  r_expires_at : Z;
  r_error_message : option string;
  r_preview_url : option string;
}.

(** [SessionResponse.from_db(session, preview_url)] *)
Definition from_db (session : SessionInDB) (preview_url : option string)
    : SessionResponse :=
  mkResponse (id session) (status session) (repo_owner session)
    (repo_name session) (repo_ref session) (created_at session)
    (expires_at session) (error_message session)
    (if bool_decide (status session = READY) then preview_url else None).

Section WithSettings.
Variable settings : Config.Settings.
Variable o : Oracle.

Definition self_id : string := Config.full_instance_id settings.

(** [find_existing_session(repo_owner, repo_name, repo_ref)] *)
Definition find_existing_session (owner name ref : string)
    : M (option SessionResponse) :=
  let* existing :=
    Gateway.find_active_session_for_repo owner name ref (Some self_id) in
  match existing with
  | Some existing =>
      Gateway.update_activity (id existing);;
      let preview_url :=
        if bool_decide (status existing = READY)
        then Some (Config.get_preview_url settings (id existing) (access_token existing))
        else None in
      Py.ret (Some (from_db existing preview_url))
  | None =>
      let* existing := Gateway.find_active_session_for_repo owner name ref None in
      match existing with
      | Some existing =>
          if bool_decide (status existing = READY) then
            Gateway.update_activity (id existing);;
            Py.ret (Some (from_db existing
                      (Some (Config.get_preview_url settings (id existing)
                               (access_token existing)))))
          else Py.ret (Some (from_db existing None))
      | None => Py.ret None
      end
  end.

(** [_cleanup_failed_session(session_id)] *)
Definition _cleanup_failed_session (session_id : string) : M unit :=
  ProcessManager.stop_process session_id;;
  WorkspaceManager.cleanup_workspace settings session_id;;
  Py.ret tt.

(** [_fail_session(session_id, error)] *)
Definition _fail_session (session_id error : string) : M unit :=
  Gateway.update_status session_id FAILED (Some error);;
  _cleanup_failed_session session_id.

(** [f"{clone_result.error}"] *)
Definition fmt_error (e : option string) : string := default "None" e.

(** [_setup_session(session_id)]: the background task of a new
    session, run without cancellation. *)
Definition _setup_session (session_id : string) : M unit :=
  let* session := Gateway.get_session session_id in
  match session with
  | None => Py.ret tt
  | Some session =>
      let* w := Py.get in
      let github_token := github_tokens w !! session_id in
      Py.try_finally
        (Py.try_except
           (Gateway.update_status session_id CLONING None;;
            let* workspace_path :=
              WorkspaceManager.create_workspace settings session_id in
            let* clone_result :=
              GitHubClient.call_clone_with_fallback settings o ["token"]
                (repo_owner session) (repo_name session) (repo_ref session)
                workspace_path in
            (if negb (GitHubClient.success clone_result)
             then Py.raise (Py.RuntimeError
                    ("Clone failed: " +:+ fmt_error (GitHubClient.error clone_result)))
             else Py.ret tt);;
            Gateway.update_status session_id INSTALLING None;;
            let* workspace_info :=
              WorkspaceManager.prepare_workspace o workspace_path session_id in
            match start_command workspace_info with
            | None | Some [] =>
                Py.raise (Py.RuntimeError "Could not determine start command")
            | Some start_command =>
                Gateway.update_status session_id STARTING None;;
                let* process_info :=
                  ProcessManager.start_process o session_id workspace_path
                    start_command (detected_framework workspace_info) in
                Gateway.update_session session_id
                  (mkUpdate None None (Some (port process_info)) None None);;
                let* is_ready :=
                  ProcessManager.wait_for_ready o session_id
                    (Config.session_startup_timeout settings) in
                if is_ready then
                  Gateway.update_status session_id READY None;; Py.ret tt
                else
                  _fail_session session_id "Server failed to start within timeout"
            end)
           (λ e, _fail_session session_id (Py.str_of_exn e)))
        (Py.modify (set_setup_tasks (λ ts, ts ∖ {[session_id]}));;
         Py.modify (set_github_tokens (λ ts, delete session_id ts)))
  end.

(** [create_session(repo_owner, repo_name, repo_ref, github_token,
    force_new)]: the response returned at once and, when a session was
    created, the id whose setup task [asyncio.create_task] started. *)
Definition create_session (owner name ref : string)
    (github_token : option string) (force_new : bool)
    : M (SessionResponse * option string) :=
  let* existing :=
    if force_new then Py.ret None else find_existing_session owner name ref in
  match existing with
  | Some existing => Py.ret (existing, None)
  | None =>
      let* session := Gateway.create_session settings o owner name ref in
      match Py.truthy github_token with
      | Some tok =>
          Py.modify (set_github_tokens (λ ts, <[id session := tok]> ts))
      | None => Py.ret tt
      end;;
      Py.modify (set_setup_tasks (λ ts, {[id session]} ∪ ts));;
      Py.ret (from_db session None, Some (id session))
  end.

(** A create-session request followed by the run of the setup task it
    started (when it started one). *)
Definition create_and_setup (owner name ref : string)
    (github_token : option string) (force_new : bool) : M SessionResponse :=
  let* r := create_session owner name ref github_token force_new in
  match r.2 with
  | Some task => _setup_session task
  | None => Py.ret tt
  end;;
  Py.ret r.1.

(** [validate_access(session_id, access_token)] *)
Definition validate_access (session_id access_token : string)
    : M (bool * option SessionInDB * option Z) :=
  let* session := Gateway.get_session session_id in
  match session with
  | None => Py.ret (false, None, None)
  | Some session =>
      if negb (Security.constant_time_compare (Models.access_token session) access_token)
      then Py.ret (false, None, None)
      else if bool_decide (status session ≠ READY)
      then Py.ret (false, Some session, None)
      else if bool_decide (container_instance session ≠ Some self_id)
      then Py.ret (false, Some session, None)
      else
        let* process_info := ProcessManager.get_process_info session_id in
        match process_info with
        | None => Py.ret (false, Some session, None)
        | Some process_info => Py.ret (true, Some session, Some (port process_info))
        end
  end.

(** [recover_session(session_id)] *)
Definition recover_session (session_id : string) : M (bool * option Z) :=
  let* session := Gateway.get_session session_id in
  match session with
  | None => Py.ret (false, None)
  | Some session =>
      if bool_decide (status session ≠ READY) then Py.ret (false, None)
      else
        let* w := Py.get in
        if bool_decide (session_id ∈ setup_tasks w) then Py.ret (false, None)
        else
          Py.try_except
            (Gateway.update_status session_id STARTING None;;
             Gateway.update_session session_id
               (mkUpdate None None None (Some self_id) None);;
             let* workspace_path :=
               WorkspaceManager.create_workspace settings session_id in
             let* clone_result :=
               GitHubClient.call_clone_with_fallback settings o ["token"]
                 (repo_owner session) (repo_name session) (repo_ref session)
                 workspace_path in
             (if negb (GitHubClient.success clone_result)
              then Py.raise (Py.RuntimeError
                     ("Clone failed during recovery: "
                      +:+ fmt_error (GitHubClient.error clone_result)))
              else Py.ret tt);;
             let* workspace_info :=
               WorkspaceManager.prepare_workspace o workspace_path session_id in
             match start_command workspace_info with
             | None | Some [] =>
                 Py.raise (Py.RuntimeError
                             "Could not determine start command during recovery")
             | Some start_command =>
                 let* process_info :=
                   ProcessManager.start_process o session_id workspace_path
                     start_command (detected_framework workspace_info) in
                 Gateway.update_session session_id
                   (mkUpdate None None (Some (port process_info)) None None);;
                 let* is_ready :=
                   ProcessManager.wait_for_ready o session_id
                     (Config.session_startup_timeout settings) in
                 if is_ready then
                   Gateway.update_status session_id READY None;;
                   Py.ret (true, Some (port process_info))
                 else
                   Py.raise (Py.RuntimeError "Server failed to start during recovery")
             end)
            (λ e,
               Gateway.update_status session_id FAILED
                 (Some ("Recovery failed: " +:+ Py.str_of_exn e));;
               Py.ret (false, None))
  end.

(** [stop_session(session_id)] *)
Definition stop_session (session_id : string) : M bool :=
  let* session := Gateway.get_session session_id in
  match session with
  | None => Py.ret false
  | Some _ =>
      Py.modify (set_setup_tasks (λ ts, ts ∖ {[session_id]}));;
      Py.modify (set_github_tokens (λ ts, delete session_id ts));;
      ProcessManager.stop_process session_id;;
      WorkspaceManager.cleanup_workspace settings session_id;;
      Gateway.soft_delete_session session_id;;
      Py.ret true
  end.

(** [recover_on_startup()]: the staleness threshold is five minutes
    before now. *)
Definition recover_on_startup : M unit :=
  let* w := Py.get in
  let stale_threshold := now w - 300 in
  Gateway.claim_orphaned_sessions self_id stale_threshold;;
  Py.ret tt.
End WithSettings.

End SessionManager.

(** ** src/api/routes/preview.py *)

Module Preview.
Import Models World.

(** The operations of the session manager that the handler calls. *)
Record Manager : Type := mkManager {
  validate_access : string → string → M (bool * option SessionInDB * option Z);
  recover_session : string → M (bool * option Z);
  update_activity : string → M unit;
}.

(** The session manager of session_manager.py. *)
Definition session_manager (settings : Config.Settings) (o : Oracle) : Manager :=
  mkManager (SessionManager.validate_access settings)
            (SessionManager.recover_session settings o)
            Gateway.update_activity.

Record Request : Type := mkRequest {
  session_id : string;
  path : string;
  token : option string;
  cookies : gmap string string;
}.

(** The pages of [_error_page] (static) and [_loading_page] (one message
    per status). *)
Inductive Page : Type :=
| ErrorPage
| LoadingPage (message : string).

Record Cookie : Type := mkCookie {
  key : string;
  value : string;
  cookie_path : string;
}.

Inductive Response : Type :=
| HTTPException (status_code : Z) (detail : string)
| HTMLResponse (content : Page) (status_code : Z) (headers : list (string * string))
| Proxied (port : Z) (session_id path : string) (set_cookie : option Cookie).

Definition SESSION_COOKIE_PREFIX : string := "spl_preview_".

Definition _get_session_cookie_name (session_id : string) : string :=
  SESSION_COOKIE_PREFIX +:+ Py.take 8 session_id.

Definition _loading_page (st : SessionStatus) : Page :=
  LoadingPage
    match st with
    | PENDING => "Initializing..."
    | CLONING => "Cloning repository..."
    | INSTALLING => "Installing dependencies..."
    | STARTING => "Starting dev server..."
    | _ => "Setting up..."
    end.

Definition _get_cookie_config (settings : Config.Settings) (session_id : string)
    : string :=
  match Config.use_subdomain_routing settings,
        Py.truthy (Config.preview_domain settings) with
  | true, Some _ => "/"
  | _, _ => "/preview/" +:+ session_id
  end.

Section Handler.
Variable settings : Config.Settings.
Variable manager : Manager.

(** The end of [proxy_http]: activity, forwarding, cookie. *)
Definition forward (req : Request) (port : Z) (token_from_cookie : bool)
    (effective_token : string) : M Response :=
  update_activity manager (session_id req);;
  Py.ret (Proxied port (session_id req) (path req)
            (if negb token_from_cookie
             then Some (mkCookie (_get_session_cookie_name (session_id req))
                          effective_token
                          (_get_cookie_config settings (session_id req)))
             else None)).

(** [effective_token = token if token else cookie_token] *)
Definition effective_token (req : Request) : option string :=
  match Py.truthy (token req) with
  | Some t => Some t
  | None => cookies req !! _get_session_cookie_name (session_id req)
  end.

(** [token_from_cookie = token is None and cookie_token is not None] *)
Definition token_from_cookie (req : Request) : bool :=
  bool_decide (token req = None)
  && bool_decide (cookies req !! _get_session_cookie_name (session_id req) ≠ None).

(** [proxy_http(request, session_id, path, token)] *)
Definition proxy_http (req : Request) : M Response :=
  let effective_token := effective_token req in
  let token_from_cookie := token_from_cookie req in
  if negb (Security.validate_access_token effective_token)
  then Py.ret (HTTPException 401 "Invalid or missing access token")
  else
    let effective_token := default "" effective_token in
    let* r := validate_access manager (session_id req) effective_token in
    match r with
    | (_, None, _) => Py.ret (HTTPException 404 "Session not found")
    | (is_valid, Some session, port) =>
        if bool_decide (status session = FAILED)
        then Py.ret (HTMLResponse ErrorPage 502 [])
        else if bool_decide (status session = STOPPED)
        then Py.ret (HTMLResponse ErrorPage 410 [])
        else if bool_decide (status session ≠ READY)
        then Py.ret (HTMLResponse (_loading_page (status session)) 202 [])
        else
          match is_valid, port with
          | true, Some port => forward req port token_from_cookie effective_token
          | _, _ =>
              if bool_decide (container_instance session
                              ≠ Some (Config.full_instance_id settings))
              then
                let* rec := recover_session manager (session_id req) in
                match rec with
                | (true, Some new_port) =>
                    forward req new_port token_from_cookie effective_token
                | _ =>
                    Py.ret (HTMLResponse (_loading_page STARTING) 202
                              [("Refresh", "3")])
                end
              else
                Py.ret (HTTPException 503 "Session process not available")
          end
    end.
End Handler.

End Preview.

(** ** Regular expressions of src/services/proxy.py

    Each pattern of the sources is a matcher: a function that, given the
    text from a position on, returns the groups of the match that starts
    there and the text after it. [sub] is [re.sub]: it scans from left
    to right and replaces the matches it meets, which never overlap. The
    patterns of the sources match no empty text. *)

Module Re.

(** The longest prefix of [s] whose characters satisfy [p], and the rest:
    a greedy [[...]*]. *)
Fixpoint span (p : ascii → bool) (s : string) : string * string :=
match s with
| String c s' =>
    if p c then let (run, rest) := span p s' in (String c run, rest)
    else ("", s)
| EmptyString => ("", "")
end.

(** A literal, written in lower case, matched without regard to case:
    the text matched and the rest. *)
Fixpoint lit_ci (pat s : string) : option (string * string) :=
match pat, s with
| EmptyString, _ => Some ("", s)
| String a pat', String c s' =>
    if bool_decide (Py.lower_char c = a)
    then match lit_ci pat' s' with
         | Some (m, rest) => Some (String c m, rest)
         | None => None
         end
    else None
| String _ _, EmptyString => None
end.

(** [re.sub(pattern, repl, s)]: [m] gives, for a match that starts the
    text, its length and its replacement; [skip] counts the characters
    of the last match still to pass over. *)
Fixpoint sub (m : string → option (nat * string)) (skip : nat) (s : string) : string :=
match s with
| EmptyString => EmptyString
| String c s' =>
    match skip with
    | S k => sub m k s'
    | O =>
        match m s with
        | Some (n, repl) => repl +:+ sub m (n - 1) s'
        | None => String c (sub m O s')
        end
    end
end.

(** [re.sub(pattern, repl, s, count=1)] *)
Fixpoint sub1 (m : string → option (nat * string)) (s : string) : string :=
match s with
| EmptyString => EmptyString
| String c s' =>
    match m s with
    | Some (n, repl) => repl +:+ Py.drop n s
    | None => String c (sub1 m s')
    end
end.

(** [re.search(pattern, s)] as a truth value. *)
Fixpoint search (m : string → bool) (s : string) : bool :=
m s ||
match s with
| EmptyString => false
| String _ s' => search m s'
end.

(** The double quote. *)
Definition DQ : ascii := ascii_of_nat 34.

(** The class of the two quote characters, double and single. *)
Definition is_quote (c : ascii) : bool :=
bool_decide (c = DQ) || bool_decide (c = "'"%char).

(** A name of an alternation, matched without regard to case, then [=],
    a quote (group 2), and a greedy class of the characters other than
    quotes: the name as written, the quote, the longest run [v] of
    characters other than quotes, and the rest; [cond v] is what the
    pattern asks of the run. The first name of the alternation that
    leads to a match is taken. *)
Fixpoint attr_match (names : list string) (cond : string → bool) (s : string)
  : option (string * ascii * string * string) :=
match names with
| [] => None
| name :: names' =>
    match lit_ci name s with
    | Some (attr, String "=" (String q r)) =>
        let (v, rest) := span (λ c, negb (is_quote c)) r in
        if is_quote q && cond v then Some (attr, q, v, rest)
        else attr_match names' cond s
    | _ => attr_match names' cond s
    end
end.

End Re.

(** ** src/services/proxy.py: the rewriting of HTML *)

Module Proxy.

Definition NL : string := String (ascii_of_nat 10) "".

(** The names of [url_pattern]. *)
Definition url_attrs : list string := ["src"; "href"; "action"; "data"; "poster"].

(** Group 3 of [url_pattern], a slash not followed by a slash and then
    the characters up to the next quote: the run starts with one slash. *)
Definition root_relative (v : string) : bool :=
Py.startswith v "/" && negb (Py.startswith v "//").

Section Rewrite.
Variable prefix : string.
Variable session_id : string.

(** [base_path = f"{prefix}/{session_id}"] *)
Definition base_path : string := prefix +:+ "/" +:+ session_id.

(** [rewrite_url(match)] *)
Definition rewrite_url (attr : string) (quote : ascii) (path : string) : string :=
if Py.startswith path (prefix +:+ "/")
then attr +:+ "=" +:+ String quote path
else attr +:+ "=" +:+ String quote (base_path +:+ path).

(** [url_pattern] with its replacement. *)
Definition url_matcher (s : string) : option (nat * string) :=
match Re.attr_match url_attrs root_relative s with
| Some (attr, quote, path, _) =>
    Some ((Py.len attr + 2 + Py.len path)%nat, rewrite_url attr quote path)
| None => None
end.

(** [rewrite_srcset_url(url_match)] *)
Definition rewrite_srcset_url (path rest : string) : string :=
if Py.startswith path "/" && negb (Py.startswith path "//")
   && negb (Py.startswith path (prefix +:+ "/"))
then base_path +:+ path +:+ rest
else path +:+ rest.

(** The pattern of a URL inside [srcset], with its replacement: group 1
    is a slash and one or more characters other than blanks and commas,
    the optional group 2 is one or more blanks and then the characters up
    to the next comma. *)
Definition srcset_url_matcher (s : string) : option (nat * string) :=
match s with
| String "/" r =>
    let (run, after) := Re.span (λ c, negb (Py.isspace c) && negb (bool_decide (c = ","%char))) r in
    if bool_decide (run = "") then None
    else
      let path := String "/" run in
      let rest :=
        match after with
        | String c _ =>
            if Py.isspace c
            then (Re.span (λ c, negb (bool_decide (c = ","%char))) after).1
            else ""
        | EmptyString => ""
        end in
      Some ((Py.len path + Py.len rest)%nat, rewrite_srcset_url path rest)
| _ => None
end.

(** [rewrite_srcset(match)]: the attribute is written back in lower
    case. *)
Definition rewrite_srcset (quote : ascii) (srcset_value : string) : string :=
"srcset=" +:+ String quote (Re.sub srcset_url_matcher 0 srcset_value).

(** The pattern of [srcset], whose run is not empty, with its
    replacement. *)
Definition srcset_matcher (s : string) : option (nat * string) :=
match Re.attr_match ["srcset"] (λ v, negb (bool_decide (v = ""))) s with
| Some (attr, quote, v, _) =>
    Some ((Py.len attr + 2 + Py.len v)%nat, rewrite_srcset quote v)
| None => None
end.

(** [base_tag], the tag [<base href=...>] whose [href], in double
    quotes, is [base_path] followed by a slash. *)
Definition base_tag : string :=
"<base href=" +:+ String Re.DQ (base_path +:+ "/" +:+ String Re.DQ ">").

(** The pattern of an existing [<base ...>] tag at the start of the
    text: the name, one or more blanks, and a closing [>] further on. *)
Definition base_pattern (s : string) : bool :=
match Re.lit_ci "<base" s with
| Some (_, String c r) => Py.isspace c && Py.char_in ">" r
| _ => false
end.

(** An opening tag at the start of the text, for [tag] in lower case:
    the tag, the characters other than [>], and [>]. *)
Definition open_tag (tag : string) (s : string) : option string :=
match Re.lit_ci tag s with
| Some (m, r) =>
    let (run, rest) := Re.span (λ c, negb (bool_decide (c = ">"%char))) r in
    match rest with
    | String _ _ => Some (m +:+ run +:+ ">")
    | EmptyString => None
    end
| None => None
end.

(** The pattern of an opening tag with the replacement [\1] followed by
    [insert]. *)
Definition after_tag (tag insert : string) (s : string) : option (nat * string) :=
match open_tag tag s with
| Some g => Some (Py.len g, g +:+ insert)
| None => None
end.

(** The injection of the [<base>] tag. In the two calls of [re.sub]
    the tag is part of the replacement template, in which a backslash
    starts an escape: the tag is inserted as it is for a prefix and a
    session id without backslash, which is the case modelled (the ids
    are those of the record store). *)
Definition inject_base (html : string) : string :=
if negb (Re.search base_pattern html) then
  if Py.contains "<head>" (Py.lower html) then
    Re.sub1 (after_tag "<head" (NL +:+ "    " +:+ base_tag)) html
  else if Py.contains "<html" (Py.lower html) then
    Re.sub1 (after_tag "<html"
               (NL +:+ "<head>" +:+ NL +:+ "    " +:+ base_tag +:+ NL +:+ "</head>")) html
  else base_tag +:+ NL +:+ html
else html.

(** The two passes over the attributes. *)
Definition rewrite_urls (html : string) : string :=
Re.sub srcset_matcher 0 (Re.sub url_matcher 0 html).

End Rewrite.

(** [_rewrite_html_for_proxy(content, session_id)] for a content that is
    ASCII text. *)
Definition _rewrite_html_for_proxy (settings : Config.Settings)
  (content session_id : string) : string :=
let prefix := Config.preview_path_prefix settings in
inject_base prefix session_id (rewrite_urls prefix session_id content).

(** The rewriting step of [proxy_request]: HTML only, and only when
    subdomain routing is off. *)
Definition response_content (settings : Config.Settings)
  (content_type content session_id : string) : string :=
if Py.contains "text/html" content_type
   && negb (Config.use_subdomain_routing settings)
then _rewrite_html_for_proxy settings content session_id
else content.

End Proxy.

(** ** src/utils/security.py: the API key *)

Module ApiKey.

(** [validate_api_key(provided_key, expected_key)] *)
Definition validate_api_key (provided_key : option string) (expected_key : string) : bool :=
match Py.truthy provided_key with
| None => false
| Some provided_key =>
    if bool_decide (expected_key = "") then false
    else Security.constant_time_compare provided_key expected_key
end.

End ApiKey.

(** ** src/main.py: SubdomainRoutingMiddleware *)

Module Main.

(** [dict(pairs)]: a later pair replaces an earlier one of the same key. *)
Definition dict_of_pairs (pairs : list (string * string)) : gmap string string :=
foldl (λ d kv, <[kv.1 := kv.2]> d) ∅ pairs.

(** [s.lstrip("/")] *)
Fixpoint lstrip_slash (s : string) : string :=
match s with
| String c s' => if bool_decide (c = "/"%char) then lstrip_slash s' else s
| EmptyString => EmptyString
end.

(** The entries of the ASGI scope that the middleware reads or writes;
    [path] is [scope.get("path", "/")]. *)
Record Scope : Type := mkScope {
  type : string;
  headers : list (string * string);
  path : option string;
  raw_path : option string;
  subdomain_session_id : option string;
  subdomain_original_host : option string;
}.

(** [SubdomainRoutingMiddleware.__call__]: the scope handed to the
    application. *)
Definition subdomain_routing (settings : Config.Settings) (scope : Scope) : Scope :=
if negb (Py.elem (type scope) ["http"; "websocket"]) then scope
else
  let headers := dict_of_pairs (headers scope) in
  let host := default "" (headers !! "host") in
  match Py.truthy (Config.extract_session_from_host settings host) with
  | Some session_id =>
      let original_path := default "/" (path scope) in
      let path_suffix := lstrip_slash original_path in
      let new_path := "/preview/" +:+ session_id +:+ "/" +:+ path_suffix in
      mkScope (type scope) (Main.headers scope) (Some new_path)
        (match raw_path scope with Some _ => Some new_path | None => None end)
        (Some session_id) (Some host)
  | None => scope
  end.

End Main.

(** ** src/services/proxy.py: the headers *)

Module ProxyHeaders.

Definition HOP_BY_HOP_HEADERS : list string :=
["connection"; "keep-alive"; "proxy-authenticate"; "proxy-authorization";
 "te"; "trailers"; "transfer-encoding"; "upgrade"].

Definition SPECIAL_HEADERS : list string := ["host"; "content-length"; "content-encoding"].

(** [_prepare_request_headers(request)]: [items] is
    [request.headers.items()], [host] is [request.headers.get("host", "")],
    [client_host] is [request.client.host] when there is a client, and
    [scheme] is [request.url.scheme]. *)
Definition _prepare_request_headers (items : list (string * string))
  (host : string) (client_host : option string) (scheme : string) : gmap string string :=
let headers :=
  foldl (λ headers kv,
           let key_lower := Py.lower kv.1 in
           if Py.elem key_lower HOP_BY_HOP_HEADERS then headers
           else if Py.elem key_lower SPECIAL_HEADERS then headers
           else <[kv.1 := kv.2]> headers) ∅ items in
let client_host := default "unknown" client_host in
let headers := <["X-Forwarded-For" := client_host]> headers in
let headers := <["X-Forwarded-Proto" := scheme]> headers in
<["X-Forwarded-Host" := host]> headers.

(** [_prepare_response_headers(response_headers)]: [items] is
    [response_headers.items()]. *)
Definition _prepare_response_headers (items : list (string * string)) : gmap string string :=
let headers :=
  foldl (λ headers kv,
           let key_lower := Py.lower kv.1 in
           if Py.elem key_lower HOP_BY_HOP_HEADERS then headers
           else if bool_decide (key_lower = "content-encoding") then headers
           else if bool_decide (key_lower = "content-length") then headers
           else <[kv.1 := kv.2]> headers) ∅ items in
let headers := delete "x-frame-options" headers in
let headers := delete "X-Frame-Options" headers in
if bool_decide ("content-security-policy" ∉ (set_map Py.lower (dom headers) : gset string))
then <["Content-Security-Policy" := "frame-ancestors *"]> headers
else headers.

End ProxyHeaders.

(** ** src/db/client.py: the other queries *)

Module DbQueries.
Import Models.

(** [get_expired_sessions(limit)], read at time [now]. *)
Definition get_expired_sessions (now : Z) (limit : nat) (t : Db.table) : list SessionInDB :=
take limit (filter (λ s, Db.not_deleted s = true ∧ expires_at s < now) t).

(** [get_idle_sessions(idle_threshold, limit)] *)
Definition get_idle_sessions (idle_threshold : Z) (limit : nat) (t : Db.table)
  : list SessionInDB :=
take limit (filter (λ s, Db.not_deleted s = true ∧ status s = READY
                         ∧ last_activity_at s < idle_threshold) t).

End DbQueries.

(** ** src/services/process_manager.py: the shutdown *)

Module ProcessShutdown.
Import World.

(** The loop of [stop_all_processes] over the session ids. *)
Fixpoint stop_each (session_ids : list string) (count : Z) : M Z :=
match session_ids with
| [] => Py.ret count
| session_id :: rest =>
    let* stopped := ProcessManager.stop_process session_id in
    stop_each rest (if stopped then count + 1 else count)
end.

(** [stop_all_processes()] *)
Definition stop_all_processes : M Z :=
let* w := Py.get in
let session_ids := (map_to_list (processes w)).*1 in
stop_each session_ids 0.

End ProcessShutdown.

(** ** src/services/workspace_manager.py: the detection *)

Module Detect.

Inductive Manager : Type := Npm | Yarn | Pnpm.

(** [PackageInfo] *)
Record PackageInfo : Type := mkPackageInfo {
  manager : Manager;
  lockfile : option string;
  scripts : gmap string string;
  dependencies : gmap string string;
  dev_dependencies : gmap string string;
}.

(** [key in d] *)
Definition has_key (key : string) (d : gmap string string) : bool :=
bool_decide (is_Some (d !! key)).

(** [framework_indicators] of [detect_framework] *)
Definition framework_indicators : list (string * string) :=
[("next", "nextjs"); ("nuxt", "nuxt"); ("@sveltejs/kit", "sveltekit");
 ("@angular/cli", "angular"); ("svelte", "svelte"); ("vue", "vue");
 ("@angular/core", "angular"); ("react", "react")].

(** The loop [for dep, framework in framework_indicators]. *)
Fixpoint first_indicator (all_deps : gmap string string)
  (indicators : list (string * string)) : option string :=
match indicators with
| [] => None
| (dep, framework) :: rest =>
    if has_key dep all_deps then Some framework else first_indicator all_deps rest
end.

(** [detect_framework(package_info)]; in [{**dependencies,
    **dev_dependencies}] the development entry replaces the other. *)
Definition detect_framework (package_info : PackageInfo) : option string :=
let all_deps := dev_dependencies package_info ∪ dependencies package_info in
let dev_deps := dev_dependencies package_info in
if has_key "vite" dev_deps || has_key "vite" all_deps then Some "vite"
else first_indicator all_deps framework_indicators.

(** The loop [for script_name in preferred_scripts]. *)
Fixpoint first_script (scripts : gmap string string) (preferred : list string)
  : option string :=
match preferred with
| [] => None
| script_name :: rest =>
    if has_key script_name scripts then Some script_name else first_script scripts rest
end.

(** The dictionary [framework_commands]. *)
Definition framework_commands (framework : string) : option (list string) :=
if bool_decide (framework = "vite") then Some ["npx"; "vite"; "--host"]
else if bool_decide (framework = "nextjs") then Some ["npx"; "next"; "dev"]
else if bool_decide (framework = "react") then Some ["npx"; "react-scripts"; "start"]
else None.

(** [_get_start_command(package_info, framework)] *)
Definition _get_start_command (package_info : PackageInfo) (framework : option string)
  : list string :=
let scripts := scripts package_info in
let run_cmd :=
  match manager package_info with
  | Npm => ["npm"; "run"]
  | Yarn => ["yarn"]
  | Pnpm => ["pnpm"]
  end in
let preferred_scripts :=
  if bool_decide (framework = Some "nextjs") then ["dev"; "start"]
  else ["dev"; "start"; "serve"; "preview"] in
match first_script scripts preferred_scripts with
| Some script_name => run_cmd ++ [script_name]
| None =>
    if has_key "dev" scripts then run_cmd ++ ["dev"]
    else if has_key "start" scripts then run_cmd ++ ["start"]
    else
      match Py.truthy framework with
      | Some framework =>
          match framework_commands framework with
          | Some command => command
          | None => ["npm"; "start"]
          end
      | None => ["npm"; "start"]
      end
end.

(** [prepare_workspace(workspace_path, session_id)] after the detection
    of the package manager; [install] is the outcome of
    [install_dependencies], success or the error output. *)
Definition prepare_workspace (package_info : option PackageInfo)
  (install : PackageInfo → bool * string) : Py.result World.WorkspaceInfo :=
match package_info with
| None => Py.Ok (World.mkWorkspaceInfo None None)
| Some package_info =>
    let framework := detect_framework package_info in
    let (success, output) := install package_info in
    if negb success
    then Py.Raise (Py.RuntimeError ("Failed to install dependencies: " +:+ output))
    else
      let start_command := _get_start_command package_info framework in
      Py.Ok (World.mkWorkspaceInfo framework (Some start_command))
end.

End Detect.

(** ** src/services/session_manager.py: cleaning up *)

Module Cleanup.
Import Models World.

Section WithSettings.
Variable settings : Config.Settings.
(** [settings.session_idle_timeout] *)
Variable session_idle_timeout : Z.

(** The loop of [cleanup_expired_sessions] over the expired rows. *)
Fixpoint expire_each (expired : list SessionInDB) (count : Z) : M Z :=
match expired with
| [] => Py.ret count
| session :: rest =>
    (if bool_decide (container_instance session
                     = Some (Config.full_instance_id settings))
     then SessionManager.stop_session settings (id session);; Py.ret tt
     else Gateway.soft_delete_session (id session);; Py.ret tt);;
    expire_each rest (count + 1)
end.

(** [cleanup_expired_sessions()] *)
Definition cleanup_expired_sessions : M Z :=
let* w := Py.get in
expire_each (DbQueries.get_expired_sessions (now w) 50 (db w)) 0.

(** The loop of [cleanup_idle_sessions] over the idle rows. *)
Fixpoint idle_each (idle : list SessionInDB) (count : Z) : M Z :=
match idle with
| [] => Py.ret count
| session :: rest =>
    if bool_decide (container_instance session = Some (Config.full_instance_id settings))
    then
      SessionManager.stop_session settings (id session);;
      idle_each rest (count + 1)
    else idle_each rest count
end.

(** [cleanup_idle_sessions()] *)
Definition cleanup_idle_sessions : M Z :=
let* w := Py.get in
let idle_threshold := now w - session_idle_timeout in
idle_each (DbQueries.get_idle_sessions idle_threshold 50 (db w)) 0.
End WithSettings.

End Cleanup.

(** ** src/api/routes/preview.py: the WebSocket route *)

Module PreviewWs.
Import Models World Preview.

(** How [proxy_websocket] ends: it closes the socket with a code and a
    reason, or hands it to the proxy. *)
Inductive Outcome : Type :=
| Closed (code : Z) (reason : string)
| Relayed (port : Z) (session_id path : string).

Section Handler.
Variable manager : Manager.
(** [f"{session.status}"] *)
Variable status_text : SessionStatus → string.

(** [proxy_websocket(websocket, session_id, path, token)] *)
Definition proxy_websocket (req : Request) : M Outcome :=
let effective_token := effective_token req in
if negb (Security.validate_access_token effective_token)
then Py.ret (Closed 4001 "Invalid access token")
else
  let effective_token := default "" effective_token in
  let* r := validate_access manager (session_id req) effective_token in
  match r with
  | (_, None, _) => Py.ret (Closed 4004 "Session not found")
  | (is_valid, Some session, port) =>
      if bool_decide (status session ≠ READY)
      then Py.ret (Closed 4002 ("Session not ready: " +:+ status_text (status session)))
      else
        match is_valid, port with
        | true, Some port =>
            update_activity manager (session_id req);;
            Py.ret (Relayed port (session_id req) (path req))
        | _, _ => Py.ret (Closed 4003 "Session not available on this instance")
        end
  end.
End Handler.

End PreviewWs.

(** ** src/api/routes/sessions.py *)

Module Sessions.
Import Models World.

(** What a handler answers: an [HTTPException] with the [error] of its
    detail, or its return value. *)
Inductive Answer (A : Type) : Type :=
| HTTPException (status_code : Z) (error : string)
| Returned (a : A).
Global Arguments HTTPException {A} status_code error.
Global Arguments Returned {A} a.

(** [verify_api_key(x_api_key)]; [secret] is
    [settings.cloud_run_webcontainer_secret]. *)
Definition verify_api_key (secret : string) (x_api_key : option string) : Answer unit :=
if negb (ApiKey.validate_api_key x_api_key secret)
then HTTPException 401 "unauthorized"
else Returned tt.

Section Routes.
Variable settings : Config.Settings.

(** [stop_session(session_id)] *)
Definition stop_session (session_id : string) : M (Answer unit) :=
let* success := SessionManager.stop_session settings session_id in
if negb success then Py.ret (HTTPException 404 "session_not_found")
else Py.ret (Returned tt).
End Routes.

End Sessions.

(** * Properties *)

(** ** Sanity checks of the built-ins *)

Example range_3 : Py.range 3 6 = [3; 4; 5].
Proof. reflexivity. Qed.
Example str_of_int_3000 : Py.str_of_int 3000 = "3000".
Proof. reflexivity. Qed.
Example replace_ex :
  Py.replace "a tok b tok" "tok" "[REDACTED]" = "a [REDACTED] b [REDACTED]".
Proof. reflexivity. Qed.
Example sanitize_ex :
  Security.sanitize_git_ref "feature/x" = Some "feature/x"
  ∧ Security.sanitize_git_ref "a b" = None
  ∧ Security.sanitize_repo_identifier " alice" "vite-app" = Some ("alice", "vite-app")
  ∧ Security.validate_access_token (Some "spl_validtokenformat1234567890123456") = true.
Proof. vm_compute. auto. Qed.

(** ** The port allocator *)

Lemma discard_absent (X : gset Z) (p : Z) : p ∉ X → X ∖ {[p]} = X.
Proof.
  intros Hp. apply set_eq. intros x.
  rewrite elem_of_difference, elem_of_singleton.
  split; [tauto|]. intros Hx. split; [done|]. by intros ->.
Qed.

Lemma discard_twice (X : gset Z) (p : Z) : X ∖ {[p]} ∖ {[p]} = X ∖ {[p]}.
Proof.
  apply discard_absent. rewrite elem_of_difference, elem_of_singleton. tauto.
Qed.

Section PortAllocatorFacts.
Import PortAllocator.
Variable in_use : Z → bool.

Definition free (a : t) (q : Z) : Prop := (q ∉ _allocated a) ∧ in_use q = false.

Lemma scan_Some allocated ports p :
  scan in_use allocated ports = Some p →
  ∃ before after, (ports = before ++ p :: after)
    ∧ (p ∉ allocated) ∧ in_use p = false
    ∧ ∀ q, q ∈ before → q ∈ allocated ∨ in_use q = true.
Proof.
  induction ports as [|x ports IH]; simpl; [done|].
  destruct (bool_decide (x ∉ allocated) && negb (in_use x)) eqn:E.
  - intros [= ->]. apply andb_true_iff in E as [E1 E2].
    apply bool_decide_eq_true in E1. apply negb_true_iff in E2.
    exists [], ports. repeat split; auto. intros q Hq. inversion Hq.
  - intros H. destruct (IH H) as (b & a & -> & Hp & Hu & Hb).
    exists (x :: b), a. repeat split; auto.
    intros q [->|Hq]%elem_of_cons; [|by apply Hb].
    apply andb_false_iff in E as [E|E].
    + apply bool_decide_eq_false in E. left. by apply dec_stable.
    + apply negb_false_iff in E. by right.
Qed.

Lemma scan_None allocated ports :
  scan in_use allocated ports = None ↔
  ∀ q, q ∈ ports → q ∈ allocated ∨ in_use q = true.
Proof.
  induction ports as [|x ports IH]; simpl.
  - split; [|done]. intros _ q Hq. inversion Hq.
  - destruct (bool_decide (x ∉ allocated) && negb (in_use x)) eqn:E.
    + split; [done|]. intros H. exfalso.
      apply andb_true_iff in E as [E1 E2].
      apply bool_decide_eq_true in E1. apply negb_true_iff in E2.
      destruct (H x) as [?|?]; [by left|done|congruence].
    + rewrite IH. split.
      * intros H q [->|Hq]%elem_of_cons; [|by apply H].
        apply andb_false_iff in E as [E|E].
        -- apply bool_decide_eq_false in E. left. by apply dec_stable.
        -- apply negb_false_iff in E. by right.
      * intros H q Hq. apply H. by right.
Qed.

Lemma elem_of_range a b q : q ∈ Py.range a b ↔ a ≤ q < b.
Proof. unfold Py.range. rewrite elem_of_seqZ. lia. Qed.

Lemma range_split a b before p after :
  Py.range a b = before ++ p :: after →
  a ≤ p < b ∧ ∀ q, a ≤ q < p → q ∈ before.
Proof.
  intros H. split.
  - apply elem_of_range. rewrite H. apply elem_of_app. right. by left.
  - unfold Py.range in H. intros q Hq.
    assert (Hl : (before ++ p :: after) !! length before = Some p)
      by (by rewrite list_lookup_middle).
    rewrite <- H in Hl. apply lookup_seqZ in Hl as [-> Hlt].
    assert (Hq' : seqZ a (b - a) !! Z.to_nat (q - a) = Some q).
    { apply lookup_seqZ. lia. }
    rewrite H in Hq'. rewrite lookup_app_l in Hq' by lia.
    by apply list_elem_of_lookup_2 in Hq'.
Qed.

(** C4 (as amended). A port handed out by [allocate] lies in the closed
    range [_start .. _end], was neither tracked nor in use on the host,
    is the first such port of the range, and is tracked afterwards;
    [allocate] fails exactly when every port of the closed range is
    tracked or in use; and releasing a port that is not tracked leaves
    the allocator as it was. *)
Theorem allocate_release_spec (a : t) :
  match allocate in_use a with
  | (Some p, a') =>
      _start a ≤ p ≤ _end a
      ∧ free a p
      ∧ (∀ q, _start a ≤ q < p → ¬ free a q)
      ∧ a' = mk (_start a) (_end a) ({[p]} ∪ _allocated a)
  | (None, a') =>
      a' = a ∧ ∀ q, _start a ≤ q ≤ _end a → ¬ free a q
  end
  ∧ ((allocate in_use a).1 = None ↔ (∀ q, _start a ≤ q ≤ _end a → ¬ free a q))
  ∧ (∀ p, p ∉ _allocated a → release a p = a).
Proof.
  assert (Hnf : ∀ q, (q ∈ _allocated a ∨ in_use q = true) ↔ ¬ free a q).
  { intros q. unfold free. split.
    - intros [H|H] [H1 H2]; [done|congruence].
    - intros H. destruct (decide (q ∈ _allocated a)); [by left|].
      right. destruct (in_use q); [done|]. exfalso. by apply H. }
  unfold allocate.
  destruct (scan in_use (_allocated a) (Py.range (_start a) (_end a + 1))) as [p|] eqn:E.
  - destruct (scan_Some _ _ _ E) as (b & af & Hr & Hp & Hu & Hb).
    destruct (range_split _ _ _ _ _ Hr) as [Hin Hbefore].
    split; [|split].
    + repeat split; try lia; auto.
      intros q Hq. apply Hnf. apply Hb, Hbefore. lia.
    + simpl. split; [done|]. intros H. exfalso.
      apply (H p); [lia|]. by split.
    + intros q Hq. destruct a as [s e al]; unfold release; simpl in *.
      f_equal. by apply discard_absent.
  - pose proof (proj1 (scan_None _ _) E) as HN.
    assert (HA : ∀ q, _start a ≤ q ≤ _end a → ¬ free a q).
    { intros q Hq. apply Hnf, HN, elem_of_range. lia. }
    split; [by split|split; [by split|]].
    intros q Hq. destruct a as [s e al]; unfold release; simpl in *.
    f_equal. by apply discard_absent.
Qed.

(** Releasing twice is releasing once. *)
Lemma release_idempotent (a : t) p : release (release a p) p = release a p.
Proof. unfold release; simpl. f_equal. apply discard_twice. Qed.
End PortAllocatorFacts.

(** C4 (as stated) fails: with the range 3000..3001 and port 3000 tracked,
    [allocate] hands out 3001, which is outside the half-open range
    [3000, 3001). *)
Lemma allocate_returns_range_end :
  (PortAllocator.allocate (λ _, false) (PortAllocator.mk 3000 3001 {[3000]})).1
    = Some 3001
  ∧ ¬ (3000 ≤ 3001 < 3001).
Proof. split; [vm_compute; reflexivity | lia]. Qed.

Example path_ex : Path.of_str "/tmp/workspaces" = ["/"; "tmp"; "workspaces"]
  ∧ Path.joinpath (Path.of_str "/tmp/workspaces") "abc" = ["/"; "tmp"; "workspaces"; "abc"]
  ∧ Path.joinpath (Path.of_str "/tmp/workspaces") "" = ["/"; "tmp"; "workspaces"]
  ∧ Path.to_str (Path.of_str "/tmp//workspaces/./x/") = "/tmp/workspaces/x".
Proof. vm_compute. auto. Qed.

(** ** The record store: reuse lookup and orphans *)

Section DbFacts.
Import Models Db.




Variables (now : Z) (owner name ref : string) (instance_id : option string).
Variable t : table.




End DbFacts.

Section ReuseFacts.
Import Models Db World.
Variable settings : Config.Settings.
Variables owner name ref : string.
Variable w : World.t.

End ReuseFacts.


Section OrphanFacts.
Import Models Db.
Variable now : Z.

(** The row written by [update_status(id, FAILED, ORPHANED)]. *)
Definition orphaned (s : SessionInDB) : SessionInDB :=
  apply_update now (mkUpdate (Some FAILED) (Some ORPHANED) None None None) s.

(** A row is reached by the loop over [data] when it is not deleted and
    bears the id of a row of [data]. *)
Definition reached (data : list SessionInDB) (s : SessionInDB) : bool :=
  not_deleted s && bool_decide (id s ∈ id <$> data).

Lemma orphaned_idemp s : orphaned (orphaned s) = orphaned s.
Proof. by destruct s. Qed.

Lemma reached_orphaned data s : reached data (orphaned s) = reached data s.
Proof. by destruct s. Qed.

Lemma update_status_table sid t :
  (update_status now sid FAILED (Some ORPHANED) t).2
  = (λ s, if targets sid s then orphaned s else s) <$> t.
Proof. reflexivity. Qed.

Lemma reached_nil s : reached [] s = false.
Proof.
  unfold reached. rewrite andb_false_iff. right.
  apply bool_decide_eq_false. simpl. apply not_elem_of_nil.
Qed.

Lemma reached_cons d data s :
  reached (d :: data) s = targets (id d) s || reached data s.
Proof.
  unfold reached, targets. rewrite fmap_cons.
  destruct (not_deleted s); simpl; [|by rewrite andb_false_r].
  rewrite andb_true_r.
  destruct (decide (id s = id d)) as [Heq|Hne].
  - rewrite (bool_decide_eq_true_2 (id s = id d)) by done. simpl.
    apply bool_decide_eq_true. rewrite Heq. by left.
  - rewrite (bool_decide_eq_false_2 (id s = id d)) by done. simpl.
    apply bool_decide_ext. rewrite elem_of_cons. tauto.
Qed.

Lemma claim_loop data t :
  foldl (λ t session, (update_status now (id session) FAILED (Some ORPHANED) t).2)
        t data
  = (λ s, if reached data s then orphaned s else s) <$> t.
Proof.
  revert t. induction data as [|d data IH]; intros t.
  - simpl. rewrite <- (list_fmap_id t) at 1. apply list_fmap_ext.
    intros _ s _. by rewrite reached_nil.
  - cbn [foldl]. rewrite IH, update_status_table, <- list_fmap_compose.
    apply list_fmap_ext. intros _ s _. cbn [compose].
    rewrite reached_cons.
    destruct (targets (id d) s); simpl.
    + rewrite reached_orphaned, orphaned_idemp. by destruct (reached data s).
    + done.
Qed.

Lemma reached_data stale_threshold t s :
  s ∈ t → orphan_query stale_threshold s = true →
  reached (filter (λ s, orphan_query stale_threshold s = true) t) s = true.
Proof.
  intros Hin Hq. unfold reached.
  assert (not_deleted s = true) as ->.
  { unfold orphan_query in Hq. by destruct (not_deleted s). }
  simpl. apply bool_decide_eq_true. apply list_elem_of_fmap. exists s.
  split; [done|]. by apply list_elem_of_filter.
Qed.
End OrphanFacts.

Section StartupFacts.
Import Models Db.
Variable settings : Config.Settings.

Lemma db_log_fold (l : list SessionInDB) (w : World.t) :
  World.db (foldl (λ w s, World.log_status (id s) FAILED w) w l) = World.db w.
Proof. revert w. induction l as [|x l IH]; intros w; simpl; [done|]. by rewrite IH. Qed.

Lemma recover_on_startup_db (w : World.t) :
  World.db (SessionManager.recover_on_startup settings w).2
  = (claim_orphaned_sessions (World.now w) (SessionManager.self_id settings)
       (World.now w - 300) (World.db w)).2.
Proof.
  unfold SessionManager.recover_on_startup, Gateway.claim_orphaned_sessions.
  unfold Py.bind, Py.get, Py.modify, Py.ret. simpl.
  by rewrite db_log_fold.
Qed.

(** C5 (as amended). At instance startup every row that is not deleted,
    whose status is pending, cloning, installing or starting, and whose
    [updated_at] is more than five minutes old is marked failed with
    the orphaned message; the table keeps its rows in place, and a row
    that shares its id with no such stale row (a ready row, where ids
    are unique) is left as it was. *)
Theorem recover_on_startup_spec (w : World.t) :
  let t : list SessionInDB := World.db w in
  let t' : list SessionInDB :=
    World.db (SessionManager.recover_on_startup settings w).2 in
  length t' = length t
  ∧ ∀ i r, t !! i = Some r →
      ∃ r', t' !! i = Some r' ∧ id r' = id r
        ∧ (deleted_at r = None →
           status r ∈ [PENDING; CLONING; INSTALLING; STARTING] →
           updated_at r < World.now w - 300 →
           status r' = FAILED ∧ error_message r' = Some ORPHANED
           ∧ updated_at r' = World.now w)
        ∧ ((∀ r0, r0 ∈ t → orphan_query (World.now w - 300) r0 = true →
                  id r0 ≠ id r) → r' = r).
Proof.
  intros t t'. subst t'. rewrite recover_on_startup_db.
  unfold claim_orphaned_sessions. cbn [snd]. rewrite claim_loop. fold t.
  split; [by rewrite length_fmap|].
  intros i r Hi.
  set (data := filter (λ s, orphan_query (World.now w - 300) s = true) t).
  exists (if reached data r then orphaned (World.now w) r else r).
  split; [by rewrite list_lookup_fmap, Hi|].
  split; [by destruct (reached data r), r|].
  split.
  - intros Hdel Hst Hup.
    assert (Hq : orphan_query (World.now w - 300) r = true).
    { unfold orphan_query, not_deleted, status_in.
      rewrite !andb_true_iff, !bool_decide_eq_true. auto. }
    assert (Hr : reached data r = true).
    { apply reached_data; [by eapply list_elem_of_lookup_2|done]. }
    rewrite Hr. by destruct r.
  - intros Hfresh. destruct (reached data r) eqn:E; [|done]. exfalso.
    unfold reached in E. apply andb_true_iff in E as [_ E].
    apply bool_decide_eq_true, list_elem_of_fmap in E as (r0 & Hid & Hr0).
    apply list_elem_of_filter in Hr0 as [Hq Hr0].
    by apply (Hfresh r0 Hr0 Hq).
Qed.
End StartupFacts.

(** C5 (as stated) fails: a ready row that is not deleted and was last
    updated an hour before startup is still ready afterwards. *)
Lemma startup_keeps_stale_ready_row :
  let settings :=
    Config.mkSettings 8080 "0.0.0.0" "local" "i1" "/tmp/workspaces" 3600 180
      3000 4000 None "/preview" None false in
  let r := Models.mkSession "S1" 0 0 0 7200 None "alice" "vite-app" "main"
             Models.READY None (Some 3000) (Some "local-i0") "spl_a" in
  let w := World.mk [r] 3600 ∅ (PortAllocator.init 3000 4000) ∅ ∅ ∅ [] [] in
  Models.updated_at r < World.now w - 300
  ∧ World.db (SessionManager.recover_on_startup settings w).2 = [r].
Proof. vm_compute. auto. Qed.

(** ** Strings *)

Section StringFacts.
Lemma app_cons c s t : String c s +:+ t = String c (s +:+ t).
Proof. reflexivity. Qed.
Lemma app_nil_l s : "" +:+ s = s.
Proof. reflexivity. Qed.

Lemma len_app s t : Py.len (s +:+ t) = (Py.len s + Py.len t)%nat.
Proof.
  induction s as [|c s IH]; [done|].
  rewrite app_cons. unfold Py.len in *. simpl. by rewrite IH.
Qed.

Lemma take_drop n s : Py.take n s +:+ Py.drop n s = s.
Proof.
  revert s. induction n as [|n IH]; intros [|c s]; simpl; try done.
  by rewrite app_cons, IH.
Qed.

Lemma take_app_len s t : Py.take (Py.len s) (s +:+ t) = s.
Proof.
  induction s as [|c s IH]; [by destruct t|].
  rewrite app_cons. unfold Py.len in *. simpl. by rewrite IH.
Qed.

Lemma drop_app_len s t : Py.drop (Py.len s) (s +:+ t) = t.
Proof.
  induction s as [|c s IH]; [by destruct t|].
  rewrite app_cons. unfold Py.len in *. simpl. by rewrite IH.
Qed.

(** [s.endswith(p)] holds exactly when [s] is some text followed by
    [p]; the text is then [s[:len(s) - len(p)]]. *)
Lemma endswith_iff s p :
  Py.endswith s p = true ↔ s = Py.take (Py.len s - Py.len p) s +:+ p.
Proof.
  unfold Py.endswith. rewrite andb_true_iff, !bool_decide_eq_true. split.
  - intros [_ Hd].
    transitivity (Py.take (Py.len s - Py.len p) s +:+ Py.drop (Py.len s - Py.len p) s);
      [by rewrite take_drop|by rewrite Hd].
  - intros H.
    assert (Hlen : (Py.len p ≤ Py.len s)%nat).
    { rewrite H, len_app. lia. }
    split; [done|].
    set (n := (Py.len s - Py.len p)%nat) in *.
    assert (Hn : Py.len (Py.take n s) = n).
    { assert (Py.len s = (Py.len (Py.take n s) + Py.len p)%nat)
        by (by rewrite <- len_app, <- H).
      lia. }
    rewrite H at 1. rewrite <- Hn at 1. apply drop_app_len.
Qed.

Lemma endswith_app s p : Py.endswith (s +:+ p) p = true.
Proof.
  apply endswith_iff. rewrite len_app.
  replace (Py.len s + Py.len p - Py.len p)%nat with (Py.len s) by lia.
  by rewrite take_app_len.
Qed.
End StringFacts.

(** ** Host-based routing *)

Section SubdomainFacts.
Variable settings : Config.Settings.
Variable domain : string.
Hypothesis enabled : Config.use_subdomain_routing settings = true.
Hypothesis configured : Config.preview_domain settings = Some domain.
Hypothesis nonempty : domain ≠ "".

(** C6 (as amended). With subdomain routing enabled and a preview domain
    configured, the extraction returns [id] exactly when the host, cut
    at its first [":"] and put in lower case, is [id] followed by ["."]
    and the preview domain in lower case, for a non-empty [id] without
    a dot; it returns nothing for every other host. *)
Theorem extract_session_from_host_spec (host sid : string) :
  Config.extract_session_from_host settings host = Some sid
  ↔ sid ≠ "" ∧ Py.char_in "." sid = false
    ∧ Py.lower (Py.split_first ":" host) = sid +:+ "." +:+ Py.lower domain.
Proof.
  unfold Config.extract_session_from_host. rewrite enabled, configured.
  unfold Py.truthy. rewrite (bool_decide_eq_false_2 (domain = "")) by done.
  set (h := Py.lower (Py.split_first ":" host)).
  set (suf := "." +:+ Py.lower domain).
  cbn zeta.
  set (pre := Py.take (Py.len h - Py.len suf) h).
  destruct (Py.endswith h suf) eqn:He; cbn [negb].
  - apply endswith_iff in He. fold pre in He.
    assert (Hpre : ∀ x, h = x +:+ suf → x = pre).
    { intros x Hx.
      assert (Hlen : Py.len pre = Py.len x).
      { pose proof (f_equal Py.len Hx) as H1. pose proof (f_equal Py.len He) as H2.
        rewrite len_app in H1, H2. lia. }
      rewrite He in Hx. apply (f_equal (Py.take (Py.len pre))) in Hx.
      rewrite take_app_len in Hx. by rewrite Hlen, take_app_len in Hx. }
    destruct (bool_decide (pre = "")) eqn:E1; cbn [orb].
    + apply bool_decide_eq_true in E1. split; [done|].
      intros (Hne & _ & Hh). exfalso. apply Hne.
      rewrite (Hpre sid Hh). done.
    + apply bool_decide_eq_false in E1.
      destruct (Py.char_in "." pre) eqn:E2.
      * split; [done|]. intros (_ & Hdot & Hh). exfalso.
        rewrite (Hpre sid Hh) in Hdot. congruence.
      * split.
        -- intros [= <-]. done.
        -- intros (_ & _ & Hh). f_equal. symmetry. by apply Hpre.
  - split; [done|]. intros (_ & _ & Hh). exfalso.
    fold suf in Hh. rewrite Hh, endswith_app in He. done.
Qed.
End SubdomainFacts.

(** The settings of the tests of subdomain routing. *)
Definition subdomain_settings : Config.Settings :=
  Config.mkSettings 8080 "0.0.0.0" "local" "i1" "/tmp/workspaces" 3600 180
    3000 4000 None "/preview" (Some "preview.splicer.run") true.

Lemma extract_session_from_host_witness :
  Config.use_subdomain_routing subdomain_settings = true
  ∧ Config.preview_domain subdomain_settings = Some "preview.splicer.run"
  ∧ "preview.splicer.run" ≠ ""
  ∧ (Config.extract_session_from_host subdomain_settings
       "abc123def.preview.splicer.run:443" = Some "abc123def"
     ↔ "abc123def" ≠ "" ∧ Py.char_in "." "abc123def" = false
       ∧ Py.lower (Py.split_first ":" "abc123def.preview.splicer.run:443")
         = "abc123def" +:+ "." +:+ Py.lower "preview.splicer.run").
Proof.
  assert (Hne : "preview.splicer.run" ≠ "") by discriminate.
  split; [reflexivity|]. split; [reflexivity|]. split; [exact Hne|].
  exact (extract_session_from_host_spec subdomain_settings "preview.splicer.run"
           eq_refl eq_refl Hne "abc123def.preview.splicer.run:443" "abc123def").
Defined.

(** The claim's reading of a host: [id], a dot, the preview domain, and
    possibly a colon and a port. *)
Definition host_of (domain sid host : string) : Prop :=
  sid ≠ "" ∧ Py.char_in "." sid = false
  ∧ (host = sid +:+ "." +:+ domain
     ∨ ∃ port, host = sid +:+ "." +:+ domain +:+ ":" +:+ port).

(** C6 (as stated) fails: the extraction answers ["abc123def"] for a host
    written in capitals (the case of the test
    [test_extract_session_case_insensitive]), which is not ["abc123def"]
    followed by the preview domain, with or without a port. *)
Lemma extract_folds_case :
  Config.extract_session_from_host subdomain_settings "ABC123DEF.Preview.Splicer.Run"
    = Some "abc123def"
  ∧ ¬ host_of "preview.splicer.run" "abc123def" "ABC123DEF.Preview.Splicer.Run".
Proof.
  split; [vm_compute; reflexivity|].
  intros (_ & _ & [H|[port H]]); discriminate H.
Qed.

(** ** Launch of the dev server: the flags injected into argv *)

Section InjectFacts.
Import ProcessManager.

(** C7. For a non-empty argv: a command with [react-scripts] in one of
    its arguments is launched as it is; otherwise the flags injected are
    [--port <n>] unless argv has a port flag, followed by [--host]
    unless argv has a host flag, and they go at the end of argv; for
    [npm run <script>] and [npm start] they come after a ["--"]
    separator, which is appended when argv has none; for yarn, pnpm and
    every other command they are appended directly. *)
Theorem inject_server_flags_spec (command : list string) (port : Z)
    (session_id : string) (framework : option string) :
  command ≠ [] →
  let result := _inject_server_flags command port session_id framework in
  let flags := flags_to_add command port in
  flags = (if has_port command then [] else ["--port"; Py.str_of_int port])
          ++ (if has_host command then [] else ["--host"])
  ∧ (is_react_scripts command = true → result = command)
  ∧ (is_react_scripts command = false →
     ((is_npm_run command || is_npm_start command) = true →
      result = (if Py.elem "--" command || bool_decide (flags = [])
                then command else command ++ ["--"]) ++ flags
      ∧ (flags ≠ [] → ∃ pre, result = pre ++ flags ∧ "--" ∈ pre))
     ∧ ((is_npm_run command || is_npm_start command) = false →
        result = command ++ flags)).
Proof.
  intros Hne result flags. subst result flags.
  unfold _inject_server_flags.
  destruct command as [|c cs]; [done|]. set (cmd := c :: cs).
  split; [reflexivity|]. split.
  - by intros ->.
  - intros ->. destruct (flags_to_add cmd port) as [|f fs] eqn:Ef.
    + split; intros Hn.
      * split; [|done]. rewrite orb_true_r. by rewrite app_nil_r.
      * by rewrite app_nil_r.
    + split; intros Hn; rewrite Hn.
      * rewrite (bool_decide_eq_false_2 (f :: fs = [])) by done.
        rewrite orb_false_r. split; [done|]. intros _.
        destruct (Py.elem "--" cmd) eqn:E.
        -- exists cmd. split; [done|]. by apply bool_decide_eq_true in E.
        -- exists (cmd ++ ["--"]). split; [done|].
           apply elem_of_app. right. by left.
      * by destruct (is_yarn cmd || is_pnpm cmd).
Qed.

Lemma inject_server_flags_witness :
  ["npm"; "run"; "dev"] ≠ []
  ∧ _inject_server_flags ["npm"; "run"; "dev"] 3001 "S1" (Some "vite")
    = ["npm"; "run"; "dev"; "--"; "--port"; "3001"; "--host"].
Proof.
  assert (Hne : ["npm"; "run"; "dev"] ≠ ([] : list string)) by discriminate.
  split; [exact Hne|].
  destruct (inject_server_flags_spec ["npm"; "run"; "dev"] 3001 "S1"
              (Some "vite") Hne) as (_ & _ & H).
  destruct (H eq_refl) as [H1 _]. destruct (H1 eq_refl) as [H2 _].
  exact H2.
Defined.

Example inject_yarn :
  _inject_server_flags ["yarn"; "dev"] 3004 "S1" None
  = ["yarn"; "dev"; "--port"; "3004"; "--host"].
Proof. reflexivity. Qed.
Example inject_react_scripts :
  _inject_server_flags ["npx"; "react-scripts"; "start"] 3012 "S1" None
  = ["npx"; "react-scripts"; "start"].
Proof. reflexivity. Qed.
Example inject_port_present :
  _inject_server_flags ["npm"; "run"; "dev"; "--"; "--port"; "5000"] 3013 "S1" None
  = ["npm"; "run"; "dev"; "--"; "--port"; "5000"; "--host"].
Proof. reflexivity. Qed.
End InjectFacts.

(** ** Workspaces *)

Section WorkspaceFacts.
Import WorkspaceManager.
Variable settings : Config.Settings.

Lemma len_filter_chars p s : (Py.len (Py.filter_chars p s) ≤ Py.len s)%nat.
Proof.
  unfold Py.len. induction s as [|c s IH]; simpl; [done|].
  destruct (p c); simpl; lia.
Qed.

Lemma filter_chars_fix p s :
  Py.filter_chars p s = s → Py.all_chars p s = true.
Proof.
  induction s as [|c s IH]; simpl; [done|].
  destruct (p c) eqn:E; simpl.
  - intros [= H]. auto.
  - intros H. pose proof (len_filter_chars p s) as Hl.
    rewrite H in Hl. unfold Py.len in Hl. simpl in Hl. lia.
Qed.

(** The workspace of a session lies beneath the base directory. *)
Lemma workspace_beneath_base sid p :
  _get_workspace_path settings sid = Py.Ok p →
  Path.beneath (_base_dir settings) p.
Proof.
  unfold _get_workspace_path. case_bool_decide as H; [done|].
  rewrite H. intros [= <-].
  unfold Path.joinpath.
  assert (Py.startswith sid "/" = false) as ->.
  { apply filter_chars_fix in H. destruct sid as [|c sid]; [done|].
    simpl in *. apply andb_true_iff in H as [H _].
    destruct (decide ("/"%char = c)) as [<-|Hc]; [vm_compute in H; discriminate|].
    by rewrite bool_decide_eq_false_2. }
  by apply prefix_app_r.
Qed.

(** C10. The empty session id passes the validation of
    [_get_workspace_path] and is mapped to the base directory itself;
    so, when the base directory exists, [cleanup_workspace("")] returns
    [True] after removing the base directory and everything beneath it,
    and no workspace of any session is left. *)
Theorem cleanup_workspace_empty_id (w : World.t) :
  let base := _base_dir settings in
  base ∈ World.fs w →
  _get_workspace_path settings "" = Py.Ok base
  ∧ ∃ w', cleanup_workspace settings "" w = (Py.Ok true, w')
      ∧ World.fs w' = Fs.rmtree base (World.fs w)
      ∧ (∀ q, Path.beneath base q → q ∉ World.fs w')
      ∧ (∀ sid p, _get_workspace_path settings sid = Py.Ok p → p ∉ World.fs w').
Proof.
  intros base Hbase.
  assert (Hpath : _get_workspace_path settings "" = Py.Ok base).
  { unfold _get_workspace_path, Path.joinpath. simpl.
    by rewrite app_nil_r. }
  split; [done|].
  unfold cleanup_workspace. rewrite Hpath.
  unfold Py.bind, Py.of_result, Py.get, Py.modify, Py.ret.
  rewrite (bool_decide_eq_false_2 (base ∉ World.fs w)) by auto.
  eexists. split; [reflexivity|]. simpl.
  assert (Hgone : ∀ q, Path.beneath base q → q ∉ Fs.rmtree base (World.fs w)).
  { intros q Hq Hin. unfold Fs.rmtree in Hin.
    apply elem_of_filter in Hin as [Hn _]. by apply Hn. }
  split; [done|]. split; [done|].
  intros sid p Hp. apply Hgone. by eapply workspace_beneath_base.
Qed.
End WorkspaceFacts.

(** A host with the workspaces of two sessions. *)
Definition path_settings : Config.Settings :=
  Config.mkSettings 8080 "0.0.0.0" "local" "i1" "/tmp/workspaces" 3600 180
    3000 4000 None "/preview" None false.

Definition two_workspaces : gset Path.t :=
  {[ ["/"]; ["/"; "tmp"]; ["/"; "tmp"; "workspaces"];
     ["/"; "tmp"; "workspaces"; "S1"];
     ["/"; "tmp"; "workspaces"; "S1"; "package.json"];
     ["/"; "tmp"; "workspaces"; "S2"] ]}.

Definition world_of_fs (fs : gset Path.t) : World.t :=
  World.mk [] 0 fs (PortAllocator.init 3000 4000) ∅ ∅ ∅ [] [].

Lemma cleanup_workspace_empty_id_witness :
  WorkspaceManager._base_dir path_settings ∈ two_workspaces
  ∧ (WorkspaceManager.cleanup_workspace path_settings "" (world_of_fs two_workspaces)).1
    = Py.Ok true
  ∧ ["/"; "tmp"; "workspaces"; "S1"]
    ∉ World.fs (WorkspaceManager.cleanup_workspace path_settings ""
                  (world_of_fs two_workspaces)).2.
Proof.
  assert (Hb : WorkspaceManager._base_dir path_settings ∈ two_workspaces).
  { apply (bool_decide_unpack _). vm_compute. exact I. }
  split; [exact Hb|].
  destruct (cleanup_workspace_empty_id path_settings (world_of_fs two_workspaces) Hb)
    as (_ & w' & Hrun & _ & _ & Hall).
  rewrite Hrun. split; [reflexivity|].
  apply (Hall "S1"). reflexivity.
Defined.

(** ** The reuse lookup of create on stores with two matching rows *)

(** A more recent ready row of another instance and an older one of this
    instance: the query over all instances returns the more recent row,
    the lookup of create returns the older one. *)
Example find_existing_prefers_own_row :
  let a := Models.mkSession "A" 10 10 10 100 None "alice" "vite-app" "main"
             Models.READY None None (Some "local-i0") "spl_a" in
  let b := Models.mkSession "B" 5 5 5 100 None "alice" "vite-app" "main"
             Models.READY None None (Some "local-i1") "spl_b" in
  let w := World.mk [a; b] 50 ∅ (PortAllocator.init 3000 4000) ∅ ∅ ∅ [] [] in
  Db.find_active_session_for_repo 50 "alice" "vite-app" "main" None [a; b] = Some a
  ∧ (SessionManager.find_existing_session path_settings "alice" "vite-app" "main" w).1
    = Py.Ok (Some (SessionManager.from_db b
                     (Some (Config.get_preview_url path_settings "B" "spl_b")))).
Proof. vm_compute. auto. Qed.

(** A more recent row that has expired and an older one that has not:
    the lookup of create returns nothing and writes nothing. *)
Example find_existing_misses_older_row :
  let a := Models.mkSession "A" 10 10 10 20 None "alice" "vite-app" "main"
             Models.READY None None (Some "local-i1") "spl_a" in
  let b := Models.mkSession "B" 5 5 5 100 None "alice" "vite-app" "main"
             Models.READY None None (Some "local-i1") "spl_b" in
  let w := World.mk [a; b] 50 ∅ (PortAllocator.init 3000 4000) ∅ ∅ ∅ [] [] in
  Models.is_expired 50 b = false
  ∧ SessionManager.find_existing_session path_settings "alice" "vite-app" "main" w
    = (Py.Ok None, w).
Proof. vm_compute. auto. Qed.

(** ** The clone operation and the setup task *)

Section CloneFacts.
Import World GitHubClient.
Variable settings : Config.Settings.
Variable o : Oracle.

(** A call that passes [token=...] never reaches the body of
    [clone_with_fallback]. *)
Lemma call_with_token_raises owner name ref target_dir (w : World.t) :
  call_clone_with_fallback settings o ["token"] owner name ref target_dir w
  = (Py.Raise (Py.TypeError
       "GitHubClient.clone_with_fallback() got an unexpected keyword argument 'token'"),
     w).
Proof. reflexivity. Qed.

(** [clone_repository] launches no git command and reports no success:
    it returns early on an invalid identifier or reference, and raises
    at the first read of [settings.github_pat] otherwise. *)
Lemma clone_repository_no_git owner name ref target_dir (w : World.t) :
  git_commands (clone_repository settings o owner name ref target_dir w).2
  = git_commands w
  ∧ status_writes (clone_repository settings o owner name ref target_dir w).2
    = status_writes w
  ∧ ∀ r, (clone_repository settings o owner name ref target_dir w).1 = Py.Ok r →
         success r = false.
Proof.
  unfold clone_repository.
  destruct (Security.sanitize_repo_identifier owner name) as [[ow nm]|];
    [|by split; [|split; [|intros r [= <-]]]].
  destruct (Py.truthy (Security.sanitize_git_ref ref)) as [rf|];
    [|by split; [|split; [|intros r [= <-]]]].
  by split; [|split].
Qed.

Lemma clone_repository_valid owner name ref target_dir (w : World.t) ow nm rf :
  Security.sanitize_repo_identifier owner name = Some (ow, nm) →
  Security.sanitize_git_ref ref = Some rf → rf ≠ "" →
  clone_repository settings o owner name ref target_dir w
  = (Py.Raise (Py.AttributeError "'Settings' object has no attribute 'github_pat'"),
     set_fs (Fs.mkdir_parents target_dir) w).
Proof.
  intros H1 H2 Hne. unfold clone_repository. rewrite H1, H2. cbn [Py.truthy].
  by rewrite bool_decide_eq_false_2 by done.
Qed.

(** A reference made of blanks only is refused, with no effect. *)
Lemma clone_repository_blank owner name ref target_dir (w : World.t) ow nm :
  Security.sanitize_repo_identifier owner name = Some (ow, nm) →
  Security.sanitize_git_ref ref = Some "" →
  clone_repository settings o owner name ref target_dir w
  = (Py.Ok (mkClone false None (Some "Invalid git reference") None), w).
Proof. intros H1 H2. unfold clone_repository. by rewrite H1, H2. Qed.

Lemma try_fallbacks_no_git owner name ref target_dir refs (w : World.t) :
  git_commands (try_fallbacks settings o owner name ref target_dir refs w).2
  = git_commands w
  ∧ ∀ r, (try_fallbacks settings o owner name ref target_dir refs w).1 = Py.Ok r →
         success r = false.
Proof.
  revert w. induction refs as [|fb refs IH]; intros w; simpl.
  - split; [done|]. by intros r [= <-].
  - unfold Py.bind, Py.modify. cbv beta iota.
    set (w1 := set_fs (Fs.rmtree_if_exists target_dir) w).
    destruct (clone_repository_no_git owner name fb target_dir w1) as (Hg & _ & Hs).
    destruct (clone_repository settings o owner name fb target_dir w1)
      as [[r|e] w2] eqn:E; simpl in *.
    + rewrite (Hs r eq_refl). destruct (IH w2) as [IH1 IH2].
      split; [by rewrite IH1, Hg|done].
    + split; [done|]. by intros r.
Qed.

(** C2 (what the code does). However it is called, the clone operation
    hands no command to git, so no URL that embeds a token is ever
    built, and it never reports success: with [token=...] the call
    raises [TypeError]; without it [clone_repository] raises
    [AttributeError] on [settings.github_pat] for every valid
    repository, or returns the failure of the validation. *)
Theorem clone_never_runs_git owner name ref target_dir (w : World.t) :
  call_clone_with_fallback settings o ["token"] owner name ref target_dir w
  = (Py.Raise (Py.TypeError
       "GitHubClient.clone_with_fallback() got an unexpected keyword argument 'token'"),
     w)
  ∧ git_commands (clone_with_fallback settings o owner name ref target_dir w).2
    = git_commands w
  ∧ (∀ r, (clone_with_fallback settings o owner name ref target_dir w).1 = Py.Ok r →
          success r = false)
  ∧ (∀ ow nm rf,
       Security.sanitize_repo_identifier owner name = Some (ow, nm) →
       Security.sanitize_git_ref ref = Some rf →
       (clone_with_fallback settings o owner name ref target_dir w).1
       = Py.Raise (Py.AttributeError "'Settings' object has no attribute 'github_pat'")).
Proof.
  split; [apply call_with_token_raises|].
  unfold clone_with_fallback, Py.bind.
  destruct (clone_repository_no_git owner name ref target_dir w) as (Hg & _ & Hs).
  assert (Hbody :
    git_commands
      (match clone_repository settings o owner name ref target_dir w with
       | (Py.Ok a, s') =>
           (if success a then Py.ret a
            else try_fallbacks settings o owner name ref target_dir (fallback_refs ref)) s'
       | (Py.Raise e, s') => (Py.Raise e, s')
       end).2 = git_commands w
    ∧ ∀ r,
      (match clone_repository settings o owner name ref target_dir w with
       | (Py.Ok a, s') =>
           (if success a then Py.ret a
            else try_fallbacks settings o owner name ref target_dir (fallback_refs ref)) s'
       | (Py.Raise e, s') => (Py.Raise e, s')
       end).1 = Py.Ok r → success r = false).
  { destruct (clone_repository settings o owner name ref target_dir w)
      as [[r|e] w2] eqn:E; simpl in *.
    - rewrite (Hs r eq_refl).
      destruct (try_fallbacks_no_git owner name ref target_dir (fallback_refs ref) w2)
        as [H1 H2].
      split; [by rewrite H1|done].
    - split; [done|]. by intros r. }
  destruct Hbody as [H1 H2]. split; [done|]. split; [done|].
  intros ow nm rf Hid Href.
  destruct (decide (rf = "")) as [->|Hne].
  - rewrite (clone_repository_blank _ _ _ _ _ _ _ Hid Href). cbn [success].
    assert (Hrefs : fallback_refs ref = ["main"; "master"]).
    { unfold fallback_refs. rewrite !filter_cons, filter_nil.
      destruct (decide ("main" ≠ ref)) as [_|Hm];
        [|apply dec_stable in Hm; subst ref; discriminate Href].
      destruct (decide ("master" ≠ ref)) as [_|Hm];
        [done|apply dec_stable in Hm; subst ref; discriminate Href]. }
    rewrite Hrefs. cbn [try_fallbacks]. unfold Py.bind at 1, Py.modify at 1.
    unfold Py.bind at 1.
    by rewrite (clone_repository_valid _ _ "main" _ _ _ _ "main" Hid eq_refl).
  - by rewrite (clone_repository_valid _ _ _ _ _ _ _ _ Hid Href Hne).
Qed.
End CloneFacts.

Section SetupFacts.
Import Models World SessionManager.
Variable settings : Config.Settings.
Variable o : Oracle.

Lemma create_workspace_writes sid (w : World.t) :
  status_writes (WorkspaceManager.create_workspace settings sid w).2 = status_writes w.
Proof.
  unfold WorkspaceManager.create_workspace, Py.bind, Py.of_result, Py.modify, Py.get.
  destruct (WorkspaceManager._get_workspace_path settings sid); [|done].
  cbv beta iota. by case_bool_decide.
Qed.

Lemma cleanup_failed_writes sid (w : World.t) :
  status_writes (_cleanup_failed_session settings sid w).2 = status_writes w.
Proof.
  unfold _cleanup_failed_session, ProcessManager.stop_process,
    WorkspaceManager.cleanup_workspace, Py.bind, Py.of_result, Py.modify, Py.get, Py.ret.
  cbv beta iota.
  destruct (processes w !! sid);
    destruct (WorkspaceManager._get_workspace_path settings sid); cbv beta iota;
    try done; by case_bool_decide.
Qed.

Lemma fail_session_writes sid error (w : World.t) :
  status_writes (_fail_session settings sid error w).2
  = status_writes w ++ [(sid, FAILED)].
Proof.
  unfold _fail_session, Py.bind.
  unfold Gateway.update_status, Gateway.update_session, Py.bind, Py.get, Py.modify, Py.ret.
  cbv beta iota. cbn [u_status]. cbv beta iota.
  by rewrite cleanup_failed_writes.
Qed.

Definition TOKEN_ERROR : string :=
  "GitHubClient.clone_with_fallback() got an unexpected keyword argument 'token'".

Lemma setup_session_unknown (sid : string) (w : World.t) :
  Db.get_session sid (db w) = None →
  _setup_session settings o sid w = (Py.Ok tt, w).
Proof.
  intros H. unfold _setup_session, Gateway.get_session.
  unfold Py.bind at 1. unfold Py.bind at 1, Py.get at 1, Py.ret at 1.
  by rewrite H.
Qed.

Lemma setup_session_known (sid : string) (w : World.t) s :
  Db.get_session sid (db w) = Some s →
  status_writes (_setup_session settings o sid w).2
  = status_writes w ++ [(sid, CLONING); (sid, FAILED)].
Proof.
  intros H. unfold _setup_session, Gateway.get_session.
  unfold Py.bind at 1. unfold Py.bind at 1, Py.get at 1, Py.ret at 1.
  rewrite H. unfold Py.bind at 1, Py.get at 1. unfold Py.try_finally.
  set (body := Py.try_except _ _).
  assert (Hbody : status_writes (body w).2
                  = status_writes w ++ [(sid, CLONING); (sid, FAILED)]).
  { subst body. unfold Py.try_except.
    unfold Py.bind at 1.
    unfold Gateway.update_status at 1, Gateway.update_session at 1.
    unfold Py.bind at 1, Py.get at 1. cbv beta iota.
    unfold Py.bind at 1, Py.modify at 1. cbv beta iota.
    unfold Py.bind at 1. cbn [u_status]. unfold Py.modify at 1.
    cbv beta iota. unfold Py.ret at 1.
    set (w1 := log_status sid CLONING _).
    assert (Hw1 : status_writes w1 = status_writes w ++ [(sid, CLONING)]) by done.
    unfold Py.bind at 1.
    pose proof (create_workspace_writes sid w1) as Hcw.
    destruct (WorkspaceManager.create_workspace settings sid w1) as [[p|e] w2].
    - unfold Py.bind at 1. rewrite call_with_token_raises.
      rewrite fail_session_writes. cbn [snd] in Hcw. rewrite Hcw, Hw1.
      by rewrite <- app_assoc.
    - rewrite fail_session_writes. cbn [snd] in Hcw. rewrite Hcw, Hw1.
      by rewrite <- app_assoc. }
  destruct (body w) as [r w2]. simpl in Hbody.
  unfold Py.bind, Py.modify. simpl. done.
Qed.

(** C1 (what the code does). Whatever git, the package manager and the
    dev server would answer, the setup task of an existing session
    writes [cloning] and then [failed], and nothing else: the call of
    [clone_with_fallback] with [token=...] raises [TypeError] (or the
    creation of the workspace raises before it), the handler marks the
    session failed. The statuses [installing], [starting] and [ready]
    are never written. *)
Theorem setup_session_writes (sid : string) (w : World.t) :
  match Db.get_session sid (db w) with
  | Some _ =>
      status_writes (_setup_session settings o sid w).2
      = status_writes w ++ [(sid, CLONING); (sid, FAILED)]
  | None => _setup_session settings o sid w = (Py.Ok tt, w)
  end.
Proof.
  destruct (Db.get_session sid (db w)) as [s|] eqn:E.
  - by eapply setup_session_known.
  - by apply setup_session_unknown.
Qed.
End SetupFacts.

(** A host on which everything succeeds: the ports are free, git clones,
    the install yields [npm run dev], the dev server starts and answers. *)
Definition obliging : World.Oracle :=
  World.mkOracle
    (λ _, false)
    (λ _, World.Exited 0 "")
    (λ _, Some "0123abc")
    (λ _ _, Py.Ok (World.mkWorkspaceInfo (Some "vite") (Some ["npm"; "run"; "dev"])))
    (λ _ _, Py.Ok 4242)
    (λ _ _, true)
    (λ _, "S1")
    (λ _, "spl_0123456789abcdefghijklmnop").

Definition fresh_world : World.t := world_of_fs ∅.

(** The create-session request of the happy path on that host: the
    statuses written are pending, cloning, failed, and the record ends
    failed with the message of the [TypeError]. *)
Lemma create_session_on_obliging_host :
  let run := SessionManager.create_and_setup path_settings obliging
               "alice" "vite-app" "main" None false fresh_world in
  World.status_writes run.2
    = [("S1", Models.PENDING); ("S1", Models.CLONING); ("S1", Models.FAILED)]
  ∧ (Models.status <$> World.db run.2) = [Models.FAILED]
  ∧ (Models.error_message <$> World.db run.2) = [Some TOKEN_ERROR]
  ∧ World.git_commands run.2 = [].
Proof. vm_compute. auto. Qed.

(** The same request with a token: the token reaches no git command. *)
Lemma create_session_with_token :
  let run := SessionManager.create_and_setup path_settings obliging
               "alice" "vite-app" "main" (Some "ghs_secret") false fresh_world in
  World.status_writes run.2
    = [("S1", Models.PENDING); ("S1", Models.CLONING); ("S1", Models.FAILED)]
  ∧ World.git_commands run.2 = [].
Proof. vm_compute. auto. Qed.

(** The clone operation called directly on a valid public repository. *)
Lemma clone_public_repository :
  (GitHubClient.clone_with_fallback path_settings obliging "alice" "vite-app" "main"
     ["/"; "tmp"; "workspaces"; "S1"] fresh_world).1
  = Py.Raise (Py.AttributeError "'Settings' object has no attribute 'github_pat'").
Proof. vm_compute. reflexivity. Qed.

(** ** The preview handler on the session manager of the sources *)

(** What [validate_access] of session_manager.py resolves: the row of
    that id that is not deleted, when the token is its access token; the
    world is left as it is. *)
Lemma validate_access_session settings sid tok (w : World.t) :
  ∃ v p,
    SessionManager.validate_access settings sid tok w
    = (Py.Ok (v,
              match Db.get_session sid (World.db w) with
              | Some s =>
                  if bool_decide (Models.access_token s = tok) then Some s else None
              | None => None
              end, p), w).
Proof.
  unfold SessionManager.validate_access, Gateway.get_session,
    ProcessManager.get_process_info, Security.constant_time_compare,
    Py.bind, Py.get, Py.ret.
  cbv beta iota.
  destruct (Db.get_session sid (World.db w)) as [s|]; [|by eexists _, _].
  destruct (bool_decide (Models.access_token s = tok)); cbn [negb];
    [|by eexists _, _].
  repeat case_bool_decide; try (by eexists _, _).
  destruct (World.processes w !! sid); by eexists _, _.
Qed.

Definition S1_token : string := "spl_0123456789abcdefghijklmnop".

(** A store with one session [S1], claimed by another instance. *)
Definition world_with (st : Models.SessionStatus) : World.t :=
  World.mk
    [Models.mkSession "S1" 0 0 0 3600 None "alice" "vite-app" "main" st
       None (Some 3000) (Some "local-i0") S1_token]
    10 ∅ (PortAllocator.init 3000 4000) ∅ ∅ ∅ [] [].

Definition S1_request : Preview.Request := Preview.mkRequest "S1" "" (Some S1_token) ∅.

Section PreviewFacts.
Import Models World Preview.
Variable settings : Config.Settings.
Variable o : Oracle.
(** The recovery: any computation; the other two operations of the
    manager are those of session_manager.py. *)
Variable recover : string → M (bool * option Z).



End PreviewFacts.



(** The other answers, evaluated on the session manager of the sources:
    a wrong token and an unknown id give 404, a pending session the
    loading page; for a ready session of another instance recovery is
    tried, fails on the call of [clone_with_fallback], and the
    refreshing page is returned while the record is marked failed. *)
Lemma proxy_http_examples :
  let m := Preview.session_manager path_settings obliging in
  (Preview.proxy_http path_settings m
     (Preview.mkRequest "S1" "" (Some "spl_another0123456789abcdefg") ∅)
     (world_with Models.FAILED)).1
    = Py.Ok (Preview.HTTPException 404 "Session not found")
  ∧ (Preview.proxy_http path_settings m
       (Preview.mkRequest "S2" "" (Some S1_token) ∅) (world_with Models.READY)).1
    = Py.Ok (Preview.HTTPException 404 "Session not found")
  ∧ (Preview.proxy_http path_settings m S1_request (world_with Models.STOPPED)).1
    = Py.Ok (Preview.HTMLResponse Preview.ErrorPage 410 [])
  ∧ (Preview.proxy_http path_settings m S1_request (world_with Models.INSTALLING)).1
    = Py.Ok (Preview.HTMLResponse (Preview.LoadingPage "Installing dependencies...") 202 [])
  ∧ (Preview.proxy_http path_settings m S1_request (world_with Models.READY)).1
    = Py.Ok (Preview.HTMLResponse (Preview.LoadingPage "Starting dev server...") 202
               [("Refresh", "3")])
  ∧ (Models.status <$>
       World.db (Preview.proxy_http path_settings m S1_request (world_with Models.READY)).2)
    = [Models.FAILED].
Proof. vm_compute. repeat split. Qed.

(** ** The rewriting of HTML: the cases of the tests *)

Example rewrite_script_src :
  Proxy._rewrite_html_for_proxy path_settings
    "<html><head></head><body><script src='/src/main.tsx'></script></body></html>"
    "abc123"
  = "<html><head>" +:+ Proxy.NL +:+ "    " +:+ Proxy.base_tag "/preview" "abc123"
    +:+ "</head><body><script src='/preview/abc123/src/main.tsx'></script></body></html>".
Proof. vm_compute. reflexivity. Qed.

Example rewrite_keeps_external :
  Proxy.rewrite_urls "/preview" "abc123"
    "<script src='https://cdn.example.com/script.js'></script><script src='//cdn.example.com/other.js'></script><img src='data:image/png;base64,abc123'><a href='/preview/abc123/x'>"
  = "<script src='https://cdn.example.com/script.js'></script><script src='//cdn.example.com/other.js'></script><img src='data:image/png;base64,abc123'><a href='/preview/abc123/x'>".
Proof. vm_compute. reflexivity. Qed.

Example rewrite_srcset_ex :
  Proxy.rewrite_urls "/preview" "abc123"
    "<img srcset='/img1.png 1x, /img2.png 2x, https://cdn.example.com/i.png 3x'>"
  = "<img srcset='/preview/abc123/img1.png 1x, /preview/abc123/img2.png 2x, https://cdn.example.com/i.png 3x'>".
Proof. vm_compute. reflexivity. Qed.


(** ** The rewriting of HTML: the scans *)

Section ScanFacts.
Lemma str_app_assoc s t u : (s +:+ t) +:+ u = s +:+ t +:+ u.
Proof. induction s as [|c s IH]; [done|]. by rewrite !app_cons, IH. Qed.

Lemma str_app_nil_r s : s +:+ "" = s.
Proof. induction s as [|c s IH]; [done|]. by rewrite app_cons, IH. Qed.

Lemma app_last_inj s1 c1 s2 c2 :
  s1 +:+ String c1 "" = s2 +:+ String c2 "" → c1 = c2.
Proof.
  revert s2. induction s1 as [|a s1 IH]; intros [|b s2]; simpl.
  - by intros [= ->].
  - destruct s2; done.
  - destruct s1; done.
  - intros [= _ H]. by apply (IH s2).
Qed.

Lemma all_chars_app p s t :
  Py.all_chars p (s +:+ t) = Py.all_chars p s && Py.all_chars p t.
Proof.
  induction s as [|c s IH]; [done|]. simpl. by rewrite IH, andb_assoc.
Qed.

Lemma all_chars_impl (p q : ascii → bool) s :
  (∀ c, p c = true → q c = true) → Py.all_chars p s = true → Py.all_chars q s = true.
Proof.
  intros H. induction s as [|c s IH]; simpl; [done|].
  intros [H1 H2]%andb_true_iff. by rewrite (H c H1), IH.
Qed.

(** A greedy class stops at the first character outside it. *)
Lemma span_stop p v c R :
  Py.all_chars p v = true → p c = false →
  Re.span p (v +:+ String c R) = (v, String c R).
Proof.
  intros Hv Hc. induction v as [|a v IH]; simpl in *.
  - by rewrite Hc.
  - apply andb_true_iff in Hv as [Ha Hv]. by rewrite Ha, (IH Hv).
Qed.

Lemma sub_cons_None m c s :
  m (String c s) = None → Re.sub m 0 (String c s) = String c (Re.sub m 0 s).
Proof. intros H. simpl. by rewrite H. Qed.

Lemma sub_cons_Some m c s n repl :
  m (String c s) = Some (n, repl) →
  Re.sub m 0 (String c s) = repl +:+ Re.sub m (n - 1) s.
Proof. intros H. simpl. by rewrite H. Qed.

(** The characters of a match are passed over. *)
Lemma sub_skip m k v R : Re.sub m (Py.len v + k) (v +:+ R) = Re.sub m k R.
Proof. induction v as [|c v IH]; [done|]. exact IH. Qed.

(** No match starts inside [v]: the scan copies it. *)
Lemma sub_app_None m v R :
  (∀ u c t, v = u +:+ String c t → m (String c t +:+ R) = None) →
  Re.sub m 0 (v +:+ R) = v +:+ Re.sub m 0 R.
Proof.
  induction v as [|c v IH]; intros H; [done|].
  rewrite app_cons, sub_cons_None by apply (H "" c v eq_refl).
  rewrite IH; [done|]. intros u c' t ->. by apply (H (String c u) c' t).
Qed.

Lemma sub_app_first (p : ascii → bool) m v R :
  (∀ c s, p c = true → m (String c s) = None) →
  Py.all_chars p v = true →
  Re.sub m 0 (v +:+ R) = v +:+ Re.sub m 0 R.
Proof.
  intros Hm. induction v as [|c v IH]; simpl; [done|].
  intros [H1 H2]%andb_true_iff. by rewrite (Hm _ _ H1), (IH H2).
Qed.

Lemma lit_ci_Some name s attr r :
  Re.lit_ci name s = Some (attr, r) → s = attr +:+ r ∧ Py.lower attr = name.
Proof.
  revert s attr r. induction name as [|a name IH]; intros s attr r; simpl.
  - destruct s; by intros [= <- <-].
  - destruct s as [|c s]; [done|]. case_bool_decide as Hc; [|done].
    destruct (Re.lit_ci name s) as [[m rest]|] eqn:E; [|done].
    intros [= <- <-]. destruct (IH _ _ _ E) as [-> <-].
    split; [done|]. simpl. by rewrite Hc.
Qed.

Definition not_quote (c : ascii) : bool := negb (Re.is_quote c).

Lemma lower_not_quote c : Py.is_lower (Py.lower_char c) = true → not_quote c = true.
Proof. destruct c as [[] [] [] [] [] [] [] []]; vm_compute; congruence. Qed.

Lemma lower_name_not_quote attr :
  Py.all_chars Py.is_lower (Py.lower attr) = true → Py.all_chars not_quote attr = true.
Proof.
  induction attr as [|c a IH]; simpl; [done|].
  intros [H1 H2]%andb_true_iff. by rewrite (lower_not_quote c H1), IH.
Qed.

(** The names of an alternation are written in lower-case letters. *)
Definition names_ok (names : list string) : Prop :=
  Forall (λ name, Py.all_chars Py.is_lower name = true) names.

(** A match is a name, [=], a quote and the run that follows it. *)
Lemma attr_match_shape names cond s attr q v rest :
  names_ok names →
  Re.attr_match names cond s = Some (attr, q, v, rest) →
  ∃ r, s = attr +:+ String "=" (String q r)
       ∧ Py.all_chars not_quote attr = true ∧ Re.is_quote q = true
       ∧ Re.span not_quote r = (v, rest) ∧ cond v = true.
Proof.
  intros Hok. induction Hok as [|name names Hlow Hok IH]; simpl; [done|].
  destruct (Re.lit_ci name s) as [[a r0]|] eqn:E; [|exact IH].
  destruct r0 as [|c0 r0]; [exact IH|].
  destruct (decide (c0 = "="%char)) as [->|Hc0].
  2:{ destruct c0 as [[] [] [] [] [] [] [] []]; first [done | exact IH]. }
  destruct r0 as [|q0 r0]; [exact IH|].
  fold not_quote.
  destruct (Re.span not_quote r0) as [v0 rest0] eqn:Es.
  destruct (Re.is_quote q0 && cond v0) eqn:Ec; [|exact IH].
  intros [= <- <- <- <-]. apply andb_true_iff in Ec as [Hq Hc].
  destruct (lit_ci_Some _ _ _ _ E) as [-> Hl].
  exists r0. split; [done|]. split; [|done].
  apply lower_name_not_quote. by rewrite Hl.
Qed.

Lemma str_app_inv_head u x y : u +:+ x = u +:+ y → x = y.
Proof. induction u as [|c u IH]; simpl; [done|]. intros [= H]. by apply IH. Qed.

Lemma span_app p v R :
  Py.all_chars p v = true → (Re.span p R).1 = "" →
  Re.span p (v +:+ R) = (v, R).
Proof.
  intros Hv HR. induction v as [|a v IH]; simpl in *.
  - destruct R as [|c R]; simpl in *; [done|].
    destruct (p c); [|done]. by destruct (Re.span p R).
  - apply andb_true_iff in Hv as [Ha Hv]. by rewrite Ha, (IH Hv).
Qed.

Lemma span_fst_snd p s : (Re.span p s).1 +:+ (Re.span p s).2 = s.
Proof.
  induction s as [|c s IH]; simpl; [done|].
  destruct (p c); [|done]. destruct (Re.span p s) as [a b]. simpl in *. by rewrite app_cons, IH.
Qed.

(** The first quote of a text is where it is. *)
Lemma first_quote u1 q1 r1 u2 q2 r2 :
  Py.all_chars not_quote u1 = true → Py.all_chars not_quote u2 = true →
  Re.is_quote q1 = true → Re.is_quote q2 = true →
  u1 +:+ String q1 r1 = u2 +:+ String q2 r2 → u1 = u2.
Proof.
  unfold not_quote. revert u2.
  induction u1 as [|a u1 IH]; intros [|b u2]; simpl; intros H1 H2 Hq1 Hq2; [done|..].
  - intros [= -> _]. by rewrite Hq1 in H2.
  - intros [= -> _]. by rewrite Hq2 in H1.
  - apply andb_true_iff in H1 as [_ H1]. apply andb_true_iff in H2 as [_ H2].
    intros [= -> H]. f_equal. by apply IH.
Qed.
End ScanFacts.


(** ** The rewriting of HTML: a URL of [srcset] with a slash inside *)

(** An image with the attribute [srcset], in single quotes. *)
Definition img_srcset (value : string) : string := "<img srcset='" +:+ value +:+ "'>".

Definition no_lt (c : ascii) : bool := negb (bool_decide (c = "<"%char)).

Definition no_slash (c : ascii) : bool := negb (bool_decide (c = "/"%char)).

(** The class of group 1 of the pattern of a URL in [srcset]: no blank
    and no comma. *)
Definition run_char (c : ascii) : bool :=
  negb (Py.isspace c) && negb (bool_decide (c = ","%char)).

Definition first_is (p : ascii → bool) (s : string) : bool :=
  match s with
  | String c _ => p c
  | EmptyString => false
  end.

(** Group 2 of that pattern, the descriptor: blanks and what follows
    them up to the next comma, when a blank follows group 1. *)
Definition group2 (after : string) : string :=
  match after with
  | String c _ =>
      if Py.isspace c
      then (Re.span (λ c, negb (bool_decide (c = ","%char))) after).1
      else ""
  | EmptyString => ""
  end.

Section SrcsetFacts.
Variable prefix : string.
Variable session_id : string.

Lemma url_attrs_ok : names_ok Proxy.url_attrs.
Proof. repeat constructor. Qed.

(** The pass over [src], [href], [action], [data] and [poster] finds
    nothing in the document. *)
Lemma url_pass_img_srcset value :
  Py.all_chars not_quote value = true →
  Re.sub (Proxy.url_matcher prefix session_id) 0 (img_srcset value) = img_srcset value.
Proof.
  intros Hv. unfold img_srcset.
  rewrite !app_cons, app_nil_l.
  repeat (rewrite sub_cons_None by reflexivity).
  rewrite sub_app_None; [done|].
  intros u c t Hdec. unfold Proxy.url_matcher.
  destruct (Re.attr_match _ _ _) as [[[[a q] v] rest]|] eqn:E; [exfalso|done].
  destruct (attr_match_shape _ _ _ _ _ _ _ url_attrs_ok E) as (r & Hs & Ha & Hq & Hsp & Hc).
  assert (Ht : Py.all_chars not_quote (String c t) = true).
  { rewrite Hdec, all_chars_app in Hv. by apply andb_true_iff in Hv as [_ Hv]. }
  change (a +:+ String "=" (String q r)) with (a +:+ "=" +:+ String q r) in Hs.
  rewrite <- str_app_assoc in Hs.
  change (String c t +:+ "'>") with (String c t +:+ String "'" ">") in Hs.
  pose proof Hs as Hs'.
  apply first_quote in Hs'; [|done|by rewrite all_chars_app, Ha|done..].
  rewrite Hs' in Hs. apply str_app_inv_head in Hs. injection Hs as <- <-.
  injection Hsp as <- <-. discriminate Hc.
Qed.

(** The pass over [srcset] finds the attribute and rewrites its value. *)
Lemma srcset_pass_img_srcset value :
  Py.all_chars not_quote value = true → value ≠ "" →
  Re.sub (Proxy.srcset_matcher prefix session_id) 0 (img_srcset value)
  = img_srcset (Re.sub (Proxy.srcset_url_matcher prefix session_id) 0 value).
Proof.
  intros Hv Hne. unfold img_srcset.
  rewrite !app_cons, app_nil_l.
  repeat (rewrite sub_cons_None by reflexivity).
  rewrite (sub_cons_Some _ _ _ (8 + Py.len value)
             (Proxy.rewrite_srcset prefix session_id "'" value)).
  2:{ unfold Proxy.srcset_matcher. cbn [Re.attr_match Re.lit_ci].
      rewrite !bool_decide_eq_true_2 by reflexivity.
      change (value +:+ "'>") with (value +:+ String "'" ">").
      fold not_quote. rewrite span_stop by done.
      rewrite (bool_decide_eq_false_2 (value = "")) by done. reflexivity. }
  replace (8 + Py.len value - 1)%nat with (7 + (Py.len value + 0))%nat by lia.
  cbn [Re.sub Nat.add]. rewrite sub_skip.
  reflexivity.
Qed.

Lemma srcset_url_first c s :
  no_slash c = true → Proxy.srcset_url_matcher prefix session_id (String c s) = None.
Proof.
  intros Hc. apply negb_true_iff, bool_decide_eq_false in Hc.
  destruct c as [[] [] [] [] [] [] [] []]; done.
Qed.

Lemma sub_first_all (p : ascii → bool) m s :
  (∀ c s, p c = true → m (String c s) = None) →
  Py.all_chars p s = true → Re.sub m 0 s = s.
Proof.
  intros Hm Hs. rewrite <- (str_app_nil_r s) at 1.
  rewrite (sub_app_first p) by done. apply str_app_nil_r.
Qed.

Lemma group2_prefix after : ∃ after2, after = group2 after +:+ after2.
Proof.
  destruct after as [|c R]; [by exists ""|]. unfold group2.
  destruct (Py.isspace c); [|by eexists]. eexists. symmetry. apply span_fst_snd.
Qed.

(** The scan of the value of [srcset]: the first slash of the value
    starts the match, whatever comes before it. *)
Lemma srcset_value_inner_slash head run after :
  Py.all_chars no_slash head = true →
  Py.all_chars run_char run = true → run ≠ "" →
  Py.startswith run "/" = false →
  Py.startswith (String "/" run) (prefix +:+ "/") = false →
  Py.all_chars no_slash after = true → first_is run_char after = false →
  Re.sub (Proxy.srcset_url_matcher prefix session_id) 0 (head +:+ "/" +:+ run +:+ after)
  = head +:+ Proxy.base_path prefix session_id +:+ "/" +:+ run +:+ after.
Proof.
  intros Hh Hr Hne Hss Hp Ha Hf.
  rewrite (sub_app_first no_slash) by (done || apply srcset_url_first).
  rewrite app_cons, app_nil_l.
  rewrite (sub_cons_Some _ _ _ (Py.len (String "/" run) + Py.len (group2 after))
             (Proxy.base_path prefix session_id +:+ String "/" run +:+ group2 after)).
  2:{ unfold Proxy.srcset_url_matcher. fold run_char.
      rewrite span_app; [|done|].
      2:{ destruct after as [|c R]; [done|]. simpl in *. by rewrite Hf. }
      rewrite (bool_decide_eq_false_2 (run = "")) by done.
      fold (group2 after). unfold Proxy.rewrite_srcset_url. rewrite Hp.
      change (Py.startswith (String "/" run) "//") with (Py.startswith run "/").
      change (Py.startswith (String "/" run) "/") with (Py.startswith run "").
      replace (Py.startswith run "") with true by (by destruct run).
      rewrite Hss. reflexivity. }
  replace (Py.len (String "/" run) + Py.len (group2 after) - 1)%nat
    with (Py.len run + Py.len (group2 after))%nat by (unfold Py.len; simpl; lia).
  rewrite sub_skip.
  destruct (group2_prefix after) as [after2 Ha2].
  generalize dependent (group2 after). intros g Ha2. subst after.
  rewrite all_chars_app in Ha. apply andb_true_iff in Ha as [_ Ha].
  replace (Py.len g) with (Py.len g + 0)%nat by lia.
  rewrite sub_skip, (sub_first_all no_slash) by (done || apply srcset_url_first).
  by rewrite !str_app_assoc, !app_cons.
Qed.
End SrcsetFacts.

Section BaseFacts.
Variable prefix : string.
Variable session_id : string.

Lemma lower_char_lt c : Py.lower_char c = "<"%char → c = "<"%char.
Proof. destruct c as [[] [] [] [] [] [] [] []]; vm_compute; congruence. Qed.

Lemma lower_no_lt s :
  Py.all_chars no_lt s = true → Py.all_chars no_lt (Py.lower s) = true.
Proof.
  induction s as [|c s IH]; simpl; [done|].
  intros [H1 H2]%andb_true_iff. rewrite (IH H2), andb_true_r.
  unfold no_lt in *. apply negb_true_iff, bool_decide_eq_false in H1.
  apply negb_true_iff, bool_decide_eq_false. intros H. by apply H1, lower_char_lt.
Qed.

(** A text without [<] has no tag. *)
Lemma search_base_no_lt s :
  Py.all_chars no_lt s = true → Re.search Proxy.base_pattern s = false.
Proof.
  induction s as [|c s IH]; simpl; [done|].
  intros [H1 H2]%andb_true_iff. rewrite (IH H2), orb_false_r.
  unfold no_lt in H1. apply negb_true_iff, bool_decide_eq_false in H1.
  unfold Proxy.base_pattern. simpl.
  rewrite bool_decide_eq_false_2; [done|]. intros H. by apply H1, lower_char_lt.
Qed.

Lemma contains_no_lt sub s :
  Py.all_chars no_lt s = true → Py.contains (String "<" sub) s = false.
Proof.
  induction s as [|c s IH]; simpl; [done|].
  intros [H1 H2]%andb_true_iff. rewrite (IH H2), orb_false_r.
  unfold no_lt in H1. apply negb_true_iff, bool_decide_eq_false in H1.
  rewrite bool_decide_eq_false_2; [done|]. by intros <-.
Qed.

(** The document has no [<base>], no [<head>] and no [<html>]: the tag
    is put in front of it. *)
Lemma inject_base_img_srcset value :
  Py.all_chars no_lt value = true →
  Proxy.inject_base prefix session_id (img_srcset value)
  = Proxy.base_tag prefix session_id +:+ Proxy.NL +:+ img_srcset value.
Proof.
  intros Hu. unfold Proxy.inject_base, img_srcset.
  set (X := "mg srcset='" +:+ value +:+ "'>").
  assert (HX : Py.all_chars no_lt X = true).
  { unfold X. rewrite !app_cons, app_nil_l. cbn [Py.all_chars].
    rewrite all_chars_app, Hu. reflexivity. }
  change ("<img srcset='" +:+ value +:+ "'>") with (String "<" (String "i" X)).
  assert (E1 : Re.search Proxy.base_pattern (String "<" (String "i" X)) = false).
  { change (Re.search Proxy.base_pattern (String "<" (String "i" X)))
      with (Re.search Proxy.base_pattern X).
    by apply search_base_no_lt. }
  assert (E2 : ∀ a sub, a ≠ "i"%char →
            Py.contains (String "<" (String a sub))
              (Py.lower (String "<" (String "i" X))) = false).
  { intros a sub Ha. cbn [Py.lower Py.contains].
    rewrite (contains_no_lt (String a sub) (Py.lower X)) by by apply lower_no_lt.
    cbn [Py.startswith]. rewrite orb_false_r.
    change (Py.lower_char "i") with "i"%char.
    by rewrite (bool_decide_eq_false_2 (a = "i"%char)), andb_false_r. }
  rewrite E1. cbn [negb].
  by rewrite !E2.
Qed.
End BaseFacts.

(** The text of a quoted value: no quote and no [<]. *)
Definition value_char (c : ascii) : bool := not_quote c && no_lt c.

(** C8 (what the code does). The scan of a [srcset] value looks for a
    slash anywhere in the value, not for a URL that begins with one: in
    the value [head/run after], where [head] has no slash, [run] is the
    run of characters other than blanks and commas after the first slash
    and does not begin with a slash, [/preview/<id>] is written in front
    of that slash, whatever [head] is.  With an empty [head] the URL is
    root-relative and gets its prefix; with [head = data:image] or
    [head = img] the URL begins with [data:] or is relative, and the
    prefix lands in the middle of it.  The document has no [<base>],
    [<head>] or [<html>], so the [<base>] tag is put in front of it. *)
Theorem rewrite_html_srcset_inner_slash settings session_id head run after :
  Py.all_chars no_lt (Config.preview_path_prefix settings) = true →
  Py.all_chars no_lt session_id = true →
  Py.all_chars value_char (head +:+ "/" +:+ run +:+ after) = true →
  Py.all_chars no_slash head = true →
  Py.all_chars run_char run = true → run ≠ "" →
  Py.startswith run "/" = false →
  Py.startswith (String "/" run) (Config.preview_path_prefix settings +:+ "/") = false →
  Py.all_chars no_slash after = true → first_is run_char after = false →
  Proxy._rewrite_html_for_proxy settings
    (img_srcset (head +:+ "/" +:+ run +:+ after)) session_id
  = Proxy.base_tag (Config.preview_path_prefix settings) session_id +:+ Proxy.NL
    +:+ img_srcset (head
                    +:+ Proxy.base_path (Config.preview_path_prefix settings) session_id
                    +:+ "/" +:+ run +:+ after).
Proof.
  intros Hp Hsid Hv Hh Hr Hne Hss Hpre Ha Hf.
  set (prefix := Config.preview_path_prefix settings) in *.
  assert (Hq : Py.all_chars not_quote (head +:+ "/" +:+ run +:+ after) = true).
  { eapply all_chars_impl; [|exact Hv]. by intros c [? _]%andb_true_iff. }
  assert (Hlt : Py.all_chars no_lt (head +:+ "/" +:+ run +:+ after) = true).
  { eapply all_chars_impl; [|exact Hv]. by intros c [_ ?]%andb_true_iff. }
  unfold Proxy._rewrite_html_for_proxy, Proxy.rewrite_urls. fold prefix.
  rewrite url_pass_img_srcset by done.
  rewrite srcset_pass_img_srcset; [|done|by destruct head].
  rewrite srcset_value_inner_slash by done.
  apply inject_base_img_srcset.
  rewrite all_chars_app in Hlt. apply andb_true_iff in Hlt as [Hlt1 Hlt2].
  rewrite !all_chars_app in Hlt2.
  unfold Proxy.base_path. rewrite !all_chars_app, Hlt1, Hp, Hsid, Hlt2. reflexivity.
Qed.

Lemma rewrite_html_srcset_inner_slash_witness :
  Proxy._rewrite_html_for_proxy path_settings
    "<img srcset='data:image/png;base64,AAAA 1x'>" "S1"
  = Proxy.base_tag "/preview" "S1" +:+ Proxy.NL
    +:+ "<img srcset='data:image/preview/S1/png;base64,AAAA 1x'>".
Proof.
  assert (Hne : "png;base64" ≠ "") by discriminate.
  exact (rewrite_html_srcset_inner_slash path_settings "S1"
           "data:image" "png;base64" ",AAAA 1x"
           eq_refl eq_refl eq_refl eq_refl eq_refl Hne eq_refl eq_refl eq_refl eq_refl).
Defined.

(** The same with a payload that has slashes, a relative URL, and a
    root-relative URL, which is the case the scan was written for. *)
Example rewrite_srcset_data_url :
  Proxy.rewrite_urls "/preview" "S1"
    "<img srcset='data:image/png;base64,iVBORw0KGgo/AAAA 1x'>"
  = "<img srcset='data:image/preview/S1/png;base64,iVBORw0KGgo/preview/S1/AAAA 1x'>".
Proof. vm_compute. reflexivity. Qed.

Example rewrite_srcset_relative_url :
  Proxy.rewrite_urls "/preview" "S1" "<img srcset='img/logo.png 1x, /hero.png 2x'>"
  = "<img srcset='img/preview/S1/logo.png 1x, /preview/S1/hero.png 2x'>".
Proof. vm_compute. reflexivity. Qed.

(** Only quoted values are looked at: an unquoted root-relative value
    stays as it is. *)
Example rewrite_skips_unquoted :
  Proxy.rewrite_urls "/preview" "S1" "<img src=/logo.png><a href='/about'>about</a>"
  = "<img src=/logo.png><a href='/preview/S1/about'>about</a>".
Proof. vm_compute. reflexivity. Qed.

(** * Further properties of the code *)

(** ** src/utils/security.py *)

Section SecurityFacts.
Import Security.

Lemma startswith_iff s p : Py.startswith s p = true ↔ s = p +:+ Py.drop (Py.len p) s.
Proof.
  revert s. induction p as [|a p IH]; intros s.
  - destruct s; simpl; split; done.
  - destruct s as [|b s]; [split; [done|by rewrite app_cons]|].
    change (Py.startswith (String b s) (String a p))
      with (bool_decide (a = b) && Py.startswith s p).
    change (Py.drop (Py.len (String a p)) (String b s)) with (Py.drop (Py.len p) s).
    rewrite andb_true_iff, bool_decide_eq_true, IH, app_cons.
    split; [intros [-> H]; by f_equal|]. by intros [= -> H].
Qed.

Lemma startswith_app s p : Py.startswith (p +:+ s) p = true.
Proof. apply startswith_iff. by rewrite drop_app_len. Qed.

(** X1. The format check of access tokens accepts exactly the texts
    [spl_] followed by at least 20 characters of the URL-safe alphabet;
    so it accepts every token that [generate_access_token] builds from a
    [token_urlsafe] body of 20 characters or more, and nothing that has
    another prefix, is shorter, or holds another character. *)
Theorem validate_access_token_iff (token : string) :
  validate_access_token (Some token) = true
  ↔ ∃ body, token = TOKEN_PREFIX +:+ body ∧ (20 ≤ Py.len body)%nat
            ∧ Py.all_chars url_safe_char body = true.
Proof.
  unfold validate_access_token. split.
  - case_bool_decide as Hne; [done|].
    destruct (Py.startswith token TOKEN_PREFIX) eqn:Hs; [|done]. cbn [negb].
    case_bool_decide as Hlen; [done|]. intros Hall.
    apply startswith_iff in Hs. exists (Py.drop (Py.len TOKEN_PREFIX) token).
    split; [done|]. split; [|done].
    rewrite Hs, len_app in Hlen. lia.
  - intros (body & -> & Hlen & Hall).
    rewrite bool_decide_eq_false_2 by done.
    rewrite startswith_app. cbn [negb].
    rewrite bool_decide_eq_false_2 by (rewrite len_app; lia).
    by rewrite drop_app_len.
Qed.

Lemma lstrip_id s : Py.all_chars (λ c, negb (Py.isspace c)) s = true → lstrip s = s.
Proof.
  destruct s as [|c s]; simpl; [done|].
  intros [H _]%andb_true_iff. apply negb_true_iff in H. by rewrite H.
Qed.

Lemma rstrip_id s : Py.all_chars (λ c, negb (Py.isspace c)) s = true → rstrip s = s.
Proof.
  induction s as [|c s IH]; simpl; [done|].
  intros [H1 H2]%andb_true_iff. apply negb_true_iff in H1.
  by rewrite (IH H2), H1, andb_false_r.
Qed.

Lemma strip_id s : Py.all_chars (λ c, negb (Py.isspace c)) s = true → strip s = s.
Proof. intros H. unfold strip. by rewrite lstrip_id, rstrip_id. Qed.

Lemma alnum_not_space c : Py.isalnum c || bool_decide (c = "-"%char) = true →
  negb (Py.isspace c) = true.
Proof. destruct c as [[] [] [] [] [] [] [] []]; vm_compute; congruence. Qed.

Lemma repo_char_not_space c : url_safe_char c || bool_decide (c = "."%char) = true →
  negb (Py.isspace c) = true.
Proof. destruct c as [[] [] [] [] [] [] [] []]; vm_compute; congruence. Qed.

Lemma is_valid_owner_chars s :
  is_valid_owner s = true →
  Py.all_chars (λ c, Py.isalnum c || bool_decide (c = "-"%char)) s = true.
Proof.
  unfold is_valid_owner.
  destruct (_ || _); [done|]. destruct (_ || _); [done|].
  by destruct (Py.contains "--" s).
Qed.

Lemma is_valid_repo_name_chars s :
  is_valid_repo_name s = true →
  Py.all_chars (λ c, url_safe_char c || bool_decide (c = "."%char)) s = true.
Proof.
  unfold is_valid_repo_name.
  destruct (_ || _); [done|]. by destruct (Py.startswith s ".").
Qed.

(** [c.isascii()] *)
Definition is_ascii (c : ascii) : bool := (N_of_ascii c <? 128)%N.

(** X2. For an owner and a name that are ASCII texts, what
    [sanitize_repo_identifier] accepts is the stripped input, made of
    ASCII letters, digits and hyphens (owner) or ASCII letters, digits,
    hyphens, underscores and dots (name), so without blank, slash, colon
    or at-sign; and the result is stable: sanitizing it again returns it
    unchanged. (Beyond ASCII, [str.isalnum] and [str.strip] follow the
    Unicode database, which is not modelled.) *)
Theorem sanitize_repo_identifier_stable (owner name o n : string) :
  Py.all_chars is_ascii owner = true → Py.all_chars is_ascii name = true →
  sanitize_repo_identifier owner name = Some (o, n) →
  o = strip owner ∧ n = strip name
  ∧ Py.all_chars (λ c, Py.isalnum c || bool_decide (c = "-"%char)) o = true
  ∧ Py.all_chars (λ c, url_safe_char c || bool_decide (c = "."%char)) n = true
  ∧ sanitize_repo_identifier o n = Some (o, n).
Proof.
  intros _ _. unfold sanitize_repo_identifier.
  destruct (is_valid_owner (strip owner)) eqn:Ho; [|done].
  destruct (is_valid_repo_name (strip name)) eqn:Hn; [|done].
  cbn [negb orb]. intros [= <- <-].
  pose proof (is_valid_owner_chars _ Ho) as Hoc.
  pose proof (is_valid_repo_name_chars _ Hn) as Hnc.
  split; [done|]. split; [done|]. split; [done|]. split; [done|].
  rewrite (strip_id (strip owner)), (strip_id (strip name)), Ho, Hn; [done|..].
  - eapply all_chars_impl; [|exact Hnc]. apply repo_char_not_space.
  - eapply all_chars_impl; [|exact Hoc]. apply alnum_not_space.
Qed.

Lemma sanitize_repo_identifier_stable_witness :
  sanitize_repo_identifier " octo-cat " "vite.app" = Some ("octo-cat", "vite.app")
  ∧ sanitize_repo_identifier "octo-cat" "vite.app" = Some ("octo-cat", "vite.app").
Proof.
  assert (H : sanitize_repo_identifier " octo-cat " "vite.app"
              = Some ("octo-cat", "vite.app")) by reflexivity.
  split; [exact H|].
  exact (proj2 (proj2 (proj2 (proj2
    (sanitize_repo_identifier_stable " octo-cat " "vite.app" "octo-cat" "vite.app"
       eq_refl eq_refl H))))).
Defined.

Lemma lstrip_first s : first_is Py.isspace (lstrip s) = false.
Proof.
  induction s as [|c s IH]; simpl; [done|].
  destruct (Py.isspace c) eqn:E; [done|]. simpl. by rewrite E.
Qed.

Lemma rstrip_first x : first_is Py.isspace x = false → first_is Py.isspace (rstrip x) = false.
Proof.
  destruct x as [|c x]; simpl; [done|]. intros H. by rewrite H, andb_false_r.
Qed.

Lemma lstrip_fix y : first_is Py.isspace y = false → lstrip y = y.
Proof. destruct y as [|c y]; simpl; [done|]. by intros ->. Qed.

Lemma rstrip_idemp x : rstrip (rstrip x) = rstrip x.
Proof.
  induction x as [|c x IH]; simpl; [done|].
  destruct (bool_decide (rstrip x = "") && Py.isspace c) eqn:E; [done|].
  simpl. by rewrite IH, E.
Qed.

(** [strip] is idempotent. *)
Lemma strip_idemp s : strip (strip s) = strip s.
Proof.
  unfold strip.
  rewrite (lstrip_fix (rstrip (lstrip s))) by apply rstrip_first, lstrip_first.
  apply rstrip_idemp.
Qed.

Lemma lstrip_empty s : lstrip s = "" ↔ Py.all_chars Py.isspace s = true.
Proof.
  induction s as [|c s IH]; simpl; [done|].
  destruct (Py.isspace c); [done|]. split; done.
Qed.

Lemma rstrip_empty x : rstrip x = "" ↔ Py.all_chars Py.isspace x = true.
Proof.
  induction x as [|c x IH]; simpl; [done|].
  destruct (Py.isspace c); simpl.
  - rewrite andb_true_r. case_bool_decide as E.
    + split; [intros _; by apply IH|done].
    + split; [done|]. intros H. by apply IH in H.
  - by rewrite andb_false_r.
Qed.

Lemma strip_empty s : strip s = "" ↔ Py.all_chars Py.isspace s = true.
Proof.
  unfold strip. rewrite rstrip_empty. split.
  - intros H. apply lstrip_empty.
    pose proof (lstrip_first s) as Hf.
    destruct (lstrip s) as [|c x]; [done|]. simpl in *.
    apply andb_true_iff in H as [H _]. congruence.
  - intros H. apply lstrip_empty in H. by rewrite H.
Qed.

(** X3. A git reference that [sanitize_git_ref] accepts, if it is not
    empty, is the stripped input, at most 256 characters long and free
    of the forbidden characters (space, [~^:?*[], backslash and the
    control characters 0 to 15); and it is stable: sanitizing it again
    returns it unchanged. *)
Theorem sanitize_git_ref_stable (ref r : string) :
  sanitize_git_ref ref = Some r → r ≠ "" →
  r = strip ref ∧ (Py.len r ≤ 256)%nat
  ∧ Py.all_chars (λ c, negb (forbidden_char c)) r = true
  ∧ sanitize_git_ref r = Some r.
Proof.
  intros H Hr. unfold sanitize_git_ref in H.
  case_bool_decide as Hne; [done|]. cbv zeta in H.
  case_bool_decide as Hlen; [done|].
  destruct (Py.all_chars _ (strip ref)) eqn:Hall; [|done]. cbn [negb] in H.
  destruct (Py.startswith (strip ref) "/" || Py.startswith (strip ref) ".") eqn:H1;
    [done|].
  destruct (Py.endswith (strip ref) "/" || Py.endswith (strip ref) ".lock") eqn:H2;
    [done|].
  destruct (Py.contains "//" (strip ref)) eqn:H3; [done|].
  injection H as <-. split; [done|]. split; [lia|]. split; [done|].
  unfold sanitize_git_ref. rewrite bool_decide_eq_false_2 by done. cbv zeta.
  rewrite strip_idemp.
  rewrite bool_decide_eq_false_2 by done.
  by rewrite Hall, H1, H2, H3.
Qed.

Lemma sanitize_git_ref_stable_witness :
  sanitize_git_ref " feature/login " = Some "feature/login"
  ∧ sanitize_git_ref "feature/login" = Some "feature/login".
Proof.
  assert (H : sanitize_git_ref " feature/login " = Some "feature/login") by reflexivity.
  assert (Hne : "feature/login" ≠ "") by discriminate.
  split; [exact H|].
  exact (proj2 (proj2 (proj2
    (sanitize_git_ref_stable " feature/login " "feature/login" H Hne)))).
Defined.

(** X4. The empty reference is rejected, but a reference made only of
    blanks is not: [sanitize_git_ref] returns the empty string for it,
    and for nothing else, so a caller has to test the result for
    truth and not for [None]. *)
Theorem sanitize_git_ref_blank (ref : string) :
  sanitize_git_ref ref = Some "" ↔ ref ≠ "" ∧ Py.all_chars Py.isspace ref = true.
Proof.
  unfold sanitize_git_ref. split.
  - case_bool_decide as Hne; [done|]. cbv zeta.
    case_bool_decide as Hlen; [done|].
    destruct (Py.all_chars _ (strip ref)); [|done]. cbn [negb].
    destruct (_ || _); [done|]. destruct (_ || _); [done|].
    destruct (Py.contains "//" (strip ref)); [done|].
    intros [= H]. split; [done|]. by apply strip_empty.
  - intros [Hne Hsp]. apply strip_empty in Hsp.
    rewrite bool_decide_eq_false_2 by done. cbv zeta. by rewrite Hsp.
Qed.
End SecurityFacts.

(** ** src/config.py and src/main.py: the host of a preview *)

Section HostFacts.
Variable settings : Config.Settings.
Variable domain : string.
Hypothesis enabled : Config.use_subdomain_routing settings = true.
Hypothesis configured : Config.preview_domain settings = Some domain.
Hypothesis nonempty : domain ≠ "".

Lemma split_first_absent sep s : Py.char_in sep s = false → Py.split_first sep s = s.
Proof.
  induction s as [|c s IH]; simpl; [done|].
  intros [H1 H2]%orb_false_iff. by rewrite H1, (IH H2).
Qed.

Lemma char_in_app c s t : Py.char_in c (s +:+ t) = Py.char_in c s || Py.char_in c t.
Proof. induction s as [|a s IH]; simpl; [done|]. by rewrite IH, orb_assoc. Qed.

Lemma lower_app s t : Py.lower (s +:+ t) = Py.lower s +:+ Py.lower t.
Proof. induction s as [|a s IH]; simpl; [done|]. by rewrite IH. Qed.

Lemma len_lower s : Py.len (Py.lower s) = Py.len s.
Proof. unfold Py.len. induction s as [|a s IH]; simpl; [done|]. by rewrite IH. Qed.

Lemma lower_char_dot c : bool_decide (Py.lower_char c = "."%char) = bool_decide (c = "."%char).
Proof. destruct c as [[] [] [] [] [] [] [] []]; reflexivity. Qed.

Lemma char_in_lower_dot s : Py.char_in "." (Py.lower s) = Py.char_in "." s.
Proof. induction s as [|a s IH]; simpl; [done|]. by rewrite IH, lower_char_dot. Qed.

Lemma extract_of_host (sid : string) :
  sid ≠ "" → Py.char_in "." sid = false → Py.char_in ":" sid = false →
  Py.char_in ":" domain = false →
  Config.extract_session_from_host settings (sid +:+ "." +:+ domain)
  = Some (Py.lower sid).
Proof.
  intros Hne Hdot Hc Hcd. unfold Config.extract_session_from_host.
  rewrite enabled, configured. unfold Py.truthy.
  rewrite bool_decide_eq_false_2 by done. cbv zeta.
  rewrite split_first_absent by (by rewrite !char_in_app, Hc, Hcd).
  rewrite lower_app.
  change (Py.lower ("." +:+ domain)) with ("." +:+ Py.lower domain).
  rewrite endswith_app. cbn [negb].
  rewrite len_app.
  replace (Py.len (Py.lower sid) + Py.len ("." +:+ Py.lower domain)
           - Py.len ("." +:+ Py.lower domain))%nat
    with (Py.len (Py.lower sid)) by lia.
  rewrite take_app_len, char_in_lower_dot, Hdot, orb_false_r.
  rewrite bool_decide_eq_false_2; [done|]. by destruct sid.
Qed.

(** X5. With subdomain routing on, the host of the preview URL of a
    session leads back to the session: [get_preview_url] puts the id in
    front of the preview domain, and [extract_session_from_host]
    returns that id in lower case, for an id that is not empty and
    holds no dot and no colon (the domain holding no colon). *)
Theorem preview_url_host_round_trip (sid token : string) :
  sid ≠ "" → Py.char_in "." sid = false → Py.char_in ":" sid = false →
  Py.char_in ":" domain = false →
  Config.get_preview_url settings sid token
  = "https://" +:+ (sid +:+ "." +:+ domain) +:+ "/?token=" +:+ token
  ∧ Config.extract_session_from_host settings (sid +:+ "." +:+ domain)
    = Some (Py.lower sid).
Proof.
  intros Hne Hdot Hc Hcd. split; [|by apply extract_of_host].
  unfold Config.get_preview_url. rewrite enabled, configured. unfold Py.truthy.
  rewrite bool_decide_eq_false_2 by done. by rewrite !str_app_assoc.
Qed.

Lemma lstrip_slash_first p : Py.startswith (Main.lstrip_slash p) "/" = false.
Proof.
  induction p as [|c p IH]; simpl; [done|].
  case_bool_decide as E; [done|]. simpl.
  rewrite bool_decide_eq_false_2; [done|]. congruence.
Qed.

(** X6. The routing middleware, for an HTTP or WebSocket scope whose
    [Host] header is the host of a session's preview, hands the
    application the path [/preview/<id>/<rest>], where [<id>] is the id
    in lower case and [<rest>] is the original path without its leading
    slashes, so that no slash follows the one after the id; the raw
    path is rewritten only when the scope has one, and the id and the
    host are recorded in the scope. *)
Theorem subdomain_routing_path (scope : Main.Scope) (sid : string) :
  Main.type scope ∈ ["http"; "websocket"] →
  Main.dict_of_pairs (Main.headers scope) !! "host" = Some (sid +:+ "." +:+ domain) →
  sid ≠ "" → Py.char_in "." sid = false → Py.char_in ":" sid = false →
  Py.char_in ":" domain = false →
  let rest := Main.lstrip_slash (default "/" (Main.path scope)) in
  let new_path := "/preview/" +:+ Py.lower sid +:+ "/" +:+ rest in
  Main.subdomain_routing settings scope
  = Main.mkScope (Main.type scope) (Main.headers scope) (Some new_path)
      (match Main.raw_path scope with Some _ => Some new_path | None => None end)
      (Some (Py.lower sid)) (Some (sid +:+ "." +:+ domain))
  ∧ Py.startswith rest "/" = false.
Proof.
  intros Hty Hhost Hne Hdot Hc Hcd rest new_path.
  split; [|apply lstrip_slash_first].
  unfold Main.subdomain_routing, Py.elem.
  rewrite bool_decide_eq_true_2 by done. cbn [negb]. cbv zeta.
  rewrite Hhost. cbn [default from_option id].
  rewrite extract_of_host by done. unfold Py.truthy.
  rewrite bool_decide_eq_false_2; [done|]. by destruct sid.
Qed.
End HostFacts.

Lemma preview_url_host_round_trip_witness :
  Config.get_preview_url subdomain_settings "abc123" "spl_t"
  = "https://abc123.preview.splicer.run/?token=spl_t"
  ∧ Config.extract_session_from_host subdomain_settings "abc123.preview.splicer.run"
    = Some "abc123".
Proof.
  assert (Hd : "preview.splicer.run" ≠ "") by discriminate.
  assert (Hs : "abc123" ≠ "") by discriminate.
  exact (preview_url_host_round_trip subdomain_settings "preview.splicer.run"
           eq_refl eq_refl Hd "abc123" "spl_t" Hs eq_refl eq_refl eq_refl).
Defined.

Lemma subdomain_routing_path_witness :
  Main.subdomain_routing subdomain_settings
    (Main.mkScope "http" [("host", "abc123.preview.splicer.run")]
       (Some "//src/main.tsx") (Some "//src/main.tsx") None None)
  = Main.mkScope "http" [("host", "abc123.preview.splicer.run")]
      (Some "/preview/abc123/src/main.tsx") (Some "/preview/abc123/src/main.tsx")
      (Some "abc123") (Some "abc123.preview.splicer.run").
Proof.
  assert (Hd : "preview.splicer.run" ≠ "") by discriminate.
  assert (Hs : "abc123" ≠ "") by discriminate.
  assert (Ht : "http" ∈ ["http"; "websocket"]) by (by left).
  exact (proj1 (subdomain_routing_path subdomain_settings "preview.splicer.run"
           eq_refl eq_refl Hd
           (Main.mkScope "http" [("host", "abc123.preview.splicer.run")]
              (Some "//src/main.tsx") (Some "//src/main.tsx") None None)
           "abc123" Ht eq_refl Hs eq_refl eq_refl eq_refl)).
Defined.

(** ** src/db/client.py: rows and writes *)

Section RowFacts.
Import Models Db.

Lemma get_session_None sid (t : list SessionInDB) :
  get_session sid t = None ↔ ∀ s, s ∈ t → ¬ (id s = sid ∧ deleted_at s = None).
Proof.
  unfold get_session, table. induction t as [|x t IH].
  - split; [|done]. intros _ s Hs. by apply elem_of_nil in Hs.
  - rewrite filter_cons. destruct (decide _) as [Hp|Hp].
    + split; [done|]. intros H. exfalso. apply (H x); [by left|done].
    + rewrite IH. split.
      * intros H s [->|Hs]%elem_of_cons; [done|by apply H].
      * intros H s Hs. apply H. by right.
Qed.

(** A write that keeps the id and leaves the rows of other ids as they
    are does not change what the other ids resolve to. *)
Lemma get_session_frame (f : SessionInDB → SessionInDB) sid sid' (t : list SessionInDB) :
  sid' ≠ sid → (∀ s, id (f s) = id s) → (∀ s, id s ≠ sid → f s = s) →
  get_session sid' (f <$> t) = get_session sid' t.
Proof.
  intros Hne Hid Hf. unfold get_session, table. f_equal.
  induction t as [|x t IH]; [done|].
  rewrite fmap_cons, !filter_cons, IH.
  destruct (decide (id x = sid)) as [Hx|Hx].
  - destruct (decide (id (f x) = sid' ∧ _)) as [[H1 _]|_].
    { rewrite Hid in H1. congruence. }
    destruct (decide (id x = sid' ∧ _)) as [[H1 _]|_]; [congruence|done].
  - by rewrite (Hf x Hx).
Qed.

Section Create.
Variable settings : Config.Settings.
Variable o : World.Oracle.

(** X7. A session created through the gateway can be read back: when
    the record store hands out an id that no live row has, the new row
    is pending, not deleted, owned by this instance, expires one
    maximum lifetime after now, and [get_session] resolves the id to
    it, while every other id resolves as before. *)
Theorem gateway_create_then_get (owner name ref : string) (w : World.t) :
  let sid := World.new_session_id o (World.db w) in
  get_session sid (World.db w) = None →
  ∃ r w', Gateway.create_session settings o owner name ref w = (Py.Ok r, w')
    ∧ id r = sid ∧ status r = PENDING ∧ deleted_at r = None
    ∧ container_instance r = Some (Config.full_instance_id settings)
    ∧ repo_owner r = owner ∧ repo_name r = name ∧ repo_ref r = ref
    ∧ expires_at r = World.now w + Config.session_max_lifetime settings
    ∧ get_session sid (World.db w') = Some r
    ∧ ∀ sid', sid' ≠ sid → get_session sid' (World.db w') = get_session sid' (World.db w).
Proof.
  intros sid Hfresh. eexists _, _.
  split; [cbv [Gateway.create_session Py.bind Py.get Py.modify Py.ret]; reflexivity|].
  repeat (split; [reflexivity|]). cbn [World.db World.log_status World.set_db].
  unfold get_session, table in *. split.
  - rewrite filter_app. apply head_None in Hfresh. rewrite Hfresh.
    rewrite filter_cons. by rewrite decide_True by done.
  - intros sid' Hne. rewrite filter_app, filter_cons.
    rewrite decide_False; [by rewrite filter_nil, app_nil_r|].
    intros [H _]. apply Hne. by rewrite <- H.
Qed.
End Create.

(** X8. After [soft_delete_session] the id resolves to nothing, other
    ids resolve as before, the answer tells whether a live row was
    there, and deleting again finds nothing and changes nothing. *)
Theorem soft_delete_session_spec (now : Z) (sid : string) (t : list SessionInDB) :
  let r := soft_delete_session now sid t in
  (r.1 = true ↔ get_session sid t ≠ None)
  ∧ get_session sid r.2 = None
  ∧ (∀ sid', sid' ≠ sid → get_session sid' r.2 = get_session sid' t)
  ∧ ∀ now', soft_delete_session now' sid r.2 = (false, r.2).
Proof.
  cbv zeta. unfold soft_delete_session, table. cbn [fst snd].
  set (f := λ s : SessionInDB, if targets sid s then _ else s).
  assert (Hdel : ∀ s, targets sid (f s) = false).
  { intros s. unfold f. destruct (targets sid s) eqn:E; [|done].
    unfold targets, not_deleted. cbn. by rewrite andb_false_r. }
  assert (Hnone : filter (λ s, targets sid s = true) (f <$> t) = []).
  { induction t as [|x t IH]; [done|].
    rewrite fmap_cons, filter_cons, IH. rewrite decide_False; [done|].
    by rewrite Hdel. }
  split; [|split; [|split]].
  - rewrite bool_decide_eq_true. unfold get_session, table.
    assert (Hsame : filter (λ s, targets sid s = true) t
                    = filter (λ s, id s = sid ∧ deleted_at s = None) t).
    { apply list_filter_iff. intros s. unfold targets, not_deleted.
      rewrite andb_true_iff, !bool_decide_eq_true. done. }
    rewrite Hsame. rewrite head_None. done.
  - apply get_session_None. intros s [x [-> Hx]]%list_elem_of_fmap [H1 H2].
    specialize (Hdel x). unfold targets, not_deleted in Hdel.
    rewrite !bool_decide_eq_true_2 in Hdel by done. done.
  - intros sid' Hne. apply get_session_frame with (sid := sid); [done|..].
    + intros s. unfold f. by destruct (targets sid s).
    + intros s Hs. unfold f, targets. by rewrite bool_decide_eq_false_2.
  - intros now'. rewrite Hnone. rewrite bool_decide_eq_false_2 by (by intros []).
    f_equal. rewrite <- list_fmap_compose. apply list_fmap_ext.
    intros i s _. cbn. by rewrite Hdel.
Qed.
End RowFacts.

Lemma gateway_create_then_get_witness :
  Db.get_session "S1" (World.db fresh_world) = None
  ∧ ∃ r w', Gateway.create_session path_settings obliging "alice" "vite-app" "main"
              fresh_world = (Py.Ok r, w')
            ∧ Db.get_session "S1" (World.db w') = Some r.
Proof.
  split; [reflexivity|].
  destruct (gateway_create_then_get path_settings obliging "alice" "vite-app" "main"
              fresh_world eq_refl) as (r & w' & H & _ & _ & _ & _ & _ & _ & _ & _ & Hg & _).
  exists r, w'. split; [exact H|exact Hg].
Defined.

Section WriteFacts.
Import Models Db.

(** What no write through the gateway changes in a row. *)
Definition same_identity (r r' : SessionInDB) : Prop :=
  id r' = id r ∧ created_at r' = created_at r ∧ expires_at r' = expires_at r
  ∧ repo_owner r' = repo_owner r ∧ repo_name r' = repo_name r
  ∧ repo_ref r' = repo_ref r ∧ access_token r' = access_token r.

(** A write aimed at [sid]: row by row, the identity is kept, and a row
    that is deleted or has another id is left as it is. *)
Definition kept (sid : string) (t t' : list SessionInDB) : Prop :=
  Forall2 (λ r r', same_identity r r'
                   ∧ (deleted_at r ≠ None → r' = r)
                   ∧ (id r ≠ sid → r' = r)) t t'.

Lemma kept_fmap sid (h : SessionInDB → SessionInDB) (t : list SessionInDB) :
  (∀ r, same_identity r (h r)) →
  kept sid t ((λ s, if targets sid s then h s else s) <$> t).
Proof.
  intros Hh. unfold kept. apply Forall2_fmap_r, Forall_Forall2_diag, Forall_forall.
  intros r _. unfold targets, not_deleted, compose. cbv beta.
  destruct (decide (id r = sid)) as [Hid|Hid].
  - destruct (decide (deleted_at r = None)) as [Hd|Hd].
    + rewrite !bool_decide_eq_true_2 by done. cbn [andb].
      split; [apply Hh|]. split; [done|]. done.
    + rewrite (bool_decide_eq_false_2 (deleted_at r = None)), andb_false_r by done.
      split; [by repeat split|]. done.
  - rewrite (bool_decide_eq_false_2 (id r = sid)) by done. cbn [andb].
    split; [by repeat split|]. done.
Qed.

Lemma filter_fmap_nil (q : SessionInDB → bool) (g : SessionInDB → SessionInDB)
    (t : list SessionInDB) :
  (∀ s, s ∈ t → q (g s) = false) → filter (λ s, q s = true) (g <$> t) = [].
Proof.
  induction t as [|x t IH]; intros Hall; [done|].
  rewrite fmap_cons, filter_cons. rewrite decide_False.
  - apply IH. intros s Hs. apply Hall. by right.
  - rewrite Hall; [done|by left].
Qed.

(** X9. The writes of the gateway keep the table row for row: whatever
    [update_session], [update_activity] and [soft_delete_session] are
    asked, no row appears or disappears, no row changes its id, creation
    time, expiry, repository or access token, and a row that is already
    deleted or has another id stays exactly as it was. *)
Theorem gateway_writes_keep_rows (now : Z) (sid : string) (u : SessionUpdate)
    (t : list SessionInDB) :
  kept sid t (update_session now sid u t).2
  ∧ kept sid t (update_activity now sid t)
  ∧ kept sid t (soft_delete_session now sid t).2.
Proof.
  split; [|split].
  - apply (kept_fmap sid (apply_update now u)). intros r. by repeat split.
  - unfold update_activity. apply kept_fmap. intros r. by repeat split.
  - unfold soft_delete_session. cbn [snd]. apply kept_fmap. intros r. by repeat split.
Qed.

Section Orphans.
Variable now : Z.

(** X10. Claiming the orphans is done once: right after
    [claim_orphaned_sessions], a second call with the same threshold, at
    any time and for any instance, selects no row and leaves the table
    as it is. *)
Theorem claim_orphaned_sessions_once (inst inst' : string) (threshold now' : Z)
    (t : list SessionInDB) :
  claim_orphaned_sessions now' inst' threshold
    (claim_orphaned_sessions now inst threshold t).2
  = ([], (claim_orphaned_sessions now inst threshold t).2).
Proof.
  unfold claim_orphaned_sessions at 2 3. cbn [snd]. rewrite !claim_loop.
  set (data := filter (λ s, orphan_query threshold s = true) t).
  set (t' := (λ s, if reached data s then orphaned now s else s) <$> t).
  assert (Hnone : filter (λ s, orphan_query threshold s = true) t' = []).
  { unfold t'. assert (Hall : ∀ s, s ∈ t →
        orphan_query threshold (if reached data s then orphaned now s else s) = false).
    { intros s Hs. destruct (reached data s) eqn:Hr.
      - unfold orphan_query, status_in, orphaned, apply_update. cbn.
        rewrite (bool_decide_eq_false_2 (FAILED ∈ _)); [by rewrite andb_false_r|].
        intros H. repeat (apply elem_of_cons in H as [H|H]; [done|]).
        by apply elem_of_nil in H.
      - destruct (orphan_query threshold s) eqn:Hq; [|done].
        pose proof (reached_data threshold t s Hs Hq) as Hr'.
        fold data in Hr'. congruence. }
    by apply filter_fmap_nil. }
  unfold claim_orphaned_sessions, table. unfold t', data in Hnone. by rewrite Hnone.
Qed.
End Orphans.
End WriteFacts.

(** ** src/services/process_manager.py: ports and processes *)

Section ProcessFacts.
Import PortAllocator World.

Lemma allocate_Some in_use (a : PortAllocator.t) p a' :
  allocate in_use a = (Some p, a') →
  (p ∉ _allocated a) ∧ in_use p = false
  ∧ a' = PortAllocator.mk (_start a) (_end a) ({[p]} ∪ _allocated a).
Proof.
  unfold allocate. destruct (scan _ _ _) as [q|] eqn:E; [|done].
  intros [= <- <-]. apply scan_Some in E as (_ & _ & _ & H1 & H2 & _). done.
Qed.

Lemma union_discard (X : gset Z) (p : Z) : p ∉ X → ({[p]} ∪ X) ∖ {[p]} = X.
Proof.
  intros Hp. apply set_eq. intros q.
  rewrite elem_of_difference, elem_of_union, !elem_of_singleton.
  split; [intros [[->|H] Hq]; done|]. intros H. split; [by right|]. by intros ->.
Qed.

(** X11. A port is never handed out twice, and giving it back undoes
    the allocation: after [allocate] returned [p], a further [allocate]
    returns another port, and [release(p)] puts the allocator back in
    the state it had before. *)
Theorem allocate_release_round_trip in_use (a a' : PortAllocator.t) (p : Z) :
  allocate in_use a = (Some p, a') →
  release a' p = a
  ∧ ∀ in_use' p2 a2, allocate in_use' a' = (Some p2, a2) → p2 ≠ p.
Proof.
  intros H. apply allocate_Some in H as (Hp & _ & ->). split.
  - unfold release. cbn. rewrite union_discard by done. by destruct a.
  - intros in_use' p2 a2 H2. apply allocate_Some in H2 as (H2 & _). cbn in H2.
    intros ->. apply H2, elem_of_union_l, elem_of_singleton. done.
Qed.

Lemma allocate_release_round_trip_witness :
  allocate (λ _, false) (PortAllocator.init 3000 4000)
  = (Some 3000, PortAllocator.mk 3000 4000 ({[3000]} ∪ ∅))
  ∧ release (PortAllocator.mk 3000 4000 ({[3000]} ∪ ∅)) 3000
    = PortAllocator.init 3000 4000.
Proof.
  assert (H : allocate (λ _, false) (PortAllocator.init 3000 4000)
              = (Some 3000, PortAllocator.mk 3000 4000 ({[3000]} ∪ ∅)))
    by reflexivity.
  split; [exact H|].
  exact (proj1 (allocate_release_round_trip (λ _, false) _ _ 3000 H)).
Defined.

Section WithOracle.
Variable o : Oracle.

(** A start that returns took a port that was not allocated and
    recorded the process. *)
Lemma start_process_Ok (sid : string) (workspace_path : Path.t)
    (command : list string) (framework : option string) (w w1 : World.t) info :
  ProcessManager.start_process o sid workspace_path command framework w
    = (Py.Ok info, w1) →
  (World.port info ∉ _allocated (allocator w))
  ∧ w1 = set_processes (λ ps, <[sid := info]> ps)
           (set_allocator (λ a, PortAllocator.mk (_start a) (_end a)
                                  ({[World.port info]} ∪ _allocated a)) w).
Proof.
  unfold ProcessManager.start_process, Py.bind, Py.get, Py.modify, Py.ret, Py.raise.
  destruct (allocate (is_port_in_use o) (allocator w)) as [[p|] a'] eqn:E; [|done].
  apply allocate_Some in E as (Hp & Hu & ->).
  destruct (spawn o _ workspace_path) as [pid|e] eqn:Es; [|done].
  cbn. by intros [= <- <-].
Qed.

(** X12. [start_process] either registers the process or leaves no
    trace: when it returns, the process is recorded under the session
    id with a port that was free and is now allocated, and with the
    command that [_inject_server_flags] built; when no port is free or
    the launch fails it raises [RuntimeError] and the allocator and the
    process table are as before (the port taken for the launch is given
    back). *)
Theorem start_process_outcomes (sid : string) (workspace_path : Path.t)
    (command : list string) (framework : option string) (w : World.t) :
  match ProcessManager.start_process o sid workspace_path command framework w with
  | (Py.Ok info, w') =>
      (World.port info ∉ _allocated (allocator w))
      ∧ is_port_in_use o (World.port info) = false
      ∧ World.command info
        = ProcessManager._inject_server_flags command (World.port info) sid framework
      ∧ World.session_id info = sid
      ∧ w' = set_processes (λ ps, <[sid := info]> ps)
               (set_allocator (λ a, PortAllocator.mk (_start a) (_end a)
                                      ({[World.port info]} ∪ _allocated a)) w)
  | (Py.Raise e, w') => (∃ msg, e = Py.RuntimeError msg) ∧ w' = w
  end.
Proof.
  unfold ProcessManager.start_process, Py.bind, Py.get, Py.modify, Py.ret, Py.raise.
  destruct (allocate (is_port_in_use o) (allocator w)) as [[p|] a'] eqn:E.
  - apply allocate_Some in E as (Hp & Hu & ->).
    destruct (spawn o _ workspace_path) as [pid|e] eqn:Es.
    + cbn. repeat (split; [done|]). done.
    + cbn. split; [by eexists|].
      destruct w as [db now fs [s e0 al] ps gt st sw gc]. cbn in *.
      unfold set_allocator, release. cbn. by rewrite union_discard.
  - cbn. split; [by eexists|done].
Qed.

(** X13. Stopping undoes starting: for a session without a process,
    [start_process] followed by [stop_process] answers [True] and
    leaves the allocator and the process table as they were before the
    start; and [stop_process] for a session without a process answers
    [False] and changes nothing. *)
Theorem start_then_stop (sid : string) (workspace_path : Path.t)
    (command : list string) (framework : option string) (w w1 : World.t) info :
  processes w !! sid = None →
  ProcessManager.start_process o sid workspace_path command framework w
    = (Py.Ok info, w1) →
  ProcessManager.stop_process sid w = (Py.Ok false, w)
  ∧ ProcessManager.stop_process sid w1 = (Py.Ok true, w).
Proof.
  intros Hnone Hstart.
  assert (Hstop : ProcessManager.stop_process sid w = (Py.Ok false, w)).
  { unfold ProcessManager.stop_process, Py.bind, Py.get. cbn. by rewrite Hnone. }
  split; [done|].
  destruct (start_process_Ok _ _ _ _ _ _ _ Hstart) as [Hp ->].
  unfold ProcessManager.stop_process, Py.bind, Py.get, Py.modify, Py.ret. cbn.
  rewrite lookup_insert_eq. cbn.
  destruct w as [db now fs [s e0 al] ps gt st sw gc]. cbn in *.
  unfold set_processes, set_allocator, release. cbn.
  rewrite union_discard by done. rewrite delete_insert_id by done. done.
Qed.
End WithOracle.
End ProcessFacts.

Lemma start_then_stop_witness :
  let w := fresh_world in
  let r := ProcessManager.start_process obliging "S1" ["/"; "tmp"; "workspaces"; "S1"]
             ["npm"; "run"; "dev"] (Some "vite") w in
  World.processes w !! "S1" = None
  ∧ ProcessManager.stop_process "S1" r.2 = (Py.Ok true, w).
Proof.
  cbv zeta. split; [reflexivity|].
  refine (proj2 (start_then_stop obliging "S1" ["/"; "tmp"; "workspaces"; "S1"]
                   ["npm"; "run"; "dev"] (Some "vite") fresh_world _
                   (World.mkProcess 4242 3000 "S1"
                      ["npm"; "run"; "dev"; "--"; "--port"; "3000"; "--host"])
                   eq_refl _)).
  reflexivity.
Defined.

Section ShutdownFacts.
Import PortAllocator World.

(** The fields that stopping processes does not write. *)
Definition same_but_processes (w w' : World.t) : Prop :=
  db w' = db w ∧ now w' = now w ∧ fs w' = fs w
  ∧ github_tokens w' = github_tokens w ∧ setup_tasks w' = setup_tasks w
  ∧ status_writes w' = status_writes w ∧ git_commands w' = git_commands w
  ∧ _start (allocator w') = _start (allocator w)
  ∧ _end (allocator w') = _end (allocator w).

Lemma stop_each_spec (l : list string) (c : Z) (w : World.t) :
  NoDup l → (∀ sid, sid ∈ l → is_Some (processes w !! sid)) →
  ∃ w', ProcessShutdown.stop_each l c w = (Py.Ok (c + Z.of_nat (length l)), w')
    ∧ (∀ sid, processes w' !! sid
              = if decide (sid ∈ l) then None else processes w !! sid)
    ∧ (∀ p, p ∈ _allocated (allocator w')
            ↔ p ∈ _allocated (allocator w)
              ∧ ∀ sid info, sid ∈ l → processes w !! sid = Some info →
                            World.port info ≠ p)
    ∧ same_but_processes w w'.
Proof.
  revert c w. induction l as [|sid l IH]; intros c w Hnd Hall.
  - exists w. split; [by rewrite Z.add_0_r|]. split; [done|].
    split; [|by repeat split].
    intros p. split; [intros H; split; [done|]|by intros [H _]].
    intros sid info Hs. by apply elem_of_nil in Hs.
  - apply NoDup_cons in Hnd as [Hsid Hnd].
    destruct (Hall sid) as [info Hinfo]; [by left|].
    set (w1 := set_allocator (λ a, release a (World.port info))
                 (set_processes (λ ps, delete sid ps) w)).
    assert (Hstep : ProcessManager.stop_process sid w = (Py.Ok true, w1)).
    { unfold ProcessManager.stop_process, Py.bind, Py.get, Py.modify, Py.ret. cbn.
      by rewrite Hinfo. }
    destruct (IH (c + 1) w1 Hnd) as (w' & Hrun & Hps & Hal & Hsame).
    { intros sid' Hs'. cbn. rewrite lookup_delete_ne by (intros E; subst; auto).
      apply Hall. by right. }
    exists w'. split; [|split; [|split]].
    + cbn [ProcessShutdown.stop_each]. unfold Py.bind at 1. rewrite Hstep, Hrun.
      replace (c + 1 + Z.of_nat (length l)) with (c + Z.of_nat (length (sid :: l)))
        by (cbn [length]; lia).
      done.
    + intros sid'. rewrite Hps. cbn.
      destruct (decide (sid' ∈ l)) as [Hin|Hin],
               (decide (sid' ∈ sid :: l)) as [Hin2|Hin2]; try done.
      * exfalso. apply Hin2. by right.
      * apply elem_of_cons in Hin2 as [->|?]; [apply lookup_delete_eq|done].
      * rewrite lookup_delete_ne; [done|]. intros E. subst. apply Hin2. by left.
    + intros p. rewrite Hal. cbn. rewrite elem_of_difference, elem_of_singleton.
      split.
      * intros [[Hp Hne] Hrest]. split; [done|].
        intros sid' info' [->|Hs']%elem_of_cons Hl.
        -- rewrite Hinfo in Hl. intros E. apply Hne. congruence.
        -- apply (Hrest sid' info' Hs').
           rewrite lookup_delete_ne; [done|]. intros E; subst; auto.
      * intros [Hp Hrest]. split; [split; [done|]|].
        -- intros E. apply (Hrest sid info); [by left|done|done].
        -- intros sid' info' Hs' Hl.
           assert (sid ≠ sid') by (intros E; subst; auto).
           rewrite lookup_delete_ne in Hl by done.
           apply (Hrest sid' info'); [by right|done].
    + destruct Hsame as (?&?&?&?&?&?&?&?&?). by repeat split.
Qed.

(** X14. [stop_all_processes] empties the process table: it answers
    the number of processes there were, no process is left, every port
    that belonged to one of them is free again while the other
    allocated ports stay allocated, and nothing else changes. *)
Theorem stop_all_processes_spec (w : World.t) :
  ∃ w', ProcessShutdown.stop_all_processes w
        = (Py.Ok (Z.of_nat (size (processes w))), w')
    ∧ processes w' = ∅
    ∧ (∀ p, p ∈ _allocated (allocator w')
            ↔ p ∈ _allocated (allocator w)
              ∧ ∀ sid info, processes w !! sid = Some info → World.port info ≠ p)
    ∧ same_but_processes w w'.
Proof.
  unfold ProcessShutdown.stop_all_processes, Py.bind, Py.get. cbn.
  set (l := (map_to_list (processes w)).*1).
  assert (Hin : ∀ sid, sid ∈ l ↔ is_Some (processes w !! sid)).
  { intros sid. unfold l. rewrite list_elem_of_fmap. split.
    - intros [[k v] [-> H]]. apply elem_of_map_to_list in H. by eexists.
    - intros [v H]. exists (sid, v). split; [done|]. by apply elem_of_map_to_list. }
  destruct (stop_each_spec l 0 w) as (w' & Hrun & Hps & Hal & Hsame).
  { apply NoDup_fst_map_to_list. }
  { intros sid. apply Hin. }
  exists w'. split; [|split; [|split]]; [| | |done].
  - rewrite Hrun. unfold l. rewrite length_fmap, length_map_to_list. done.
  - apply map_eq. intros sid. rewrite Hps, lookup_empty.
    destruct (decide (sid ∈ l)) as [_|Hn]; [done|].
    destruct (processes w !! sid) eqn:E; [|done].
    exfalso. apply Hn, Hin. by eexists.
  - intros p. rewrite Hal. split; intros [Hp H]; (split; [done|]).
    + intros sid info Hl. apply (H sid info); [|done]. apply Hin. by eexists.
    + intros sid info _ Hl. by apply (H sid info).
Qed.
End ShutdownFacts.

(** ** src/services/workspace_manager.py: the directories *)

Section DirectoryFacts.
Import WorkspaceManager World.
Variable settings : Config.Settings.

Lemma rev_app_app s t u : String.rev_app s t +:+ u = String.rev_app s (t +:+ u).
Proof. revert t. induction s as [|c s IH]; intros t; simpl; [done|]. by rewrite IH. Qed.

Lemma segments_no_slash cur s :
  Py.char_in "/" s = false → Path.segments cur s = [String.rev cur +:+ s].
Proof.
  revert cur. induction s as [|c s IH]; intros cur; simpl.
  - intros _. by rewrite str_app_nil_r.
  - intros [H1 H2]%orb_false_iff. rewrite H1, (IH _ H2).
    unfold String.rev. simpl. by rewrite !rev_app_app.
Qed.

Definition id_char (c : ascii) : bool := Py.isalnum c || Py.char_in c "-_".

Lemma id_char_plain c : id_char c = true → c ≠ "/"%char ∧ c ≠ "."%char.
Proof. destruct c as [[] [] [] [] [] [] [] []]; vm_compute; intros; split; congruence. Qed.

Lemma id_chars_no_slash s : Py.all_chars id_char s = true → Py.char_in "/" s = false.
Proof.
  induction s as [|c s IH]; simpl; [done|].
  intros [H1 H2]%andb_true_iff. rewrite (IH H2), orb_false_r.
  apply bool_decide_eq_false. by apply id_char_plain.
Qed.

(** The workspace of a session whose id is not empty is the directory
    of that name in the base directory. *)
Lemma workspace_path_child sid p :
  sid ≠ "" → _get_workspace_path settings sid = Py.Ok p →
  Py.all_chars id_char sid = true ∧ p = _base_dir settings ++ [sid].
Proof.
  intros Hne. unfold _get_workspace_path. case_bool_decide as H; [done|].
  rewrite H. intros [= <-].
  assert (Hall : Py.all_chars id_char sid = true) by (by apply filter_chars_fix in H).
  split; [done|].
  destruct sid as [|c sid]; [done|].
  pose proof Hall as Hc. simpl in Hc. apply andb_true_iff in Hc as [Hc _].
  apply id_char_plain in Hc as [Hc1 Hc2].
  unfold Path.joinpath.
  assert (Py.startswith (String c sid) "/" = false) as ->.
  { simpl. rewrite bool_decide_eq_false_2; [done|]. congruence. }
  f_equal. unfold Path.rel_parts.
  rewrite segments_no_slash by (by apply id_chars_no_slash).
  change (String.rev "" +:+ String c sid) with (String c sid).
  rewrite filter_cons, decide_True; [done|]. split; [done|].
  intros [= -> _]. done.
Qed.

(** X15. Sessions do not share directories: the workspace of a session
    with a non-empty id is the directory named after the id directly in
    the base directory, so the workspaces of two ids coincide, or lie
    one beneath the other, only if the ids are equal. *)
Theorem workspaces_are_apart (sid1 sid2 : string) (p1 p2 : Path.t) :
  sid1 ≠ "" → sid2 ≠ "" →
  _get_workspace_path settings sid1 = Py.Ok p1 →
  _get_workspace_path settings sid2 = Py.Ok p2 →
  p1 = _base_dir settings ++ [sid1] ∧ p2 = _base_dir settings ++ [sid2]
  ∧ (Path.beneath p1 p2 → sid1 = sid2).
Proof.
  intros H1 H2 Hp1 Hp2.
  apply workspace_path_child in Hp1 as [_ ->]; [|done].
  apply workspace_path_child in Hp2 as [_ ->]; [|done].
  split; [done|]. split; [done|].
  unfold Path.beneath. intros H%prefix_app_inv.
  destruct H as [k H]. by injection H.
Qed.

(** X16. A workspace is created once and removed whole: for a
    non-empty id whose directory does not exist, [create_workspace]
    returns the directory, which then exists together with the base
    directory; creating it again raises [OSError] (file exists) and
    changes nothing; and [cleanup_workspace] then answers [True] and
    leaves neither the directory nor anything beneath it. *)
Theorem create_then_cleanup (sid : string) (p : Path.t) (w : World.t) :
  sid ≠ "" → _get_workspace_path settings sid = Py.Ok p → p ∉ fs w →
  let w1 := set_fs (λ fs, {[p]} ∪ Fs.mkdir_parents (_base_dir settings) fs) w in
  create_workspace settings sid w = (Py.Ok p, w1)
  ∧ p ∈ fs w1 ∧ (∀ q, q ∈ Path.ancestors (_base_dir settings) → q ∈ fs w1)
  ∧ (∃ msg, create_workspace settings sid w1 = (Py.Raise (Py.OSError msg), w1))
  ∧ (∃ w2, cleanup_workspace settings sid w1 = (Py.Ok true, w2)
           ∧ fs w2 = Fs.rmtree p (fs w1)
           ∧ ∀ q, Path.beneath p q → q ∉ fs w2).
Proof.
  intros Hne Hp Hfresh w1.
  destruct (workspace_path_child sid p Hne Hp) as [_ Hchild].
  assert (Hbase : _base_dir settings ≠ p).
  { rewrite Hchild. intros H. apply (f_equal length) in H.
    rewrite length_app in H. cbn in H. lia. }
  assert (Hp1 : p ∉ Fs.mkdir_parents (_base_dir settings) (fs w)).
  { unfold Fs.mkdir_parents. rewrite elem_of_union, elem_of_list_to_set.
    intros [Hin|Hin]; [|done].
    assert (Hlen : ∀ (b q : Path.t), q ∈ Path.ancestors b → (length q ≤ length b)%nat).
    { clear. induction b as [|x b IH]; intros q; cbn.
      - by intros ?%elem_of_nil.
      - intros [->|[r [-> Hr]]%list_elem_of_fmap]%elem_of_cons; cbn; [lia|].
        apply IH in Hr. lia. }
    apply Hlen in Hin. rewrite Hchild, length_app in Hin. cbn in Hin. lia. }
  split; [|split; [|split; [|split]]].
  - unfold create_workspace, Py.bind, Py.of_result, Py.modify, Py.get, Py.ret.
    rewrite Hp. cbn. rewrite bool_decide_eq_false_2 by done. done.
  - cbn. apply elem_of_union_l, elem_of_singleton. done.
  - intros q Hq. cbn. apply elem_of_union_r. unfold Fs.mkdir_parents.
    apply elem_of_union_l, elem_of_list_to_set. done.
  - eexists. unfold create_workspace, Py.bind, Py.of_result, Py.modify, Py.get,
      Py.raise. rewrite Hp. cbn.
    rewrite bool_decide_eq_true_2.
    2:{ unfold Fs.mkdir_parents. rewrite !elem_of_union, elem_of_singleton. auto. }
    f_equal. destruct w as [db now fs0 al ps gt st sw gc]. unfold w1, set_fs. cbn.
    f_equal. unfold Fs.mkdir_parents. apply set_eq. intros q.
    rewrite !elem_of_union. tauto.
  - eexists. split; [|split].
    + unfold cleanup_workspace, Py.bind, Py.of_result, Py.modify, Py.get, Py.ret.
      rewrite Hp. cbn. rewrite bool_decide_eq_false_2; [done|].
      intros H. apply H. apply elem_of_union_l, elem_of_singleton. done.
    + done.
    + intros q Hq. cbn. unfold Fs.rmtree. rewrite elem_of_filter. by intros [H _].
Qed.
End DirectoryFacts.

Lemma workspaces_are_apart_witness :
  WorkspaceManager._get_workspace_path path_settings "S1"
  = Py.Ok ["/"; "tmp"; "workspaces"; "S1"]
  ∧ (Path.beneath ["/"; "tmp"; "workspaces"; "S1"] ["/"; "tmp"; "workspaces"; "S2"]
     → "S1" = "S2").
Proof.
  assert (H1 : "S1" ≠ "") by discriminate.
  assert (H2 : "S2" ≠ "") by discriminate.
  split; [reflexivity|].
  exact (proj2 (proj2 (workspaces_are_apart path_settings "S1" "S2"
           ["/"; "tmp"; "workspaces"; "S1"] ["/"; "tmp"; "workspaces"; "S2"]
           H1 H2 eq_refl eq_refl))).
Defined.

Lemma create_then_cleanup_witness :
  (WorkspaceManager.create_workspace path_settings "S1" fresh_world).1
  = Py.Ok ["/"; "tmp"; "workspaces"; "S1"].
Proof.
  assert (H1 : "S1" ≠ "") by discriminate.
  assert (H2 : ["/"; "tmp"; "workspaces"; "S1"] ∉ World.fs fresh_world)
    by apply not_elem_of_empty.
  pose proof (proj1 (create_then_cleanup path_settings "S1"
                ["/"; "tmp"; "workspaces"; "S1"] fresh_world H1 eq_refl H2)) as H.
  exact (f_equal fst H).
Defined.

(** ** src/services/workspace_manager.py: the start command *)

Section CommandFacts.
Import Detect.

(** [run_cmd] of [_get_start_command]. *)
Definition run_cmd (m : Manager) : list string :=
  match m with
  | Npm => ["npm"; "run"]
  | Yarn => ["yarn"]
  | Pnpm => ["pnpm"]
  end.

(** Every command [_get_start_command] can return. *)
Definition all_commands : list (list string) :=
  (m ← [Npm; Yarn; Pnpm]; s ← ["dev"; "start"; "serve"; "preview"]; [run_cmd m ++ [s]])
  ++ [["npx"; "vite"; "--host"]; ["npx"; "next"; "dev"];
      ["npx"; "react-scripts"; "start"]; ["npm"; "start"]].

Lemma first_script_Some scripts preferred s :
  first_script scripts preferred = Some s → s ∈ preferred ∧ has_key s scripts = true.
Proof.
  induction preferred as [|x l IH]; simpl; [done|].
  destruct (has_key x scripts) eqn:E.
  - intros [= <-]. split; [by left|done].
  - intros H. destruct (IH H). split; [by right|done].
Qed.

Lemma first_script_None scripts preferred s :
  first_script scripts preferred = None → s ∈ preferred → has_key s scripts = false.
Proof.
  induction preferred as [|x l IH]; simpl; [by intros _ ?%elem_of_nil|].
  destruct (has_key x scripts) eqn:E; [done|].
  intros H [->|Hs]%elem_of_cons; [done|by apply IH].
Qed.

Ltac in_list := repeat first [by apply list_elem_of_here | apply list_elem_of_further].

Lemma start_command_in (package_info : PackageInfo) (framework : option string) :
  _get_start_command package_info framework ∈ all_commands.
Proof.
  unfold _get_start_command.
  set (preferred := if bool_decide (framework = Some "nextjs") then _ else _).
  assert (Hpref : ∀ s, s ∈ preferred → s ∈ ["dev"; "start"; "serve"; "preview"]).
  { intros s. unfold preferred. case_bool_decide as Hnext; [|done].
    intros Hin. repeat (apply elem_of_cons in Hin as [->|Hin]; [in_list|]).
    by apply elem_of_nil in Hin. }
  destruct (first_script _ preferred) as [s|] eqn:E.
  - apply first_script_Some in E as [Hs _]. apply Hpref in Hs.
    repeat (apply elem_of_cons in Hs as [->|Hs];
            [destruct (manager package_info); vm_compute; in_list|]).
    by apply elem_of_nil in Hs.
  - assert (Hd : has_key "dev" (scripts package_info) = false).
    { apply (first_script_None _ _ _ E). unfold preferred. case_bool_decide; in_list. }
    assert (Hs : has_key "start" (scripts package_info) = false).
    { apply (first_script_None _ _ _ E). unfold preferred. case_bool_decide; in_list. }
    rewrite Hd, Hs.
    destruct (Py.truthy framework) as [f|]; [|vm_compute; in_list].
    unfold framework_commands. repeat case_bool_decide; vm_compute; in_list.
Qed.




Definition listed_commands : list (list string) := Eval vm_compute in all_commands.

(** X18. What is launched for a project: the start command of
    [_get_start_command] after [_inject_server_flags]. The fallback for
    Create React App is launched as it is; every other command gets
    [--port <port>], after a [--] separator when it is run through
    [npm], and then [--host], except the Vite fallback, which already
    has it. The port of the allocator is thus always passed, whatever
    [package.json] declares. *)
Theorem launched_command (package_info : PackageInfo) (framework framework' : option string)
    (port : Z) (session_id : string) :
  let command := _get_start_command package_info framework in
  let result := ProcessManager._inject_server_flags command port session_id framework' in
  (command = ["npx"; "react-scripts"; "start"] ∧ result = command)
  ∨ (command = ["npx"; "vite"; "--host"]
     ∧ result = command ++ ["--port"; Py.str_of_int port])
  ∨ (head command = Some "npm"
     ∧ result = command ++ ["--"; "--port"; Py.str_of_int port; "--host"])
  ∨ (head command ≠ Some "npm" ∧ command ≠ ["npx"; "vite"; "--host"]
     ∧ command ≠ ["npx"; "react-scripts"; "start"]
     ∧ result = command ++ ["--port"; Py.str_of_int port; "--host"]).
Proof.
  cbv zeta. pose proof (start_command_in package_info framework) as H.
  change all_commands with listed_commands in H. unfold listed_commands in H.
  repeat (apply elem_of_cons in H as [->|H];
    [first [ by left
           | by right; left
           | by right; right; left
           | by right; right; right ]|]).
  by apply elem_of_nil in H.
Qed.

End CommandFacts.

(** ** src/utils/security.py and src/api/routes/sessions.py: the API key *)

(** X20. The session API is closed unless a secret is configured: the
    dependency [verify_api_key] lets a request through exactly when the
    configured secret is not empty and the [X-API-Key] header is that
    secret; every other request, a request without the header or with
    an empty one included, is answered 401 [unauthorized]. *)
Theorem verify_api_key_iff (secret : string) (x_api_key : option string) :
  (Sessions.verify_api_key secret x_api_key = Sessions.Returned tt
   ↔ secret ≠ "" ∧ x_api_key = Some secret)
  ∧ (Sessions.verify_api_key secret x_api_key = Sessions.Returned tt
     ∨ Sessions.verify_api_key secret x_api_key
       = Sessions.HTTPException 401 "unauthorized").
Proof.
  unfold Sessions.verify_api_key, ApiKey.validate_api_key, Py.truthy,
    Security.constant_time_compare.
  destruct x_api_key as [k|]; cbn [negb].
  2:{ split; [|by right]. split; [done|by intros [_ ?]]. }
  destruct (decide (k = "")) as [->|Hk].
  { rewrite bool_decide_eq_true_2 by done. cbn [negb]. split; [|by right].
    split; [done|]. by intros [H [= <-]]. }
  rewrite (bool_decide_eq_false_2 (k = "")) by done.
  destruct (decide (secret = "")) as [->|Hs].
  { rewrite bool_decide_eq_true_2 by done. cbn [negb]. split; [|by right].
    split; [done|]. by intros [H _]. }
  rewrite (bool_decide_eq_false_2 (secret = "")) by done.
  destruct (decide (k = secret)) as [->|Hne].
  - rewrite bool_decide_eq_true_2 by done. cbn [negb]. split; [|by left]. done.
  - rewrite bool_decide_eq_false_2 by done. cbn [negb]. split; [|by right].
    split; [done|]. intros [_ [= ?]]. done.
Qed.

(** ** src/services/proxy.py: the headers *)

Ltac elem_of_list := repeat first [by apply list_elem_of_here | apply list_elem_of_further].

Section HeaderFacts.
Import ProxyHeaders.

(** A loop that copies the pairs whose key passes [keep] into a
    dictionary builds the dictionary of all pairs, restricted to the
    keys that pass. *)
Lemma copy_loop_lookup (keep : string → bool)
    (f : gmap string string → string * string → gmap string string)
    (items : list (string * string)) (k : string) :
  (∀ h kv, f h kv = if keep kv.1 then <[kv.1 := kv.2]> h else h) →
  foldl f ∅ items !! k
  = if keep k then Main.dict_of_pairs items !! k else None.
Proof.
  intros Hf. unfold Main.dict_of_pairs.
  assert (Hgen : ∀ (h0 d0 : gmap string string),
            h0 !! k = (if keep k then d0 !! k else None) →
            foldl f h0 items !! k
            = if keep k then foldl (λ d kv, <[kv.1 := kv.2]> d) d0 items !! k else None).
  { induction items as [|kv items IH]; intros h0 d0 H0; [done|].
    cbn [foldl]. apply IH. rewrite Hf.
    destruct (decide (kv.1 = k)) as [<-|Hne].
    - destruct (keep kv.1); [by rewrite !lookup_insert_eq|done].
    - rewrite (lookup_insert_ne d0) by done.
      destruct (keep kv.1); [by rewrite lookup_insert_ne|done]. }
  apply Hgen. rewrite !lookup_empty. by destruct (keep k).
Qed.

Definition forwarded : list string :=
  ["X-Forwarded-For"; "X-Forwarded-Proto"; "X-Forwarded-Host"].

(** X21. The headers of the proxied request never hold a hop-by-hop
    header, [host], [content-length] or [content-encoding], in any
    letter case; [X-Forwarded-For], [X-Forwarded-Proto] and
    [X-Forwarded-Host] hold the client's address (or [unknown]), the
    scheme and the host of the incoming request; and every other header
    of the client is passed on with its last value, among them headers
    of the same names written in another letter case, such as
    [x-forwarded-for]. *)
Theorem prepare_request_headers_spec (items : list (string * string))
    (host : string) (client_host : option string) (scheme : string) :
  let headers := _prepare_request_headers items host client_host scheme in
  (∀ k, Py.lower k ∈ HOP_BY_HOP_HEADERS ++ SPECIAL_HEADERS → headers !! k = None)
  ∧ headers !! "X-Forwarded-For" = Some (default "unknown" client_host)
  ∧ headers !! "X-Forwarded-Proto" = Some scheme
  ∧ headers !! "X-Forwarded-Host" = Some host
  ∧ (∀ k, k ∉ forwarded → (Py.lower k ∉ HOP_BY_HOP_HEADERS ++ SPECIAL_HEADERS) →
          headers !! k = Main.dict_of_pairs items !! k).
Proof.
  cbv zeta. unfold _prepare_request_headers.
  set (keep := λ k, negb (Py.elem (Py.lower k) HOP_BY_HOP_HEADERS)
                    && negb (Py.elem (Py.lower k) SPECIAL_HEADERS)).
  set (f := λ (headers : gmap string string) (kv : string * string), _).
  assert (Hf : ∀ h kv, f h kv = if keep kv.1 then <[kv.1 := kv.2]> h else h).
  { intros h kv. unfold f, keep.
    by destruct (Py.elem (Py.lower kv.1) HOP_BY_HOP_HEADERS),
                (Py.elem (Py.lower kv.1) SPECIAL_HEADERS). }
  assert (Hkeep : ∀ k, keep k = true
                       ↔ Py.lower k ∉ HOP_BY_HOP_HEADERS ++ SPECIAL_HEADERS).
  { intros k. unfold keep, Py.elem.
    rewrite andb_true_iff, !negb_true_iff, !bool_decide_eq_false, elem_of_app. tauto. }
  split; [|split; [|split; [|split]]].
  - intros k Hk.
    assert (Hne : ∀ x, x ∈ forwarded → k ≠ x).
    { intros x Hx ->. unfold forwarded in Hx.
      repeat (apply elem_of_cons in Hx as [->|Hx];
              [apply (bool_decide_pack _) in Hk; vm_compute in Hk; done|]).
      by apply elem_of_nil in Hx. }
    rewrite !lookup_insert_ne by (intros E; symmetry in E; revert E; apply Hne;
                                  unfold forwarded; elem_of_list).
    rewrite (copy_loop_lookup keep f items k Hf).
    destruct (keep k) eqn:E; [|done]. by apply Hkeep in E.
  - rewrite lookup_insert_ne by done. rewrite lookup_insert_ne by done.
    by rewrite lookup_insert_eq.
  - rewrite lookup_insert_ne by done. by rewrite lookup_insert_eq.
  - by rewrite lookup_insert_eq.
  - intros k Hk Hlow.
    rewrite !lookup_insert_ne by (intros <-; apply Hk; unfold forwarded; elem_of_list).
    rewrite (copy_loop_lookup keep f items k Hf).
    apply Hkeep in Hlow. by rewrite Hlow.
Qed.

Definition dropped_from_response : list string :=
  HOP_BY_HOP_HEADERS ++ ["content-encoding"; "content-length"].

(** X22. The headers of the proxied response never hold a hop-by-hop
    header, [content-encoding] or [content-length], in any letter case,
    nor a header spelled [x-frame-options] or [X-Frame-Options]; they
    always hold a content security policy: the one of the dev server
    when it sent a header of that name in some letter case, otherwise
    [Content-Security-Policy: frame-ancestors *]; and every other header
    is passed on with its last value. *)
Theorem prepare_response_headers_spec (items : list (string * string)) :
  let headers := _prepare_response_headers items in
  let sent k := (Py.lower k ∉ dropped_from_response)
                ∧ (k ∉ ["x-frame-options"; "X-Frame-Options"]) in
  (∀ k, Py.lower k ∈ dropped_from_response → headers !! k = None)
  ∧ headers !! "x-frame-options" = None ∧ headers !! "X-Frame-Options" = None
  ∧ (∃ k v, headers !! k = Some v ∧ Py.lower k = "content-security-policy")
  ∧ (∀ k, sent k → k ≠ "Content-Security-Policy" →
          headers !! k = Main.dict_of_pairs items !! k)
  ∧ ((∃ k, sent k ∧ Py.lower k = "content-security-policy"
           ∧ is_Some (Main.dict_of_pairs items !! k))
     → headers !! "Content-Security-Policy"
       = Main.dict_of_pairs items !! "Content-Security-Policy")
  ∧ ((∀ k, Py.lower k = "content-security-policy" →
           Main.dict_of_pairs items !! k = None)
     → headers !! "Content-Security-Policy" = Some "frame-ancestors *").
Proof.
  cbv zeta. unfold _prepare_response_headers.
  set (keep := λ k, negb (Py.elem (Py.lower k) HOP_BY_HOP_HEADERS)
                    && negb (bool_decide (Py.lower k = "content-encoding"))
                    && negb (bool_decide (Py.lower k = "content-length"))).
  set (f := λ (headers : gmap string string) (kv : string * string), _).
  assert (Hf : ∀ h kv, f h kv = if keep kv.1 then <[kv.1 := kv.2]> h else h).
  { intros h kv. unfold f, keep.
    by destruct (Py.elem (Py.lower kv.1) HOP_BY_HOP_HEADERS),
                (bool_decide (Py.lower kv.1 = "content-encoding")),
                (bool_decide (Py.lower kv.1 = "content-length")). }
  assert (Hkeep : ∀ k, keep k = true ↔ Py.lower k ∉ dropped_from_response).
  { intros k. unfold keep, Py.elem, dropped_from_response.
    rewrite !andb_true_iff, !negb_true_iff, !bool_decide_eq_false, elem_of_app.
    rewrite !elem_of_cons, elem_of_nil. tauto. }
  set (copied := foldl f ∅ items).
  set (kept := delete "X-Frame-Options" (delete "x-frame-options" copied)).
  assert (Hcopied : ∀ k, copied !! k
                         = if keep k then Main.dict_of_pairs items !! k else None).
  { intros k. by apply copy_loop_lookup. }
  assert (Hkept : ∀ k, kept !! k
            = if bool_decide (k ∈ ["x-frame-options"; "X-Frame-Options"]) then None
              else copied !! k).
  { intros k. unfold kept.
    destruct (decide (k ∈ ["x-frame-options"; "X-Frame-Options"])) as [Hk|Hk];
      [rewrite bool_decide_eq_true_2 by done|rewrite bool_decide_eq_false_2 by done].
    - apply elem_of_cons in Hk as [->|Hk]; [by rewrite lookup_delete_ne, lookup_delete_eq|].
      apply elem_of_cons in Hk as [->|Hk]; [by rewrite lookup_delete_eq|].
      by apply elem_of_nil in Hk.
    - rewrite !lookup_delete_ne; [done|..]; intros <-; apply Hk; elem_of_list. }
  assert (Hfinal : ∀ k, k ≠ "Content-Security-Policy" →
            (if bool_decide ("content-security-policy"
                             ∉ (set_map Py.lower (dom kept) : gset string))
             then <["Content-Security-Policy" := "frame-ancestors *"]> kept
             else kept) !! k = kept !! k).
  { intros k Hk. destruct (bool_decide _); [by rewrite lookup_insert_ne|done]. }
  assert (Hcsp : "content-security-policy" ∈ (set_map Py.lower (dom kept) : gset string)
                 ↔ ∃ k, Py.lower k = "content-security-policy" ∧ is_Some (kept !! k)).
  { rewrite elem_of_map. split.
    - intros (k & Hl & Hd). exists k. by apply elem_of_dom in Hd.
    - intros (k & Hl & Hd). exists k. by apply elem_of_dom in Hd. }
  split; [|split; [|split; [|split; [|split; [|split]]]]].
  - intros k Hk. rewrite Hfinal.
    2:{ intros ->. apply (bool_decide_pack _) in Hk. vm_compute in Hk. done. }
    rewrite Hkept. destruct (bool_decide (k ∈ _)); [done|]. rewrite Hcopied.
    destruct (keep k) eqn:E; [|done]. by apply Hkeep in E.
  - rewrite Hfinal by done. rewrite Hkept. by rewrite bool_decide_eq_true_2 by elem_of_list.
  - rewrite Hfinal by done. rewrite Hkept. by rewrite bool_decide_eq_true_2 by elem_of_list.
  - destruct (decide ("content-security-policy"
                      ∈ (set_map Py.lower (dom kept) : gset string))) as [Hc|Hc].
    + rewrite bool_decide_eq_false_2 by (by intros Hn).
      apply Hcsp in Hc as (k & Hl & [v Hv]). by exists k, v.
    + rewrite bool_decide_eq_true_2 by done.
      exists "Content-Security-Policy", "frame-ancestors *".
      split; [by rewrite lookup_insert_eq|done].
  - intros k [Hlow Hx] Hk. rewrite Hfinal by done. rewrite Hkept.
    rewrite bool_decide_eq_false_2 by done. rewrite Hcopied.
    apply Hkeep in Hlow. by rewrite Hlow.
  - intros (k & [Hlow Hx] & Hl & Hs).
    rewrite bool_decide_eq_false_2.
    2:{ intros Hn. apply Hn, Hcsp. exists k. split; [done|].
        rewrite Hkept, bool_decide_eq_false_2 by done. rewrite Hcopied.
        apply Hkeep in Hlow. by rewrite Hlow. }
    rewrite Hkept. rewrite bool_decide_eq_false_2.
    2:{ intros H. repeat (apply elem_of_cons in H as [H|H]; [discriminate|]).
        by apply elem_of_nil in H. }
    rewrite Hcopied. replace (keep "Content-Security-Policy") with true by reflexivity.
    done.
  - intros Hnone. rewrite bool_decide_eq_true_2; [by rewrite lookup_insert_eq|].
    intros (k & Hl & [v Hv])%Hcsp.
    rewrite Hkept in Hv. destruct (bool_decide (k ∈ _)); [done|]. rewrite Hcopied in Hv.
    destruct (keep k); [|done]. by rewrite (Hnone k Hl) in Hv.
Qed.
End HeaderFacts.

(** ** src/services/session_manager.py and src/api/routes/preview.py: access *)

Section AccessFacts.
Import Models World.
Variable settings : Config.Settings.

(** What [validate_access] answers, read off the state. *)
Definition access (sid tok : string) (w : World.t)
    : bool * option SessionInDB * option Z :=
  match Db.get_session sid (db w) with
  | None => (false, None, None)
  | Some s =>
      if bool_decide (access_token s = tok) then
        if bool_decide (status s = READY
                        ∧ container_instance s = Some (Config.full_instance_id settings))
        then match processes w !! sid with
             | Some info => (true, Some s, Some (World.port info))
             | None => (false, Some s, None)
             end
        else (false, Some s, None)
      else (false, None, None)
  end.

Lemma validate_access_cases (sid tok : string) (w : World.t) :
  SessionManager.validate_access settings sid tok w = (Py.Ok (access sid tok w), w).
Proof.
  unfold SessionManager.validate_access, access, Gateway.get_session,
    ProcessManager.get_process_info, Py.bind, Py.get, Py.ret,
    Security.constant_time_compare, SessionManager.self_id. cbn.
  destruct (Db.get_session sid (db w)) as [s|]; [|done].
  destruct (decide (access_token s = tok)) as [Ht|Ht];
    [rewrite !(bool_decide_eq_true_2 (access_token s = tok)) by done
    |by rewrite !(bool_decide_eq_false_2 (access_token s = tok)) by done].
  cbn [negb].
  destruct (decide (status s = READY)) as [Hs|Hs].
  - rewrite (bool_decide_eq_false_2 (status s ≠ READY)) by (by intros H).
    destruct (decide (container_instance s = Some (Config.full_instance_id settings)))
      as [Hc|Hc].
    + rewrite (bool_decide_eq_false_2 (container_instance s ≠ _)) by (by intros H).
      rewrite bool_decide_eq_true_2 by done.
      by destruct (processes w !! sid).
    + rewrite (bool_decide_eq_true_2 (container_instance s ≠ _)) by done.
      by rewrite bool_decide_eq_false_2 by (by intros [_ ?]).
  - rewrite (bool_decide_eq_true_2 (status s ≠ READY)) by done.
    by rewrite bool_decide_eq_false_2 by (by intros [? _]).
Qed.

(** X23. [validate_access] grants access only to the holder of the
    session's token, for a ready session that this instance owns and
    runs: it never changes the state; it answers valid, with the port
    of the session's process, exactly when the id resolves to a live
    row whose access token is the given one, whose status is ready,
    whose owner is this instance and for which a process is registered;
    and it discloses the row only when the token matches. *)
Theorem validate_access_spec (sid tok : string) (w : World.t) :
  ∃ is_valid session port,
    SessionManager.validate_access settings sid tok w
    = (Py.Ok (is_valid, session, port), w)
    ∧ (is_valid = true ↔
       ∃ s info, Db.get_session sid (db w) = Some s ∧ access_token s = tok
                 ∧ status s = READY
                 ∧ container_instance s = Some (Config.full_instance_id settings)
                 ∧ processes w !! sid = Some info ∧ session = Some s
                 ∧ port = Some (World.port info))
    ∧ (is_valid = false → port = None)
    ∧ (∀ s, session = Some s →
            Db.get_session sid (db w) = Some s ∧ access_token s = tok).
Proof.
  destruct (access sid tok w) as [[is_valid session] port] eqn:E.
  exists is_valid, session, port. split; [by rewrite validate_access_cases, E|].
  unfold access in E.
  destruct (Db.get_session sid (db w)) as [s|] eqn:Hg.
  2:{ injection E as <- <- <-. split; [split; [done|by intros (?&?&?&_)]|done]. }
  destruct (decide (access_token s = tok)) as [Ht|Ht].
  2:{ rewrite bool_decide_eq_false_2 in E by done. injection E as <- <- <-.
      split; [split; [done|]|done]. intros (s' & ? & [= <-] & ? & _). done. }
  rewrite bool_decide_eq_true_2 in E by done.
  destruct (decide (status s = READY
                    ∧ container_instance s = Some (Config.full_instance_id settings)))
    as [[Hs Hc]|Hn].
  - rewrite bool_decide_eq_true_2 in E by done.
    destruct (processes w !! sid) as [info|] eqn:Hp; injection E as <- <- <-.
    + split; [split; [intros _; by exists s, info|done]|].
      split; [done|]. by intros s' [= <-].
    + split; [split; [done|by intros (?&?&_&_&_&_&?&_)]|].
      split; [done|]. by intros s' [= <-].
  - rewrite bool_decide_eq_false_2 in E by done. injection E as <- <- <-.
    split; [split; [done|]|].
    + intros (s' & info & [= <-] & _ & Hs & Hc & _). exfalso. apply Hn. by split.
    + split; [done|]. by intros s' [= <-].
Qed.

Section Routes.
Variable o : Oracle.
Variable status_text : SessionStatus → string.

(** X24. Without the token of the session nothing is served and nothing
    changes: when the token of the request (query parameter, or else
    cookie) is not the access token of a live session of that id,
    [proxy_http] answers 401 or 404 and [proxy_websocket] closes with
    4001 or 4004, the state is untouched (no activity recorded, no
    recovery started), and an unknown id and a wrong token for a known
    id are answered alike. *)
Theorem no_token_no_service (req : Preview.Request) (w : World.t) :
  (∀ s, Db.get_session (Preview.session_id req) (db w) = Some s →
        Preview.effective_token req ≠ Some (access_token s)) →
  let manager := Preview.session_manager settings o in
  let wellformed := Security.validate_access_token (Preview.effective_token req) in
  Preview.proxy_http settings manager req w
  = (Py.Ok (if wellformed then Preview.HTTPException 404 "Session not found"
            else Preview.HTTPException 401 "Invalid or missing access token"), w)
  ∧ PreviewWs.proxy_websocket manager status_text req w
    = (Py.Ok (if wellformed then PreviewWs.Closed 4004 "Session not found"
              else PreviewWs.Closed 4001 "Invalid access token"), w).
Proof.
  intros Htok. cbv zeta.
  unfold Preview.proxy_http, PreviewWs.proxy_websocket.
  destruct (Security.validate_access_token (Preview.effective_token req)) eqn:Hv;
    [|done]. cbn [negb].
  destruct (Preview.effective_token req) as [tok|] eqn:He; [|done]. cbn [default].
  assert (Ha : access (Preview.session_id req) tok w = (false, None, None)).
  { unfold access. destruct (Db.get_session _ _) as [s|] eqn:Hg; [|done].
    rewrite bool_decide_eq_false_2; [done|]. intros <-. by apply (Htok s). }
  unfold Py.bind. cbn [Preview.validate_access Preview.session_manager].
  cbn [from_option Datatypes.id]. by rewrite validate_access_cases, Ha.
Qed.

End Routes.
End AccessFacts.

Lemma no_token_no_service_witness :
  Preview.proxy_http path_settings (Preview.session_manager path_settings obliging)
    S1_request fresh_world
  = (Py.Ok (Preview.HTTPException 404 "Session not found"), fresh_world).
Proof.
  assert (H : ∀ s, Db.get_session (Preview.session_id S1_request) (World.db fresh_world)
                   = Some s →
                   Preview.effective_token S1_request ≠ Some (Models.access_token s))
    by (intros s Hs; discriminate Hs).
  exact (proj1 (no_token_no_service path_settings obliging Models.value
                  S1_request fresh_world H)).
Defined.

(** ** src/services/session_manager.py: stopping and reusing sessions *)

Section LifecycleFacts.
Import Models World.
Variable settings : Config.Settings.

Lemma soft_delete_get_None (now : Z) (sid : string) (t : list SessionInDB) :
  Db.get_session sid (Db.soft_delete_session now sid t).2 = None.
Proof.
  apply get_session_None. unfold Db.soft_delete_session. cbn [snd].
  intros s [x [-> Hx]]%list_elem_of_fmap [H1 H2].
  unfold Db.targets, Db.not_deleted in *.
  destruct (decide (id x = sid)) as [Hi|Hi], (decide (deleted_at x = None)) as [Hd|Hd].
  - rewrite !bool_decide_eq_true_2 in H2 by done. done.
  - rewrite (bool_decide_eq_false_2 (deleted_at x = None)), andb_false_r in H2 by done.
    done.
  - rewrite (bool_decide_eq_false_2 (id x = sid)) in H1 by done. done.
  - rewrite (bool_decide_eq_false_2 (id x = sid)) in H1 by done. done.
Qed.

Lemma bind_Ok {S A B} (m : Py.M S A) (k : A → Py.M S B) (w : S) (a : A) (w' : S) :
  m w = (Py.Ok a, w') → Py.bind m k w = k a w'.
Proof. intros H. unfold Py.bind. by rewrite H. Qed.

Lemma filter_chars_all p s : Py.all_chars p s = true → Py.filter_chars p s = s.
Proof.
  induction s as [|c s IH]; simpl; [done|].
  intros [H1 H2]%andb_true_iff. by rewrite H1, (IH H2).
Qed.

Lemma workspace_path_valid sid :
  Py.all_chars id_char sid = true →
  ∃ p, WorkspaceManager._get_workspace_path settings sid = Py.Ok p.
Proof.
  intros H. unfold WorkspaceManager._get_workspace_path.
  fold id_char. rewrite (filter_chars_all _ _ H).
  rewrite bool_decide_eq_false_2 by (by intros Hn). by eexists.
Qed.

(** X26. [stop_session] removes every trace of a live session whose id
    is made of letters, digits, hyphens and underscores: it answers
    [True]; afterwards the id resolves to nothing, no process, setup
    task or GitHub token is held for it, the port of its process is
    free and its workspace is gone. It is not repeatable: a second call
    answers [False] and changes nothing, so a second [DELETE] of the
    session is answered 404. *)
Theorem stop_session_effects (sid : string) (s : SessionInDB) (w : World.t) :
  Db.get_session sid (db w) = Some s → Py.all_chars id_char sid = true →
  ∃ w', SessionManager.stop_session settings sid w = (Py.Ok true, w')
    ∧ Db.get_session sid (db w') = None
    ∧ processes w' !! sid = None
    ∧ (sid ∉ setup_tasks w') ∧ github_tokens w' !! sid = None
    ∧ (∀ info, processes w !! sid = Some info →
               World.port info ∉ PortAllocator._allocated (allocator w'))
    ∧ (∀ p, WorkspaceManager._get_workspace_path settings sid = Py.Ok p → p ∉ fs w')
    ∧ SessionManager.stop_session settings sid w' = (Py.Ok false, w')
    ∧ Sessions.stop_session settings sid w'
      = (Py.Ok (Sessions.HTTPException 404 "session_not_found"), w').
Proof.
  intros Hg Hid. destruct (workspace_path_valid sid Hid) as [p Hp].
  assert (Hstop : ∀ w1, ∃ w2,
            ProcessManager.stop_process sid w1 = (Py.Ok (bool_decide (is_Some (processes w1 !! sid))), w2)
            ∧ db w2 = db w1 ∧ fs w2 = fs w1 ∧ now w2 = now w1
            ∧ setup_tasks w2 = setup_tasks w1 ∧ github_tokens w2 = github_tokens w1
            ∧ processes w2 = delete sid (processes w1)
            ∧ ∀ info, processes w1 !! sid = Some info →
                      World.port info ∉ PortAllocator._allocated (allocator w2)).
  { intros w1. unfold ProcessManager.stop_process, Py.bind, Py.get. cbn.
    destruct (processes w1 !! sid) as [info|] eqn:E.
    - eexists. split; [reflexivity|]. cbn. repeat (split; [done|]).
      intros info' [= <-]. rewrite elem_of_difference, elem_of_singleton. by intros [_ ?].
    - exists w1. split; [done|]. repeat (split; [done|]).
      split; [by rewrite delete_id|done]. }
  set (w1 := set_github_tokens (λ ts, delete sid ts)
               (set_setup_tasks (λ ts, ts ∖ {[sid]}) w)).
  destruct (Hstop w1) as (w2 & Hrun2 & Hdb2 & Hfs2 & Hnow2 & Hst2 & Hgt2 & Hps2 & Hport2).
  assert (Hclean : ∃ w3 b, WorkspaceManager.cleanup_workspace settings sid w2 = (Py.Ok b, w3)
            ∧ db w3 = db w2 ∧ now w3 = now w2 ∧ setup_tasks w3 = setup_tasks w2
            ∧ github_tokens w3 = github_tokens w2 ∧ processes w3 = processes w2
            ∧ allocator w3 = allocator w2 ∧ p ∉ fs w3).
  { unfold WorkspaceManager.cleanup_workspace, Py.bind, Py.of_result, Py.get.
    rewrite Hp. cbn.
    destruct (decide (p ∈ fs w2)) as [Hin|Hin].
    - rewrite bool_decide_eq_false_2 by (by intros H). eexists _, _.
      split; [reflexivity|]. cbn. repeat (split; [done|]).
      unfold Fs.rmtree. rewrite elem_of_filter. intros [H _]. by apply H.
    - rewrite bool_decide_eq_true_2 by done. by eexists _, _. }
  destruct Hclean as (w3 & b & Hrun3 & Hdb3 & Hnow3 & Hst3 & Hgt3 & Hps3 & Hal3 & Hfs3).
  set (w4 := log_status sid STOPPED
               (set_db (λ _, (Db.soft_delete_session (now w3) sid (db w3)).2) w3)).
  assert (Hfirst : SessionManager.stop_session settings sid w = (Py.Ok true, w4)).
  { unfold SessionManager.stop_session.
    rewrite (bind_Ok _ _ w (Some s) w)
      by (unfold Gateway.get_session, Py.bind, Py.get, Py.ret; by rewrite Hg).
    rewrite (bind_Ok _ _ w tt _) by reflexivity.
    rewrite (bind_Ok _ _ _ tt w1) by reflexivity.
    rewrite (bind_Ok _ _ w1 _ w2 Hrun2).
    rewrite (bind_Ok _ _ w2 _ w3 Hrun3).
    rewrite (bind_Ok _ _ w3 (Db.soft_delete_session (now w3) sid (db w3)).1 w4)
      by reflexivity.
    reflexivity. }
  assert (Hgone : Db.get_session sid (db w4) = None) by apply soft_delete_get_None.
  assert (Hsecond : SessionManager.stop_session settings sid w4 = (Py.Ok false, w4)).
  { unfold SessionManager.stop_session, Gateway.get_session, Py.bind, Py.get, Py.ret.
    cbn [fst snd]. by rewrite Hgone. }
  exists w4. split; [done|]. split; [done|].
  split; [cbn; rewrite Hps3, Hps2; apply lookup_delete_eq|].
  split.
  { cbn. rewrite Hst3, Hst2. cbn. rewrite elem_of_difference, elem_of_singleton.
    by intros [_ ?]. }
  split; [cbn; rewrite Hgt3, Hgt2; cbn; apply lookup_delete_eq|].
  split; [intros info Hinfo; cbn; rewrite Hal3; by apply Hport2|].
  split; [intros p' Hp'; cbn; rewrite Hp in Hp'; by injection Hp' as <-|].
  split; [done|].
  unfold Sessions.stop_session, Py.bind. by rewrite Hsecond.
Qed.

Section Reuse.
Variable o : Oracle.

End Reuse.
End LifecycleFacts.

(** The state after one session was created for [alice/vite-app]. *)
Definition world_with_S1 : World.t :=
  (Gateway.create_session path_settings obliging "alice" "vite-app" "main" fresh_world).2.

(** The row of that session. *)
Definition row_S1 : Models.SessionInDB :=
  Models.mkSession "S1" 0 0 0 3600 None "alice" "vite-app" "main" Models.PENDING
    None None (Some "local-i1") "spl_0123456789abcdefghijklmnop".

Lemma stop_session_effects_witness :
  ∃ w', SessionManager.stop_session path_settings "S1" world_with_S1 = (Py.Ok true, w')
        ∧ Db.get_session "S1" (World.db w') = None
        ∧ SessionManager.stop_session path_settings "S1" w' = (Py.Ok false, w').
Proof.
  destruct (stop_session_effects path_settings "S1" row_S1 world_with_S1
              eq_refl eq_refl)
    as (w' & H1 & H2 & _ & _ & _ & _ & _ & H3 & _).
  exists w'. split; [exact H1|]. split; [exact H2|exact H3].
Defined.


(** ** src/services/session_manager.py: the periodic cleanup *)

Section CleanupFacts.
Import Models World.
Variable settings : Config.Settings.

(** What a session id resolves to is the same in [w'] as in [w]: its
    row, its process, its GitHub token and its setup task. *)
Definition untouched (sid : string) (w w' : World.t) : Prop :=
  Db.get_session sid (db w') = Db.get_session sid (db w)
  ∧ processes w' !! sid = processes w !! sid
  ∧ github_tokens w' !! sid = github_tokens w !! sid
  ∧ (sid ∈ setup_tasks w' ↔ sid ∈ setup_tasks w).

(** The session is owned by this instance. *)
Definition own (x : SessionInDB) : Prop :=
  container_instance x = Some (Config.full_instance_id settings).

Lemma untouched_refl sid w : untouched sid w w.
Proof. by repeat split. Qed.

Lemma untouched_trans sid w1 w2 w3 :
  untouched sid w1 w2 → untouched sid w2 w3 → untouched sid w1 w3.
Proof.
  intros (A1 & A2 & A3 & A4) (B1 & B2 & B3 & B4). repeat split.
  - by rewrite B1. - by rewrite B2. - by rewrite B3.
  - intros H. by apply A4, B4. - intros H. by apply B4, A4.
Qed.

Lemma soft_delete_frame now sid sid' (t : list SessionInDB) :
  sid ≠ sid' →
  Db.get_session sid (Db.soft_delete_session now sid' t).2 = Db.get_session sid t.
Proof.
  intros Hne. unfold Db.soft_delete_session. cbn [snd].
  apply (get_session_frame _ sid'); [done|by intros s; destruct (Db.targets sid' s)|].
  intros s Hs. unfold Db.targets.
  by rewrite (bool_decide_eq_false_2 (id s = sid')) by done.
Qed.

Lemma soft_delete_keeps_None now sid sid' (t : list SessionInDB) :
  Db.get_session sid t = None →
  Db.get_session sid (Db.soft_delete_session now sid' t).2 = None.
Proof.
  rewrite !get_session_None. intros H s. unfold Db.soft_delete_session. cbn [snd].
  intros [x [-> Hx]]%list_elem_of_fmap. destruct (Db.targets sid' x).
  - cbn. by intros [_ ?].
  - by apply H.
Qed.

(** What one call of [stop_session] does to the state, whatever it
    answers. *)
Lemma stop_session_shape sid' w :
  let res := SessionManager.stop_session settings sid' w in
  ((res.1 ≠ Py.Ok true ∧ db res.2 = db w)
   ∨ (res.1 = Py.Ok true
      ∧ db res.2 = (Db.soft_delete_session (now w) sid' (db w)).2))
  ∧ (processes res.2 = processes w ∨ processes res.2 = delete sid' (processes w))
  ∧ (github_tokens res.2 = github_tokens w
     ∨ github_tokens res.2 = delete sid' (github_tokens w))
  ∧ (setup_tasks res.2 = setup_tasks w ∨ setup_tasks res.2 = setup_tasks w ∖ {[sid']})
  ∧ now res.2 = now w
  ∧ (res.1 = Py.Ok false → Db.get_session sid' (db w) = None)
  ∧ (Py.all_chars id_char sid' = true → ∃ b, res.1 = Py.Ok b).
Proof.
  assert (Hbad : WorkspaceManager._get_workspace_path settings sid'
                 = Py.Ok (Path.joinpath (WorkspaceManager._base_dir settings) sid')
                 ∨ Py.all_chars id_char sid' = false).
  { destruct (Py.all_chars id_char sid') eqn:H; [left|by right].
    unfold WorkspaceManager._get_workspace_path. fold id_char.
    rewrite (filter_chars_all _ _ H). by rewrite bool_decide_eq_false_2 by (by intros ?). }
  unfold SessionManager.stop_session, Gateway.get_session, ProcessManager.stop_process,
    WorkspaceManager.cleanup_workspace, Gateway.soft_delete_session,
    Py.bind, Py.get, Py.modify, Py.ret, Py.of_result.
  cbn [fst snd].
  destruct (Db.get_session sid' (db w)) as [s|] eqn:Hg.
  2:{ cbn. split_and!; try (by left); try done. intros _. by eexists. }
  cbn [fst snd processes set_github_tokens set_setup_tasks].
  destruct (processes w !! sid') as [info|];
    (destruct Hbad as [-> | ->];
     [ cbn; destruct (bool_decide _); cbn;
       split_and!; first [done | by right | by left | (intros _; by eexists)]
     | destruct (WorkspaceManager._get_workspace_path settings sid') as [p|e];
       cbn; [destruct (bool_decide _); cbn|];
       split_and!; first [done | by left | by right] ]).
Qed.

(** One call of [stop_session] leaves the other ids alone, revives
    nothing, and, if it answers, leaves its own id resolving to
    nothing. *)
Lemma stop_session_step sid' w :
  let res := SessionManager.stop_session settings sid' w in
  (∀ sid, sid ≠ sid' → untouched sid w res.2)
  ∧ (∀ sid, Db.get_session sid (db w) = None → Db.get_session sid (db res.2) = None)
  ∧ (∀ b, res.1 = Py.Ok b → Db.get_session sid' (db res.2) = None)
  ∧ now res.2 = now w
  ∧ (Py.all_chars id_char sid' = true → ∃ b, res.1 = Py.Ok b).
Proof.
  destruct (stop_session_shape sid' w) as (Hdb & Hps & Hgt & Hst & Hnow & Hfalse & Hok).
  cbv zeta in *. set (res := SessionManager.stop_session settings sid' w) in *.
  split; [|split; [|split; [|split; [done|done]]]].
  - intros sid Hne. repeat split.
    + destruct Hdb as [[_ ->]|[_ ->]]; [done|by apply soft_delete_frame].
    + destruct Hps as [->| ->]; [done|by apply lookup_delete_ne].
    + destruct Hgt as [->| ->]; [done|by apply lookup_delete_ne].
    + destruct Hst as [->| ->]; [done|]. rewrite elem_of_difference. by intros [? _].
    + destruct Hst as [->| ->]; [done|]. rewrite elem_of_difference, elem_of_singleton.
      by intros ?.
  - intros sid H. destruct Hdb as [[_ ->]|[_ ->]]; [done|by apply soft_delete_keeps_None].
  - intros b Hb. destruct Hdb as [[Hne Hsame]|[_ ->]]; [|apply soft_delete_get_None].
    destruct b; [done|]. rewrite Hsame. by apply Hfalse.
Qed.

(** The id resolves to nothing. *)
Definition gone (sid : string) (w : World.t) : Prop :=
  Db.get_session sid (db w) = None.

(** What a step aimed at [sid'] may do: it leaves the other ids alone,
    revives nothing and, if it returns, leaves [sid'] gone. *)
Definition step_ok {A} (sid' : string) (m : M A) (w : World.t) : Prop :=
  (∀ sid, sid ≠ sid' → untouched sid w (m w).2)
  ∧ (∀ sid, gone sid w → gone sid (m w).2)
  ∧ (∀ a, (m w).1 = Py.Ok a → gone sid' (m w).2).

Lemma stop_session_ok sid' w :
  step_ok sid' (SessionManager.stop_session settings sid') w.
Proof.
  destruct (stop_session_step sid' w) as (H1 & H2 & H3 & _). by split_and!.
Qed.

Lemma soft_delete_ok sid' w : step_ok sid' (Gateway.soft_delete_session sid') w.
Proof.
  unfold step_ok, gone, Gateway.soft_delete_session, Py.bind, Py.get, Py.modify, Py.ret.
  cbn. split_and!.
  - intros sid Hne. split; [by apply soft_delete_frame|done].
  - intros sid. apply soft_delete_keeps_None.
  - intros _ _. apply soft_delete_get_None.
Qed.

Lemma then_tt_ok {A} sid' (m : M A) w :
  step_ok sid' m w → step_ok sid' (m;; Py.ret tt) w.
Proof.
  unfold step_ok, Py.bind, Py.ret. destruct (m w) as [[a|e] w1]; cbn [fst snd].
  - intros (H1 & H2 & H3). split_and!; [done|done|]. intros _ _. by apply (H3 a).
  - intros (H1 & H2 & _). by split_and!.
Qed.

(** The step of [cleanup_expired_sessions] for one row. *)
Definition expire_step (x : SessionInDB) : M unit :=
  if bool_decide (container_instance x = Some (Config.full_instance_id settings))
  then SessionManager.stop_session settings (id x);; Py.ret tt
  else Gateway.soft_delete_session (id x);; Py.ret tt.

Lemma expire_step_ok x w : step_ok (id x) (expire_step x) w.
Proof.
  unfold expire_step. destruct (bool_decide _); apply then_tt_ok;
    [apply stop_session_ok|apply soft_delete_ok].
Qed.

Lemma expire_step_returns x w :
  (own x → Py.all_chars id_char (id x) = true) → (expire_step x w).1 = Py.Ok tt.
Proof.
  intros Hv. unfold expire_step. case_bool_decide as Ho.
  - destruct (stop_session_step (id x) w) as (_ & _ & _ & _ & Hok).
    destruct (Hok (Hv Ho)) as [b Hb]. unfold Py.bind, Py.ret.
    destruct (SessionManager.stop_session settings (id x) w) as [r w1].
    cbn in Hb. by rewrite Hb.
  - reflexivity.
Qed.

Lemma expire_each_spec (l : list SessionInDB) (c : Z) (w : World.t) :
  let res := Cleanup.expire_each settings l c w in
  (∀ sid, (∀ x, x ∈ l → id x ≠ sid) → untouched sid w res.2)
  ∧ (∀ sid, gone sid w → gone sid res.2)
  ∧ (∀ n, res.1 = Py.Ok n →
          n = c + Z.of_nat (length l) ∧ ∀ x, x ∈ l → gone (id x) res.2)
  ∧ ((∀ x, x ∈ l → own x → Py.all_chars id_char (id x) = true) →
     ∃ n, res.1 = Py.Ok n).
Proof.
  cbv zeta. revert c w. induction l as [|x l IH]; intros c w.
  - cbn. split_and!.
    + intros. apply untouched_refl.
    + done.
    + intros n [= <-]. split; [lia|]. intros x Hx. by apply elem_of_nil in Hx.
    + intros _. by eexists.
  - change (Cleanup.expire_each settings (x :: l) c)
      with (expire_step x;; Cleanup.expire_each settings l (c + 1)).
    destruct (expire_step_ok x w) as (S1 & S2 & S3).
    pose proof (expire_step_returns x w) as S4.
    unfold Py.bind. destruct (expire_step x w) as [[[]|e] w1]; cbn [fst snd] in *.
    + destruct (IH (c + 1) w1) as (I1 & I2 & I3 & I4). split_and!.
      * intros sid Hsid. apply (untouched_trans _ _ w1).
        -- apply S1. intros ->. by apply (Hsid x); [left|].
        -- apply I1. intros y Hy. apply Hsid. by right.
      * intros sid Hg. by apply I2, S2.
      * intros n Hn. destruct (I3 n Hn) as [-> Hall]. split.
        { rewrite length_cons. lia. }
        intros y [->|Hy]%elem_of_cons; [|by apply Hall].
        by apply I2, (S3 tt).
      * intros Hv. apply I4. intros y Hy. apply Hv. by right.
    + split_and!.
      * intros sid Hsid. apply S1. intros ->. by apply (Hsid x); [left|].
      * done.
      * done.
      * intros Hv. exfalso. by specialize (S4 (Hv x ltac:(by left))).
Qed.

Lemma idle_each_spec (l : list SessionInDB) (c : Z) (w : World.t) :
  let res := Cleanup.idle_each settings l c w in
  (∀ sid, (∀ x, x ∈ l → own x → id x ≠ sid) → untouched sid w res.2)
  ∧ (∀ sid, gone sid w → gone sid res.2)
  ∧ (∀ n, res.1 = Py.Ok n →
          n = c + Z.of_nat (length (filter own l))
          ∧ ∀ x, x ∈ l → own x → gone (id x) res.2)
  ∧ ((∀ x, x ∈ l → own x → Py.all_chars id_char (id x) = true) →
     ∃ n, res.1 = Py.Ok n).
Proof.
  cbv zeta. revert c w. induction l as [|x l IH]; intros c w.
  - cbn. split_and!.
    + intros. apply untouched_refl.
    + done.
    + intros n [= <-]. split; [lia|]. intros x Hx. by apply elem_of_nil in Hx.
    + intros _. by eexists.
  - cbn [Cleanup.idle_each]. rewrite filter_cons. unfold own at 2.
    destruct (decide (container_instance x = Some (Config.full_instance_id settings)))
      as [Ho|Ho].
    + rewrite (bool_decide_eq_true_2 _ Ho).
      destruct (stop_session_ok (id x) w) as (S1 & S2 & S3).
      destruct (stop_session_step (id x) w) as (_ & _ & _ & _ & S4).
      unfold Py.bind.
      destruct (SessionManager.stop_session settings (id x) w) as [[b|e] w1];
        cbn [fst snd] in *.
      * destruct (IH (c + 1) w1) as (I1 & I2 & I3 & I4). split_and!.
        -- intros sid Hsid. apply (untouched_trans _ _ w1).
           ++ apply S1. intros ->. by apply (Hsid x); [left| |].
           ++ apply I1. intros y Hy. apply Hsid. by right.
        -- intros sid Hg. by apply I2, S2.
        -- intros n Hn. destruct (I3 n Hn) as [-> Hall]. split.
           { rewrite length_cons. lia. }
           intros y [->|Hy]%elem_of_cons; [|by apply Hall].
           intros _. by apply I2, (S3 b).
        -- intros Hv. apply I4. intros y Hy. apply Hv. by right.
      * split_and!.
        -- intros sid Hsid. apply S1. intros ->. by apply (Hsid x); [left| |].
        -- done.
        -- done.
        -- intros Hv. destruct (S4 (Hv x ltac:(by left) Ho)) as [b Hb]. done.
    + rewrite (bool_decide_eq_false_2 _ Ho).
      destruct (IH c w) as (I1 & I2 & I3 & I4). split_and!.
      * intros sid Hsid. apply I1. intros y Hy. apply Hsid. by right.
      * done.
      * intros n Hn. destruct (I3 n Hn) as [-> Hall]. split; [done|].
        intros y [->|Hy]%elem_of_cons; [done|by apply Hall].
      * intros Hv. apply I4. intros y Hy. apply Hv. by right.
Qed.

Lemma elem_of_take_filter {A} (P : A → Prop) `{!∀ x, Decision (P x)}
    (n : nat) (l : list A) (x : A) :
  x ∈ take n (filter P l) → P x ∧ x ∈ l.
Proof.
  intros (i & Hi & _)%elem_of_take.
  by apply list_elem_of_lookup_2, list_elem_of_filter in Hi.
Qed.

(** X28. [cleanup_expired_sessions] handles at most fifty rows, each of
    them not deleted and past its expiry. When it returns, its answer is
    the number of these rows, whoever owns them, and the id of each of
    them resolves to nothing. It returns whenever the ids of the rows
    owned by this instance are made of letters, digits, hyphens and
    underscores. Whether it returns or raises, an id that none of these
    rows has keeps its row, its process, its GitHub token and its setup
    task. *)
Theorem cleanup_expired_sessions_spec (w : World.t) :
  let expired := DbQueries.get_expired_sessions (now w) 50 (db w) in
  let res := Cleanup.cleanup_expired_sessions settings w in
  (length expired ≤ 50)%nat
  ∧ (∀ x, x ∈ expired → x ∈ db w ∧ deleted_at x = None ∧ expires_at x < now w)
  ∧ (∀ n, res.1 = Py.Ok n →
          n = Z.of_nat (length expired) ∧ ∀ x, x ∈ expired → gone (id x) res.2)
  ∧ ((∀ x, x ∈ expired → own x → Py.all_chars id_char (id x) = true) →
     ∃ n, res.1 = Py.Ok n)
  ∧ (∀ sid, (∀ x, x ∈ expired → id x ≠ sid) → untouched sid w res.2).
Proof.
  cbv zeta.
  destruct (expire_each_spec (DbQueries.get_expired_sessions (now w) 50 (db w)) 0 w)
    as (H1 & _ & H3 & H4).
  change (Cleanup.cleanup_expired_sessions settings w)
    with (Cleanup.expire_each settings
            (DbQueries.get_expired_sessions (now w) 50 (db w)) 0 w).
  split_and!; [apply firstn_le_length| |done|done|done].
  intros x [[Hd He] Hx]%elem_of_take_filter. split; [done|]. split; [|done].
  unfold Db.not_deleted in Hd. by apply bool_decide_eq_true_1 in Hd.
Qed.

Section Idle.
Variable session_idle_timeout : Z.

(** X29. [cleanup_idle_sessions] stops only sessions of this instance:
    among at most fifty rows that are not deleted, ready and without
    activity since the threshold, the rows of other instances are passed
    over and not counted. When it returns, its answer is the number of
    the rows owned by this instance, and the id of each of these
    resolves to nothing. It returns whenever their ids are made of
    letters, digits, hyphens and underscores. Whether it returns or
    raises, an id that none of the rows owned by this instance has keeps
    its row, its process, its GitHub token and its setup task. *)
Theorem cleanup_idle_sessions_spec (w : World.t) :
  let idle := DbQueries.get_idle_sessions (now w - session_idle_timeout) 50 (db w) in
  let res := Cleanup.cleanup_idle_sessions settings session_idle_timeout w in
  (length idle ≤ 50)%nat
  ∧ (∀ x, x ∈ idle → x ∈ db w ∧ deleted_at x = None ∧ status x = READY
                     ∧ last_activity_at x < now w - session_idle_timeout)
  ∧ (∀ n, res.1 = Py.Ok n →
          n = Z.of_nat (length (filter own idle))
          ∧ ∀ x, x ∈ idle → own x → gone (id x) res.2)
  ∧ ((∀ x, x ∈ idle → own x → Py.all_chars id_char (id x) = true) →
     ∃ n, res.1 = Py.Ok n)
  ∧ (∀ sid, (∀ x, x ∈ idle → own x → id x ≠ sid) → untouched sid w res.2).
Proof.
  cbv zeta.
  destruct (idle_each_spec
              (DbQueries.get_idle_sessions (now w - session_idle_timeout) 50 (db w)) 0 w)
    as (H1 & _ & H3 & H4).
  change (Cleanup.cleanup_idle_sessions settings session_idle_timeout w)
    with (Cleanup.idle_each settings
            (DbQueries.get_idle_sessions (now w - session_idle_timeout) 50 (db w)) 0 w).
  split_and!; [apply firstn_le_length| |done|done|done].
  intros x [(Hd & Hs & Ha) Hx]%elem_of_take_filter. split; [done|]. split; [|done].
  unfold Db.not_deleted in Hd. by apply bool_decide_eq_true_1 in Hd.
Qed.
End Idle.
End CleanupFacts.

(** ** src/services/proxy.py: what the rewriting of HTML passes over *)

Section QuoteFacts.
Variable settings : Config.Settings.



End QuoteFacts.

